(** * The three pipeline stages: loader, transformer, analyzer

    A shallow embedding of [scripts/load_data.py], [scripts/process_data.py]
    and [scripts/analyze_results.py].  Each script is a function of its
    argument vector over an explicit world (filesystem, wall clock, standard
    output); Python exceptions are an error outcome of a small state and
    error monad.

    The parts of the Python platform the scripts call but do not define
    ([json.dump], [json.dumps], [json.load], [str.upper],
    [datetime.now().isoformat()], [str(e)]) are Section variables: every
    statement holds for whatever they compute.  A concrete codec is given at
    the end of the file to run the stages on examples. *)

From Stdlib Require Import String Ascii ZArith List Lia DecimalString.
From stdpp Require Import base option gmap strings.

Set Warnings "-register-all".
Local Open Scope string_scope.
Local Open Scope Z_scope.

(** ** Python values that travel through JSON *)

(** A Python [float], named by a decimal literal that reads as it: the
    binary64 number nearest to [mantissa / 10 ^ places].  [95.5] is
    [PyFloat 955 1]. *)
Record pyfloat := PyFloat { mantissa : Z; places : nat }.

(** Python objects made of [dict], [list], [str], [int], [float], [bool] and
    [None].  A [dict] keeps insertion order, so it is an association list;
    the keys of a well-formed one are pairwise distinct. *)
Inductive json :=
| JNull
| JBool (b : bool)
| JInt (n : Z)
| JFloat (f : pyfloat)
| JStr (s : string)
| JArr (items : list json)
| JObj (fields : list (string * json)).

(** ** Exceptions the stages can meet; all are subclasses of [Exception] *)

Inductive exn :=
| OSError (errno : Z) (filename : string)
| DecodeError (text : string)       (* json.load refused the text *)
| KeyError (key : string)
| TypeError (culprit : json)        (* value of the wrong Python type *)
| AttributeError (culprit : json)   (* value without the method called *)
| RecursionError.

Definition ENOENT : Z := 2.
Definition EEXIST : Z := 17.
Definition ENOTDIR : Z := 20.
Definition EISDIR : Z := 21.

Definition is_FileExistsError (e : exn) : bool :=
  match e with
  | OSError n _ => Z.eqb n EEXIST
  | _ => false
  end.

Definition is_OSError (e : exn) : bool :=
  match e with
  | OSError _ _ => true
  | _ => false
  end.

(** ** [posixpath]: pure functions on path strings *)

Definition is_slash (c : ascii) : bool := Ascii.eqb c "/"%char.

Definition is_empty (s : string) : bool :=
  match s with
  | EmptyString => true
  | String _ _ => false
  end.

(** [p[:i], p[i:]] with [i = p.rfind('/') + 1]. *)
Fixpoint rsplit_slash (p : string) : string * string :=
  match p with
  | EmptyString => (EmptyString, EmptyString)
  | String c r =>
      let '(h, t) := rsplit_slash r in
      if is_empty h
      then if is_slash c then (String c EmptyString, t)
           else (EmptyString, String c t)
      else (String c h, t)
  end.

(** [s.rstrip('/')]. *)
Fixpoint rstrip_slash (s : string) : string :=
  match s with
  | EmptyString => EmptyString
  | String c r =>
      let r' := rstrip_slash r in
      if is_slash c && is_empty r' then EmptyString else String c r'
  end.

(** [if head and head != '/' * len(head): head = head.rstrip('/')]: a head
    made of slashes only strips to the empty string and is kept whole. *)
Definition strip_head (head : string) : string :=
  if is_empty (rstrip_slash head) then head else rstrip_slash head.

(** [posixpath.split]. *)
Definition path_split (p : string) : string * string :=
  let '(head, tail) := rsplit_slash p in (strip_head head, tail).

(** [posixpath.dirname]. *)
Definition dirname (p : string) : string := fst (path_split p).

(** ** The filesystem

    A tree of directories and regular files, keyed by the resolved path (the
    names from the root).  There are no symbolic links and no permission
    bits: every directory that exists can be written to.  The root always
    exists. *)

Inductive inode :=
| IFile (content : string)
| IDir.

Record filesystem := Filesystem {
  nodes : gmap (list string) inode;
  cwd : list string
}.

Definition node_at (fs : filesystem) (p : list string) : option inode :=
  match p with
  | [] => Some IDir
  | _ => nodes fs !! p
  end.

Definition is_dir_at (fs : filesystem) (p : list string) : bool :=
  match node_at fs p with
  | Some IDir => true
  | _ => false
  end.

(** [p.split('/')]: the text between the slashes, empty pieces included. *)
Fixpoint split_slash (p : string) : list string :=
  match p with
  | EmptyString => [EmptyString]
  | String c r =>
      if is_slash c then EmptyString :: split_slash r
      else match split_slash r with
           | [] => [String c EmptyString]
           | x :: xs => String c x :: xs
           end
  end.

(** Path resolution, one component at a time.  A component is looked up in
    the directory reached so far, which must exist and be a directory; an
    empty component and [.] stay there, [..] goes to the parent. *)
Fixpoint walk (fs : filesystem) (cur : list string) (comps : list string)
  : Z + list string :=
  match comps with
  | [] => inr cur
  | c :: rest =>
      match node_at fs cur with
      | None => inl ENOENT
      | Some (IFile _) => inl ENOTDIR
      | Some IDir =>
          if is_empty c || String.eqb c "." then walk fs cur rest
          else if String.eqb c ".." then walk fs (removelast cur) rest
          else walk fs (cur ++ [c]) rest
      end
  end.

Definition is_absolute (p : string) : bool :=
  match p with
  | String c _ => is_slash c
  | EmptyString => false
  end.

(** The resolved path a path string names, or the [errno] of the failure.
    The last component need not exist.  The empty path names nothing. *)
Definition resolve (fs : filesystem) (p : string) : Z + list string :=
  if is_empty p then inl ENOENT
  else walk fs (if is_absolute p then [] else cwd fs) (split_slash p).

(** [os.stat]. *)
Definition stat (fs : filesystem) (p : string) : Z + inode :=
  match resolve fs p with
  | inl e => inl e
  | inr t => match node_at fs t with
             | None => inl ENOENT
             | Some n => inr n
             end
  end.

(** [os.path.exists] and [os.path.isdir]: [os.stat] with every [OSError]
    turned into [False]. *)
Definition path_exists (fs : filesystem) (p : string) : bool :=
  match stat fs p with
  | inr _ => true
  | inl _ => false
  end.

Definition path_isdir (fs : filesystem) (p : string) : bool :=
  match stat fs p with
  | inr IDir => true
  | _ => false
  end.

Definition put_node (fs : filesystem) (t : list string) (n : inode)
  : filesystem :=
  Filesystem (<[t := n]> (nodes fs)) (cwd fs).

(** [os.mkdir]; trailing slashes of the name are ignored, as the kernel
    does for [mkdir(2)]. *)
Definition mkdir (fs : filesystem) (p : string) : Z + filesystem :=
  match resolve fs (strip_head p) with
  | inl e => inl e
  | inr t =>
      match node_at fs t with
      | Some _ => inl EEXIST
      | None => inr (put_node fs t IDir)
      end
  end.

(** [open(p, 'w')], the whole text written, and the file closed. *)
Definition write_file (fs : filesystem) (p : string) (text : string)
  : Z + filesystem :=
  match resolve fs p with
  | inl e => inl e
  | inr t =>
      match node_at fs t with
      | Some IDir => inl EISDIR
      | _ => inr (put_node fs t (IFile text))
      end
  end.

(** [open(p, 'r')] and [read()]. *)
Definition read_file (fs : filesystem) (p : string) : Z + string :=
  match stat fs p with
  | inl e => inl e
  | inr IDir => inl EISDIR
  | inr (IFile text) => inr text
  end.

(** [os.path.getsize]: the byte length of a regular file.  For a directory
    the kernel reports a size of its own choosing, [dir_size]. *)
Definition getsize (dir_size : Z) (fs : filesystem) (p : string) : Z + Z :=
  match stat fs p with
  | inl e => inl e
  | inr IDir => inr dir_size
  | inr (IFile text) => inr (Z.of_nat (String.length text))
  end.

(** ** The world a script runs in, and the monad of its statements *)

Record world := World {
  fs : filesystem;
  ticks : nat;               (* calls of [datetime.now()] made so far *)
  stdout : list string       (* one entry for each [print] call *)
}.

Inductive outcome (A : Type) :=
| Returned (a : A)
| Raised (e : exn).
Arguments Returned {A} a.
Arguments Raised {A} e.

Definition py (A : Type) : Type := world -> outcome A * world.

Definition ret {A} (a : A) : py A := fun w => (Returned a, w).

Definition raise {A} (e : exn) : py A := fun w => (Raised e, w).

Definition bind {A B} (c : py A) (k : A -> py B) : py B :=
  fun w =>
    match c w with
    | (Returned a, w') => k a w'
    | (Raised e, w') => (Raised e, w')
    end.

Notation "'let*' x ':=' c 'in' k" := (bind c (fun x => k))
  (at level 10, x name, c at level 100, k at level 200, only parsing).

(** [try: c  except <handles>: handler]. *)
Definition try_except {A} (c : py A) (handles : exn -> bool)
    (handler : exn -> py A) : py A :=
  fun w =>
    match c w with
    | (Raised e, w') => if handles e then handler e w' else (Raised e, w')
    | r => r
    end.

Definition print (line : string) : py unit :=
  fun w => (Returned tt, World (fs w) (ticks w) (stdout w ++ [line])).

(** A system call on the filesystem; an [errno] is raised as [OSError]
    carrying the path. *)
Definition syscall {A} (call : filesystem -> Z + A) (p : string) : py A :=
  fun w =>
    match call (fs w) with
    | inl errno => (Raised (OSError errno p), w)
    | inr a => (Returned a, w)
    end.

Definition update_fs (call : filesystem -> Z + filesystem) (p : string)
  : py unit :=
  fun w =>
    match call (fs w) with
    | inl errno => (Raised (OSError errno p), w)
    | inr fs' => (Returned tt, World fs' (ticks w) (stdout w))
    end.

Definition os_path_exists (p : string) : py bool :=
  fun w => (Returned (path_exists (fs w) p), w).

Definition os_path_isdir (p : string) : py bool :=
  fun w => (Returned (path_isdir (fs w) p), w).

Definition os_mkdir (p : string) : py unit :=
  update_fs (fun fs => mkdir fs p) p.

(** [os.makedirs(name, exist_ok=True)].  The recursion is on [head], a
    proper prefix of [name]; [fuel] bounds its depth and is never used up
    when it starts above the length of [name]. *)
Fixpoint makedirs_rec (fuel : nat) (name : string) : py unit :=
  match fuel with
  | O => raise RecursionError
  | S fuel' =>
      let '(head0, tail0) := path_split name in
      let '(head, tail) :=
        if is_empty tail0 then path_split head0 else (head0, tail0) in
      let* finished :=
        (if negb (is_empty head) && negb (is_empty tail)
         then
           let* there := os_path_exists head in
           if there then ret false
           else
             let* _ := try_except (makedirs_rec fuel' head)
                         is_FileExistsError (fun _ => ret tt) in
             ret (String.eqb tail ".")
         else ret false) in
      if finished then ret tt
      else
        try_except (os_mkdir name) is_OSError
          (fun e =>
             let* isdir := os_path_isdir name in
             if isdir then ret tt else raise e)
  end.

Definition makedirs (name : string) : py unit :=
  makedirs_rec (S (String.length name)) name.

Definition open_write (p : string) (text : string) : py unit :=
  update_fs (fun fs => write_file fs p text) p.

Definition open_read (p : string) : py string :=
  syscall (fun fs => read_file fs p) p.

(** ** Operations on Python objects *)

Fixpoint assoc (k : string) (fields : list (string * json)) : option json :=
  match fields with
  | [] => None
  | (k', v) :: rest => if String.eqb k k' then Some v else assoc k rest
  end.

(** [obj[key]] with a string key. *)
Definition subscript (obj : json) (key : string) : py json :=
  match obj with
  | JObj fields =>
      match assoc key fields with
      | Some v => ret v
      | None => raise (KeyError key)
      end
  | _ => raise (TypeError obj)
  end.

Fixpoint chars (s : string) : list json :=
  match s with
  | EmptyString => []
  | String c r => JStr (String c EmptyString) :: chars r
  end.

(** The items a [for] loop over [obj] visits. *)
Definition iterate (obj : json) : py (list json) :=
  match obj with
  | JArr items => ret items
  | JObj fields => ret (map (fun kv => JStr (fst kv)) fields)
  | JStr s => ret (chars s)
  | _ => raise (TypeError obj)
  end.

Fixpoint for_each {A B} (body : A -> py B) (items : list A) : py (list B) :=
  match items with
  | [] => ret []
  | x :: rest =>
      let* y := body x in
      let* ys := for_each body rest in
      ret (y :: ys)
  end.

Definition str_of_int (n : Z) : string :=
  NilEmpty.string_of_int (Z.to_int n).

Definition len {A} (l : list A) : Z := Z.of_nat (length l).

(** The integer nearest to [num / den], a tie going to the even one. *)
Definition round_half_even (num den : Z) : Z :=
  let q := num / den in
  let r := num mod den in
  if 2 * r <? den then q
  else if den <? 2 * r then q + 1
  else if Z.even q then q else q + 1.

Definition float_of_hundredths (h : Z) : pyfloat :=
  if h mod 10 =? 0 then PyFloat (h / 10) 1 else PyFloat h 2.

(** The binary64 number nearest to the integer [n], which is an integer
    too: a binary64 keeps the leading 53 bits of [n], and the bits dropped
    are rounded to nearest, a tie to the even one.  Below [2 ^ 53] nothing
    is dropped. *)
Definition nearest_binary64 (n : Z) : Z :=
  let dropped := Z.log2 (Z.abs n) - 52 in
  if dropped <=? 0 then n
  else 2 ^ dropped * round_half_even n (2 ^ dropped).

(** [round(n / 1024, 2)] for a file size [n].  [n / 1024] is the binary64
    nearest to the quotient; 1024 being a power of two, that is
    [nearest_binary64 n / 1024] exactly.  [round(x, 2)] takes [x] to the
    nearest hundredth, a tie to the even one, and returns the binary64
    nearest to that decimal.  A size is an [off_t], below [2 ^ 63], far
    from where the quotient leaves the range of binary64. *)
Definition size_kb (n : Z) : pyfloat :=
  float_of_hundredths (round_half_even (100 * nearest_binary64 n) 1024).

(** ** A reference platform

    One concrete choice for what the scripts take from Python, used to run
    them on examples: an ASCII [str.upper], the text [json.dumps] and
    [json.dump(..., indent=2)] produce, a reader of that text, and a clock. *)

Module Reference.

Definition upper_char (c : ascii) : ascii :=
  let n := nat_of_ascii c in
  if (97 <=? n)%nat && (n <=? 122)%nat then ascii_of_nat (n - 32) else c.

Fixpoint ascii_upper (s : string) : string :=
  match s with
  | EmptyString => EmptyString
  | String c r => String (upper_char c) (ascii_upper r)
  end.

Definition dquote : ascii := ascii_of_nat 34.

Definition hex_digit (n : nat) : ascii :=
  if (n <? 10)%nat then ascii_of_nat (48 + n) else ascii_of_nat (87 + n).

(** [\u00XX] for a control character. *)
Definition escape_u (c : ascii) : string :=
  let n := nat_of_ascii c in
  "\u00" ++ String (hex_digit (n / 16)) (String (hex_digit (n mod 16)) EmptyString).

Definition escape_char (c : ascii) : string :=
  let n := nat_of_ascii c in
  if Ascii.eqb c dquote then String "\" (String dquote EmptyString)
  else if Ascii.eqb c "\"%char then "\\"
  else if (n =? 10)%nat then "\n"
  else if (n =? 13)%nat then "\r"
  else if (n =? 9)%nat then "\t"
  else if (n =? 8)%nat then "\b"
  else if (n =? 12)%nat then "\f"
  else if (n <? 32)%nat || (127 <? n)%nat then escape_u c
  else String c EmptyString.

Fixpoint escape (s : string) : string :=
  match s with
  | EmptyString => EmptyString
  | String c r => escape_char c ++ escape r
  end.

Definition quote (s : string) : string :=
  String dquote (escape s ++ String dquote EmptyString).

Fixpoint zeros (n : nat) : string :=
  match n with
  | O => EmptyString
  | S k => String "0" (zeros k)
  end.

(** The last [n] characters of [s] split off. *)
Definition split_at_end (n : nat) (s : string) : string * string :=
  let k := (String.length s - n)%nat in
  (substring 0 k s, substring k n s).

(** [repr] of a float given by its decimal literal. *)
Definition float_repr (f : pyfloat) : string :=
  let digits := str_of_int (Z.abs (mantissa f)) in
  let padded := zeros (S (places f) - String.length digits) ++ digits in
  let '(whole, frac) := split_at_end (places f) padded in
  (if mantissa f <? 0 then "-" else EmptyString) ++ whole ++ "."
  ++ (if is_empty frac then "0" else frac).

Fixpoint join (sep : string) (parts : list string) : string :=
  match parts with
  | [] => EmptyString
  | [x] => x
  | x :: rest => x ++ sep ++ join sep rest
  end.

(** [json.dumps(obj)]: separators [", "] and [": "], [ensure_ascii]. *)
Fixpoint dumps (obj : json) : string :=
  match obj with
  | JNull => "null"
  | JBool true => "true"
  | JBool false => "false"
  | JInt n => str_of_int n
  | JFloat f => float_repr f
  | JStr s => quote s
  | JArr items => "[" ++ join ", " (map dumps items) ++ "]"
  | JObj fields =>
      "{" ++ join ", "
               (map (fun kv => quote (fst kv) ++ ": " ++ dumps (snd kv))
                    fields)
      ++ "}"
  end.

Fixpoint spaces (n : nat) : string :=
  match n with
  | O => EmptyString
  | S k => String " " (spaces k)
  end.

Definition newline : string := String (ascii_of_nat 10) EmptyString.

(** A container's items, one per line at depth [level + 1]. *)
Definition block (opening closing : string) (level : nat)
    (parts : list string) : string :=
  match parts with
  | [] => opening ++ closing
  | _ =>
      opening ++ newline ++ spaces (2 * S level)
      ++ join ("," ++ newline ++ spaces (2 * S level)) parts
      ++ newline ++ spaces (2 * level) ++ closing
  end.

(** The text [json.dump(obj, f, indent=2)] writes. *)
Fixpoint dump_indent (level : nat) (obj : json) : string :=
  match obj with
  | JArr items => block "[" "]" level (map (dump_indent (S level)) items)
  | JObj fields =>
      block "{" "}" level
        (map (fun kv => quote (fst kv) ++ ": "
                        ++ dump_indent (S level) (snd kv)) fields)
  | _ => dumps obj
  end.

Definition dump_indent2 (obj : json) : string := dump_indent 0 obj.

(** *** Reading JSON text *)

Definition is_ws (c : ascii) : bool :=
  let n := nat_of_ascii c in
  (n =? 32)%nat || (n =? 10)%nat || (n =? 13)%nat || (n =? 9)%nat.

Fixpoint skip_ws (s : string) : string :=
  match s with
  | String c r => if is_ws c then skip_ws r else s
  | EmptyString => s
  end.

Definition digit_value (c : ascii) : option Z :=
  let n := nat_of_ascii c in
  if (48 <=? n)%nat && (n <=? 57)%nat then Some (Z.of_nat (n - 48))
  else None.

(** The digits at the front of [s], their value after [acc] and their
    number. *)
Fixpoint read_digits (s : string) (acc : Z) (count : nat)
  : Z * nat * string :=
  match s with
  | String c r =>
      match digit_value c with
      | Some d => read_digits r (10 * acc + d) (S count)
      | None => (acc, count, s)
      end
  | EmptyString => (acc, count, s)
  end.

(** Trailing zeros of the fraction dropped, one place kept. *)
Fixpoint normalize_float (fuel : nat) (m : Z) (p : nat) : pyfloat :=
  match fuel, p with
  | S fuel', S (S p') =>
      if m mod 10 =? 0 then normalize_float fuel' (m / 10) (S p')
      else PyFloat m p
  | _, _ => PyFloat m p
  end.

(** An integer, or a number with a fraction; no exponent. *)
Definition read_number (s : string) : option (json * string) :=
  let '(negative, s1) :=
    match s with
    | String "-" r => (true, r)
    | _ => (false, s)
    end in
  let sign := if negative then -1 else 1 in
  let '(whole, n, s2) := read_digits s1 0 0 in
  if (n =? 0)%nat then None
  else
    match s2 with
    | String "." r =>
        let '(m, k, s3) := read_digits r whole 0 in
        if (k =? 0)%nat then None
        else Some (JFloat (normalize_float k (sign * m) k), s3)
    | _ => Some (JInt (sign * whole), s2)
    end.

Definition hex_value (c : ascii) : option nat :=
  let n := nat_of_ascii c in
  if (48 <=? n)%nat && (n <=? 57)%nat then Some (n - 48)%nat
  else if (97 <=? n)%nat && (n <=? 102)%nat then Some (n - 87)%nat
  else if (65 <=? n)%nat && (n <=? 70)%nat then Some (n - 55)%nat
  else None.

(** The text of a string literal after its opening quote. *)
Fixpoint read_string (s : string) : option (string * string) :=
  match s with
  | EmptyString => None
  | String c r =>
      if Ascii.eqb c dquote then Some (EmptyString, r)
      else if Ascii.eqb c "\"%char then
        match r with
        | String "u" (String "0" (String "0" (String h (String l r')))) =>
            match hex_value h, hex_value l, read_string r' with
            | Some a, Some b, Some (text, rest) =>
                Some (String (ascii_of_nat (16 * a + b)) text, rest)
            | _, _, _ => None
            end
        | String e r' =>
            let plain (c' : ascii) :=
              match read_string r' with
              | Some (text, rest) => Some (String c' text, rest)
              | None => None
              end in
            if Ascii.eqb e dquote then plain dquote
            else if Ascii.eqb e "\"%char then plain "\"%char
            else if Ascii.eqb e "/"%char then plain "/"%char
            else if Ascii.eqb e "n"%char then plain (ascii_of_nat 10)
            else if Ascii.eqb e "r"%char then plain (ascii_of_nat 13)
            else if Ascii.eqb e "t"%char then plain (ascii_of_nat 9)
            else if Ascii.eqb e "b"%char then plain (ascii_of_nat 8)
            else if Ascii.eqb e "f"%char then plain (ascii_of_nat 12)
            else None
        | EmptyString => None
        end
      else if (nat_of_ascii c <? 32)%nat then None
      else
        match read_string r with
        | Some (text, rest) => Some (String c text, rest)
        | None => None
        end
  end.

(** [d[k] = v] on a [dict]: a key already there keeps its place. *)
Fixpoint dict_set (k : string) (v : json) (fields : list (string * json))
  : list (string * json) :=
  match fields with
  | [] => [(k, v)]
  | (k', v') :: rest =>
      if String.eqb k k' then (k, v) :: rest
      else (k', v') :: dict_set k v rest
  end.

Definition head_is (c : ascii) (s : string) : option string :=
  match s with
  | String c' r => if Ascii.eqb c c' then Some r else None
  | EmptyString => None
  end.

Definition strip_prefix (prefix s : string) : option string :=
  if String.prefix prefix s
  then Some (substring (String.length prefix)
                       (String.length s - String.length prefix) s)
  else None.

Fixpoint read_value (fuel : nat) (s : string) : option (json * string) :=
  match fuel with
  | O => None
  | S fuel' =>
      match skip_ws s with
      | String "{" r =>
          match skip_ws r with
          | String "}" r' => Some (JObj [], r')
          | r' => read_members fuel' r' []
          end
      | String "[" r =>
          match skip_ws r with
          | String "]" r' => Some (JArr [], r')
          | r' => read_items fuel' r' []
          end
      | String "t" _ as s' =>
          option_map (fun r => (JBool true, r)) (strip_prefix "true" s')
      | String "f" _ as s' =>
          option_map (fun r => (JBool false, r)) (strip_prefix "false" s')
      | String "n" _ as s' =>
          option_map (fun r => (JNull, r)) (strip_prefix "null" s')
      | s' =>
          match head_is dquote s' with
          | Some r =>
              match read_string r with
              | Some (text, rest) => Some (JStr text, rest)
              | None => None
              end
          | None => read_number s'
          end
      end
  end
with read_items (fuel : nat) (s : string) (done : list json)
  : option (json * string) :=
  match fuel with
  | O => None
  | S fuel' =>
      match read_value fuel' s with
      | Some (v, rest) =>
          match skip_ws rest with
          | String "," r => read_items fuel' r (done ++ [v])
          | String "]" r => Some (JArr (done ++ [v]), r)
          | _ => None
          end
      | None => None
      end
  end
with read_members (fuel : nat) (s : string) (done : list (string * json))
  : option (json * string) :=
  match fuel with
  | O => None
  | S fuel' =>
      match head_is dquote (skip_ws s) with
      | Some r =>
          match read_string r with
          | Some (key, rest) =>
              match skip_ws rest with
              | String ":" r' =>
                  match read_value fuel' r' with
                  | Some (v, rest') =>
                      match skip_ws rest' with
                      | String "," r'' =>
                          read_members fuel' r'' (dict_set key v done)
                      | String "}" r'' =>
                          Some (JObj (dict_set key v done), r'')
                      | _ => None
                      end
                  | None => None
                  end
              | _ => None
              end
          | None => None
          end
      | None => None
      end
  end.

(** [json.loads]: one value and nothing but white space after it. *)
Definition loads (text : string) : option json :=
  match read_value (S (String.length text)) text with
  | Some (obj, rest) => if is_empty (skip_ws rest) then Some obj else None
  | None => None
  end.

(** A clock that advances one microsecond a call. *)
Definition now_iso (k : nat) : string :=
  "2024-01-01T00:00:00."
  ++ substring 1 6 (str_of_int (1000000 + Z.of_nat k)).

(** [str] of a float, list or dict.  The scripts only ever format
    integers and strings; for a float this is its [repr]. *)
Definition repr (obj : json) : string := dumps obj.

(** [os.strerror] for the error numbers of the model. *)
Definition strerror (errno : Z) : string :=
  if errno =? ENOENT then "No such file or directory"
  else if errno =? EEXIST then "File exists"
  else if errno =? ENOTDIR then "Not a directory"
  else if errno =? EISDIR then "Is a directory"
  else "Unknown error".

(** [str(e)], schematically.  A file name or a key appears as its [repr],
    between quotes and with its control characters escaped. *)
Definition exn_str (e : exn) : string :=
  match e with
  | OSError errno filename =>
      "[Errno " ++ str_of_int errno ++ "] " ++ strerror errno ++ ": '"
      ++ escape filename ++ "'"
  | DecodeError _ => "Expecting value"
  | KeyError key => "'" ++ escape key ++ "'"
  | TypeError _ => "unsupported operand"
  | AttributeError _ => "object has no attribute"
  | RecursionError => "maximum recursion depth exceeded"
  end.

End Reference.

(** ** The three scripts and the texts that tell them apart *)

Inductive stage := Loader | Transformer | Analyzer.

Definition usage (st : stage) : string :=
  match st with
  | Loader => "Usage: python load_data.py <input_file> <output_file>"
  | Transformer => "Usage: python process_data.py <input_file> <output_file>"
  | Analyzer => "Usage: python analyze_results.py <input_file> <output_file>"
  end.

Definition result_tag (st : stage) : string :=
  match st with
  | Loader => "LOAD_RESULT"
  | Transformer => "PROCESS_RESULT"
  | Analyzer => "ANALYZE_RESULT"
  end.

Definition error_context (st : stage) : string :=
  match st with
  | Loader => "loading data"
  | Transformer => "processing data"
  | Analyzer => "analyzing results"
  end.

(** The first line a script prints once its arguments are accepted. *)
Definition banner (st : stage) (input_file : string) : string :=
  match st with
  | Loader => "Loading data from: " ++ input_file
  | Transformer => "Processing data from: " ++ input_file
  | Analyzer => "Analyzing results from: " ++ input_file
  end.

(** ** Vocabulary of the statements *)

(** [obj[key]] when [obj] is a dictionary holding [key]. *)
Definition field (key : string) (obj : json) : option json :=
  match obj with
  | JObj fields => assoc key fields
  | _ => None
  end.

Fixpoint has_slash (s : string) : bool :=
  match s with
  | EmptyString => false
  | String c r => is_slash c || has_slash r
  end.

(** A name that can be given to a new file in a directory. *)
Definition plain_name (s : string) : bool :=
  negb (is_empty s) && negb (has_slash s)
  && negb (String.eqb s ".") && negb (String.eqb s "..").

Definition is_file (fs : filesystem) (p : string) : bool :=
  match stat fs p with
  | inr (IFile _) => true
  | _ => false
  end.

(** A record of a LoadedDataset: a dictionary with an integer [id], a string
    [value] and a [timestamp]. *)
Definition is_loaded_record (r : json) : Prop :=
  exists (i : Z) (v : string) (ts : json),
    field "id" r = Some (JInt i) /\ field "value" r = Some (JStr v)
    /\ field "timestamp" r = Some ts.

(** The path string [p] names the existing directory at [c]. *)
Definition dir_at (fs : filesystem) (p : string) (c : list string) : Prop :=
  resolve fs p = inr c /\ node_at fs c = Some IDir.

Fixpoint slashes (k : nat) : string :=
  match k with
  | O => EmptyString
  | S k' => String "/" (slashes k')
  end.

(** A computation that leaves the filesystem and standard output alone. *)
Definition quiet {A} (c : py A) : Prop :=
  forall w, fs (snd (c w)) = fs w /\ stdout (snd (c w)) = stdout w.

(** A computation that prints nothing and does not read the clock. *)
Definition silent {A} (c : py A) : Prop :=
  forall w, stdout (snd (c w)) = stdout w /\ ticks (snd (c w)) = ticks w.


(** A computation whose only exceptions are [OSError]s. *)
Definition raises_OSError {A} (c : py A) : Prop :=
  forall w e w', c w = (Raised e, w') -> is_OSError e = true.

(** What a [for] loop over [obj] never enters: the empty list, string and
    dictionary. *)
Definition is_empty_iterable (obj : json) : bool :=
  match obj with
  | JArr [] | JObj [] | JStr EmptyString => true
  | _ => false
  end.

Definition is_str (obj : json) : bool :=
  match obj with
  | JStr _ => true
  | _ => false
  end.

(** The value of a float with at most two decimal places, in
    hundredths. *)
Definition hundredths (f : pyfloat) : Z :=
  mantissa f * 10 ^ (2 - Z.of_nat (places f)).

(** [base/x1/.../xn]. *)
Fixpoint join_path (base : string) (names : list string) : string :=
  match names with
  | [] => base
  | x :: rest => join_path (base ++ "/" ++ x) rest
  end.

(** The directories [d/x1], [d/x1/x2], ... added to a filesystem. *)
Fixpoint make_dirs (fs : filesystem) (d : list string)
    (names : list string) : filesystem :=
  match names with
  | [] => fs
  | x :: rest => make_dirs (put_node fs (d ++ [x]) IDir) (d ++ [x]) rest
  end.

(** The key under which a stage's result record repeats its output
    path. *)
Definition output_key (st : stage) : string :=
  match st with
  | Loader | Transformer => "output_file"
  | Analyzer => "analysis_file"
  end.

(** *** Standard output, line by line

    Each [print] call writes its text and then a newline, and the text may
    hold newlines of its own.  The lines of standard output are what lies
    between the newlines of all that was written. *)

Definition is_newline (c : ascii) : bool := Ascii.eqb c "010"%char.

Fixpoint has_newline (s : string) : bool :=
  match s with
  | EmptyString => false
  | String c r => is_newline c || has_newline r
  end.

(** The characters the [print] calls write, in order. *)
Fixpoint stdout_text (calls : list string) : string :=
  match calls with
  | [] => EmptyString
  | text :: rest => text ++ String "010"%char (stdout_text rest)
  end.

(** The lines of a text: each ends at a newline, the last one at a newline
    or at the end of the text. *)
Fixpoint lines (text : string) : list string :=
  match text with
  | EmptyString => []
  | String c r =>
      if is_newline c then EmptyString :: lines r
      else match lines r with
           | [] => [String c EmptyString]
           | l :: ls => String c l :: ls
           end
  end.

Fixpoint starts_with (prefix s : string) : bool :=
  match prefix, s with
  | EmptyString, _ => true
  | String a prefix', String b s' => Ascii.eqb a b && starts_with prefix' s'
  | String _ _, EmptyString => false
  end.

(** A line that starts as a result line of some script does. *)
Definition is_result_line (line : string) : bool :=
  starts_with "LOAD_RESULT: " line
  || starts_with "PROCESS_RESULT: " line
  || starts_with "ANALYZE_RESULT: " line.

Definition with_stdout (w : world) (lines : list string) : world :=
  World (fs w) (ticks w) (stdout w ++ lines).

(** ** The scripts *)

Section Stages.

(** The platform under the scripts. *)
Variable now_iso : nat -> string.
  (* [datetime.now().isoformat()] at the k-th call *)
Variable str_upper : string -> string.          (* [str.upper] *)
Variable json_dumps : json -> string.           (* [json.dumps(obj)] *)
Variable json_dump_indent2 : json -> string.
  (* the text [json.dump(obj, f, indent=2)] writes *)
Variable json_loads : string -> option json.
  (* [json.load] on a file's text; [None] when it raises *)
Variable exn_str : exn -> string.               (* [str(e)] *)
Variable py_repr : json -> string.
  (* [str] of a float, list or dict *)
Variable dir_size : Z.

Definition datetime_now_isoformat : py string :=
  fun w => (Returned (now_iso (ticks w)),
            World (fs w) (S (ticks w)) (stdout w)).

(** The text an f-string puts for [{obj}]. *)
Definition format_value (obj : json) : string :=
  match obj with
  | JNull => "None"
  | JBool true => "True"
  | JBool false => "False"
  | JInt n => str_of_int n
  | JStr s => s
  | _ => py_repr obj
  end.

Definition json_dump (obj : json) (p : string) : py unit :=
  open_write p (json_dump_indent2 obj).

Definition json_load (p : string) : py json :=
  let* text := open_read p in
  match json_loads text with
  | Some obj => ret obj
  | None => raise (DecodeError text)
  end.

Definition os_path_getsize (p : string) : py Z :=
  syscall (fun fs => getsize dir_size fs p) p.

(** *** [load_data.py] *)

Definition sample_record (i : Z) : py json :=
  let* timestamp := datetime_now_isoformat in
  ret (JObj [("id", JInt i);
             ("value", JStr ("record_" ++ str_of_int i));
             ("timestamp", JStr timestamp)]).

(** [range(1, 101)]. *)
Definition range_1_101 : list Z := map Z.of_nat (seq 1 100).

Definition load_data (input_file output_file : string) : py json :=
  let* _ := print ("Loading data from: " ++ input_file) in
  let* loaded_at := datetime_now_isoformat in
  let* data := for_each sample_record range_1_101 in
  let sample_data :=
    JObj [("source_file", JStr input_file);
          ("loaded_at", JStr loaded_at);
          ("records_count", JInt 1000);
          ("data", JArr data);
          ("metadata", JObj [("file_size", JStr "2.5MB");
                             ("format", JStr "JSON");
                             ("encoding", JStr "UTF-8")])] in
  let* _ := makedirs (dirname output_file) in
  let* _ := json_dump sample_data output_file in
  let* records_count := subscript sample_data "records_count" in
  let* _ := print ("Data loaded successfully. Records: "
                   ++ format_value records_count) in
  let* _ := print ("Output saved to: " ++ output_file) in
  let* records_loaded := subscript sample_data "records_count" in
  let* metadata := subscript sample_data "metadata" in
  let* file_size := subscript metadata "file_size" in
  ret (JObj [("status", JStr "success");
             ("records_loaded", records_loaded);
             ("output_file", JStr output_file);
             ("file_size", file_size)]).

(** *** [process_data.py] *)

(** [record['value'].upper()]. *)
Definition upper (obj : json) : py json :=
  match obj with
  | JStr s => ret (JStr (str_upper s))
  | _ => raise (AttributeError obj)
  end.

Definition process_record (record : json) : py json :=
  let* id := subscript record "id" in
  let* value := subscript record "value" in
  let* processed_value := upper value in
  let* processed_timestamp := datetime_now_isoformat in
  let* original_timestamp := subscript record "timestamp" in
  ret (JObj [("id", id);
             ("processed_value", processed_value);
             ("processed_timestamp", JStr processed_timestamp);
             ("original_timestamp", original_timestamp);
             ("transformation_applied", JStr "uppercase_conversion")]).

Definition process_data (input_file output_file : string) : py json :=
  let* _ := print ("Processing data from: " ++ input_file) in
  let* data := json_load input_file in
  let* data_data := subscript data "data" in
  let* records := iterate data_data in
  let* processed_records := for_each process_record records in
  let* processed_at := datetime_now_isoformat in
  let* original_records_count := subscript data "records_count" in
  let processed_data :=
    JObj [("source_file", JStr input_file);
          ("processed_at", JStr processed_at);
          ("original_records_count", original_records_count);
          ("processed_records_count", JInt (len processed_records));
          ("transformations", JArr [JStr "uppercase_conversion";
                                    JStr "timestamp_normalization"]);
          ("data", JArr processed_records);
          ("metadata", JObj [("processing_time_ms", JInt 150);
                             ("memory_used_mb", JFloat (PyFloat 255 1));
                             ("transformations_count", JInt 2)])] in
  let* _ := makedirs (dirname output_file) in
  let* _ := json_dump processed_data output_file in
  let* _ := print ("Data processed successfully. Records: "
                   ++ str_of_int (len processed_records)) in
  let* _ := print ("Output saved to: " ++ output_file) in
  let* metadata := subscript processed_data "metadata" in
  let* processing_time_ms := subscript metadata "processing_time_ms" in
  let* transformations := subscript processed_data "transformations" in
  ret (JObj [("status", JStr "success");
             ("records_processed", JInt (len processed_records));
             ("output_file", JStr output_file);
             ("processing_time_ms", processing_time_ms);
             ("transformations_applied", transformations)]).

(** *** [analyze_results.py] *)

Definition analysis_metrics : json :=
  JObj [("processing_efficiency", JFloat (PyFloat 955 1));
        ("data_quality_score", JFloat (PyFloat 982 1));
        ("transformation_success_rate", JFloat (PyFloat 1000 1));
        ("performance_score", JFloat (PyFloat 928 1))].

Definition recommendations : json :=
  JArr [JStr "Data processing completed successfully";
        JStr "All transformations applied correctly";
        JStr "Performance is within acceptable limits";
        JStr "Consider implementing parallel processing for larger datasets"].

Definition quality_checks : json :=
  JObj [("data_integrity", JStr "PASSED");
        ("format_validation", JStr "PASSED");
        ("completeness_check", JStr "PASSED");
        ("consistency_check", JStr "PASSED")].

Definition summary : json :=
  JObj [("total_tasks_completed", JInt 4);
        ("successful_tasks", JInt 4);
        ("failed_tasks", JInt 0);
        ("overall_status", JStr "SUCCESS");
        ("processing_time_total", JStr "2.5 minutes");
        ("data_volume_processed", JStr "2.5MB")].

(** [len(obj)] of a Python object. *)
Definition py_len (obj : json) : py Z :=
  match obj with
  | JArr items => ret (len items)
  | JObj fields => ret (len fields)
  | JStr s => ret (Z.of_nat (String.length s))
  | _ => raise (TypeError obj)
  end.

Definition analyze_results (input_file output_file : string) : py json :=
  let* _ := print ("Analyzing results from: " ++ input_file) in
  let* report_size := os_path_getsize input_file in
  let* analysis_timestamp := datetime_now_isoformat in
  let analysis_results :=
    JObj [("analysis_timestamp", JStr analysis_timestamp);
          ("report_file", JStr input_file);
          ("report_size_bytes", JInt report_size);
          ("report_size_kb", JFloat (size_kb report_size));
          ("analysis_metrics", analysis_metrics);
          ("recommendations", recommendations);
          ("quality_checks", quality_checks);
          ("summary", summary)] in
  let* _ := makedirs (dirname output_file) in
  let* _ := json_dump analysis_results output_file in
  let* _ := print "Analysis completed successfully" in
  let* _ := print ("Output saved to: " ++ output_file) in
  let* summary1 := subscript analysis_results "summary" in
  let* overall_status1 := subscript summary1 "overall_status" in
  let* _ := print ("Overall Status: " ++ format_value overall_status1) in
  let* summary2 := subscript analysis_results "summary" in
  let* overall_status := subscript summary2 "overall_status" in
  let* metrics := subscript analysis_results "analysis_metrics" in
  let* quality_score := subscript metrics "data_quality_score" in
  let* recs := subscript analysis_results "recommendations" in
  let* recommendations_count := py_len recs in
  ret (JObj [("status", JStr "success");
             ("analysis_file", JStr output_file);
             ("overall_status", overall_status);
             ("quality_score", quality_score);
             ("recommendations_count", JInt recommendations_count)]).

(** *** The [__main__] blocks *)

(** [sys.argv] holds the script's name and then the positional arguments.
    The result is the exit code: [sys.exit(0)] raises [SystemExit], which
    [except Exception] does not catch. *)
Definition run_main (usage tag context : string)
    (stage : string -> string -> py json) (argv : list string)
  : world -> Z * world :=
  fun w =>
    match argv with
    | [_; input_file; output_file] =>
        match stage input_file output_file w with
        | (Returned result, w1) =>
            (0, snd (print (tag ++ ": " ++ json_dumps result) w1))
        | (Raised e, w1) =>
            (1, snd (print ("Error " ++ context ++ ": " ++ exn_str e) w1))
        end
    | _ => (1, snd (print usage w))
    end.

Definition load_main : list string -> world -> Z * world :=
  run_main (usage Loader) (result_tag Loader) (error_context Loader)
           load_data.

Definition process_main : list string -> world -> Z * world :=
  run_main (usage Transformer) (result_tag Transformer)
           (error_context Transformer) process_data.

Definition analyze_main : list string -> world -> Z * world :=
  run_main (usage Analyzer) (result_tag Analyzer) (error_context Analyzer)
           analyze_results.

Definition main (st : stage) : list string -> world -> Z * world :=
  match st with
  | Loader => load_main
  | Transformer => process_main
  | Analyzer => analyze_main
  end.

(** *** The documents, as functions of the clock

    [loaded_dataset input k] is the dictionary [load_data] builds when its
    first [datetime.now()] is the k-th of the world. *)

Definition loaded_record (k : nat) (i : nat) : json :=
  JObj [("id", JInt (Z.of_nat (S i)));
        ("value", JStr ("record_" ++ str_of_int (Z.of_nat (S i))));
        ("timestamp", JStr (now_iso (S k + i)))].

Definition loaded_dataset (input_file : string) (k : nat) : json :=
  JObj [("source_file", JStr input_file);
        ("loaded_at", JStr (now_iso k));
        ("records_count", JInt 1000);
        ("data", JArr (map (loaded_record k) (seq 0 100)));
        ("metadata", JObj [("file_size", JStr "2.5MB");
                           ("format", JStr "JSON");
                           ("encoding", JStr "UTF-8")])].

Definition load_result (output_file : string) : json :=
  JObj [("status", JStr "success");
        ("records_loaded", JInt 1000);
        ("output_file", JStr output_file);
        ("file_size", JStr "2.5MB")].

(** The report [analyze_results] builds for an input of [size] bytes. *)
Definition analysis_report (input_file : string) (size : Z) (k : nat)
  : json :=
  JObj [("analysis_timestamp", JStr (now_iso k));
        ("report_file", JStr input_file);
        ("report_size_bytes", JInt size);
        ("report_size_kb", JFloat (size_kb size));
        ("analysis_metrics", analysis_metrics);
        ("recommendations", recommendations);
        ("quality_checks", quality_checks);
        ("summary", summary)].

Definition analyze_result (output_file : string) : json :=
  JObj [("status", JStr "success");
        ("analysis_file", JStr output_file);
        ("overall_status", JStr "SUCCESS");
        ("quality_score", JFloat (PyFloat 982 1));
        ("recommendations_count", JInt 4)].

(** *** The common ending of the three scripts

    Each script ends by creating the directory of its output, writing its
    document there, printing its closing lines and returning its result
    record.  [save_and_report] is that ending with its exceptions spelled
    out. *)

Definition save_and_report (output_file : string) (document : json)
    (lines : list string) (result : json) : py json :=
  fun w =>
    match makedirs (dirname output_file) w with
    | (Raised e, w1) => (Raised e, w1)
    | (Returned _, w1) =>
        match write_file (fs w1) output_file
                (json_dump_indent2 document) with
        | inl errno => (Raised (OSError errno output_file), w1)
        | inr fs2 =>
            (Returned result,
             World fs2 (ticks w1) (stdout w1 ++ lines))
        end
    end.

(** The dictionary [process_data] writes. *)
Definition processed_dataset (input_file processed_at : string)
    (original_records_count : json) (processed_records : list json)
  : json :=
  JObj [("source_file", JStr input_file);
        ("processed_at", JStr processed_at);
        ("original_records_count", original_records_count);
        ("processed_records_count", JInt (len processed_records));
        ("transformations", JArr [JStr "uppercase_conversion";
                                  JStr "timestamp_normalization"]);
        ("data", JArr processed_records);
        ("metadata", JObj [("processing_time_ms", JInt 150);
                           ("memory_used_mb", JFloat (PyFloat 255 1));
                           ("transformations_count", JInt 2)])].

(** What [process_data] computes before it touches its output: the
    processed records and the dictionary to write. *)
Definition transformed (input_file : string) : py (list json * json) :=
  let* data := json_load input_file in
  let* data_data := subscript data "data" in
  let* records := iterate data_data in
  let* processed_records := for_each process_record records in
  let* processed_at := datetime_now_isoformat in
  let* original_records_count := subscript data "records_count" in
  ret (processed_records,
       processed_dataset input_file processed_at original_records_count
                         processed_records).

Definition process_result (output_file : string) (records : list json)
  : json :=
  JObj [("status", JStr "success");
        ("records_processed", JInt (len records));
        ("output_file", JStr output_file);
        ("processing_time_ms", JInt 150);
        ("transformations_applied",
         JArr [JStr "uppercase_conversion";
               JStr "timestamp_normalization"])].

(** An output record that corresponds to the input record [r]. *)
Definition corresponds (r processed : json) : Prop :=
  field "id" processed = field "id" r
  /\ field "original_timestamp" processed = field "timestamp" r
  /\ forall v, field "value" r = Some (JStr v) ->
               field "processed_value" processed
               = Some (JStr (str_upper v)).

(** The line a script prints for its result record. *)
Definition result_line (st : stage) (result : json) : string :=
  result_tag st ++ ": " ++ json_dumps result.

Definition error_line (st : stage) (e : exn) : string :=
  "Error " ++ error_context st ++ ": " ++ exn_str e.

(** The record [process_data] makes of a well-formed input record when the
    clock reads [stamp]. *)
Definition processed_record (stamp : string) (r : json) : json :=
  JObj [("id", default JNull (field "id" r));
        ("processed_value",
         match field "value" r with
         | Some (JStr v) => JStr (str_upper v)
         | _ => JNull
         end);
        ("processed_timestamp", JStr stamp);
        ("original_timestamp", default JNull (field "timestamp" r));
        ("transformation_applied", JStr "uppercase_conversion")].

(** The records made of [records] when the first of them meets the k-th
    reading of the clock. *)
Fixpoint processed_records (k : nat) (records : list json) : list json :=
  match records with
  | [] => []
  | r :: rest =>
      processed_record (now_iso k) r :: processed_records (S k) rest
  end.

(** ** Path strings *)

Lemma str_app_nil (y : string) : EmptyString ++ y = y.
Proof. reflexivity. Qed.

Lemma str_app_cons (c : ascii) (x y : string) :
  String c x ++ y = String c (x ++ y).
Proof. reflexivity. Qed.

Ltac str_simpl := rewrite ?str_app_cons, ?str_app_nil; simpl.

Lemma is_empty_true (s : string) : is_empty s = true -> s = EmptyString.
Proof. destruct s; simpl; congruence. Qed.

Lemma is_empty_app (x y : string) :
  is_empty (x ++ y) = is_empty x && is_empty y.
Proof. destruct x; reflexivity. Qed.

Lemma has_slash_app (x y : string) :
  has_slash (x ++ y) = has_slash x || has_slash y.
Proof.
  induction x as [|c x IH]; str_simpl; [reflexivity|].
  rewrite IH. now rewrite orb_assoc.
Qed.

(** Without a slash there is no head. *)
Lemma rsplit_slash_bare (p : string) :
  has_slash p = false -> rsplit_slash p = (EmptyString, p).
Proof.
  induction p as [|c p IH]; simpl; [reflexivity|].
  intros H. apply orb_false_iff in H as [Hc Hp].
  rewrite (IH Hp). simpl. now rewrite Hc.
Qed.

(** The tail is what follows the last slash. *)
Lemma rsplit_slash_join (x a : string) :
  has_slash a = false ->
  rsplit_slash (x ++ "/" ++ a) = (x ++ "/", a).
Proof.
  intros Ha. induction x as [|c x IH].
  - str_simpl. now rewrite (rsplit_slash_bare a Ha).
  - rewrite !(str_app_cons c x). simpl. rewrite IH.
    destruct x; reflexivity.
Qed.

Lemma rsplit_slash_shape (p h t : string) :
  rsplit_slash p = (h, t) ->
  has_slash t = false /\
  ((h = EmptyString /\ p = t) \/
   exists x, h = x ++ "/" /\ p = x ++ "/" ++ t).
Proof.
  revert h t. induction p as [|c p IH]; simpl; intros h t E.
  - inversion E; subst. split; [reflexivity|]. now left.
  - destruct (rsplit_slash p) as [h' t'] eqn:Ep.
    destruct (IH h' t' eq_refl) as [Ht' Hsh].
    destruct (is_empty h') eqn:Eh.
    + apply is_empty_true in Eh. subst h'.
      destruct Hsh as [[_ ->]|[x [Hx _]]];
        [|destruct x; discriminate Hx].
      destruct (is_slash c) eqn:Ec; inversion E; subst.
      * split; [assumption|]. right. exists EmptyString.
        unfold is_slash in Ec. apply Ascii.eqb_eq in Ec. now subst c.
      * split; [simpl; now rewrite Ec|]. now left.
    + inversion E; subst. split; [assumption|]. right.
      destruct Hsh as [[-> _]|[x [-> ->]]]; [discriminate Eh|].
      now exists (String c x).
Qed.

Lemma split_slash_bare (t : string) :
  has_slash t = false -> split_slash t = [t].
Proof.
  induction t as [|c t IH]; simpl; [reflexivity|].
  intros H. apply orb_false_iff in H as [Hc Ht].
  now rewrite Hc, (IH Ht).
Qed.

Lemma split_slash_nonempty (p : string) : split_slash p <> [].
Proof.
  induction p as [|c p IH]; simpl; [discriminate|].
  destruct (is_slash c); [discriminate|].
  destruct (split_slash p); [contradiction|discriminate].
Qed.

Lemma split_slash_join (x y : string) :
  split_slash (x ++ "/" ++ y) = (split_slash x ++ split_slash y)%list.
Proof.
  induction x as [|c x IH]; [reflexivity|].
  rewrite (str_app_cons c x). simpl. rewrite IH.
  destruct (is_slash c); [reflexivity|].
  destruct (split_slash x) eqn:E; [|reflexivity].
  now apply split_slash_nonempty in E.
Qed.

Lemma str_app_nil_r (x : string) : x ++ EmptyString = x.
Proof.
  induction x as [|c x IH]; [reflexivity|].
  rewrite str_app_cons. now rewrite IH.
Qed.

Lemma rstrip_slash_slashes (x : string) :
  exists k, x = rstrip_slash x ++ slashes k.
Proof.
  induction x as [|c x [k IH]]; [now exists O|]. simpl.
  destruct (is_slash c && is_empty (rstrip_slash x)) eqn:E.
  - apply andb_true_iff in E as [Ec Ex].
    apply is_empty_true in Ex. rewrite Ex in IH. rewrite str_app_nil in IH.
    unfold is_slash in Ec. apply Ascii.eqb_eq in Ec. subst c.
    exists (S k). rewrite str_app_nil. simpl. now rewrite <- IH.
  - exists k. rewrite str_app_cons. now rewrite <- IH.
Qed.

Lemma split_slash_of_slashes (k : nat) :
  split_slash (slashes k) = repeat EmptyString (S k).
Proof. induction k as [|k IH]; simpl; [reflexivity|now rewrite IH]. Qed.

Lemma split_slash_slashes (y : string) (k : nat) :
  split_slash (y ++ slashes k)
  = (split_slash y ++ repeat EmptyString k)%list.
Proof.
  destruct k as [|k]; simpl.
  - now rewrite str_app_nil_r, app_nil_r.
  - change (y ++ String "/" (slashes k)) with (y ++ "/" ++ slashes k).
    now rewrite split_slash_join, split_slash_of_slashes.
Qed.

Lemma is_absolute_app (x y : string) :
  is_empty x = false -> is_absolute (x ++ y) = is_absolute x.
Proof. destruct x; [discriminate|reflexivity]. Qed.

(** ** Path resolution *)

Lemma walk_app (fs : filesystem) (l1 l2 : list string) :
  forall cur,
    walk fs cur (l1 ++ l2)
    = match walk fs cur l1 with
      | inl e => inl e
      | inr c => walk fs c l2
      end.
Proof.
  induction l1 as [|c l1 IH]; intros cur; simpl; [reflexivity|].
  destruct (node_at fs cur) as [[|]|]; try reflexivity.
  destruct (is_empty c || String.eqb c "."); [apply IH|].
  destruct (String.eqb c ".."); apply IH.
Qed.

Lemma walk_empties (fs : filesystem) (cur : list string) (k : nat) :
  node_at fs cur = Some IDir ->
  walk fs cur (repeat EmptyString k) = inr cur.
Proof.
  intros H. induction k as [|k IH]; simpl; [reflexivity|].
  now rewrite H.
Qed.

Lemma walk_empties_inv (fs : filesystem) (cur c : list string) (k : nat) :
  walk fs cur (repeat EmptyString k) = inr c -> c = cur.
Proof.
  induction k as [|k IH]; simpl; [congruence|].
  destruct (node_at fs cur) as [[|]|]; try discriminate. exact IH.
Qed.

Lemma path_isdir_dir_at (fs : filesystem) (p : string) :
  path_isdir fs p = true <-> exists c, dir_at fs p c.
Proof.
  unfold path_isdir, stat, dir_at. split.
  - destruct (resolve fs p) as [e|c]; [discriminate|].
    destruct (node_at fs c) as [[|]|] eqn:E; try discriminate.
    intros _. now exists c.
  - intros [c [-> ->]]. reflexivity.
Qed.

(** Trailing slashes do not change which directory a path names. *)
Lemma dir_at_strip_head (fs : filesystem) (x : string) (c : list string) :
  dir_at fs x c <-> dir_at fs (strip_head x) c.
Proof.
  unfold strip_head.
  destruct (is_empty (rstrip_slash x)) eqn:Ey; [reflexivity|].
  destruct (rstrip_slash_slashes x) as [k Hx].
  remember (rstrip_slash x) as y eqn:Hy. clear Hy. subst x.
  unfold dir_at, resolve. rewrite Ey.
  replace (is_empty (y ++ slashes k)) with false
    by (rewrite is_empty_app, Ey; reflexivity).
  rewrite (is_absolute_app y _ Ey).
  rewrite split_slash_slashes, walk_app.
  destruct (walk fs _ (split_slash y)) as [e|c']; [reflexivity|].
  split; intros [Hw Hd].
  - apply walk_empties_inv in Hw. now subst.
  - injection Hw as ->. split; [|assumption]. now apply walk_empties.
Qed.

(** The head of a path that resolves names a directory, and the path is
    its tail looked up there. *)
Lemma resolve_head (fs : filesystem) (p h t : string) :
  rsplit_slash p = (h, t) -> is_empty h = false ->
  resolve fs p
  = match resolve fs h with
    | inl e => inl e
    | inr c => walk fs c [t]
    end.
Proof.
  intros E Hh. destruct (rsplit_slash_shape p h t E) as [Ht [[-> _]|[x [-> ->]]]];
    [discriminate|].
  unfold resolve. rewrite Hh.
  replace (is_empty (x ++ "/" ++ t)) with false
    by (destruct x; reflexivity).
  replace (is_absolute (x ++ "/" ++ t)) with (is_absolute (x ++ "/"))
    by (destruct x; reflexivity).
  rewrite split_slash_join, (split_slash_bare t Ht), walk_app.
  replace (split_slash (x ++ "/")) with (split_slash x ++ [EmptyString])%list
    by (change (x ++ "/") with (x ++ "/" ++ EmptyString);
        now rewrite split_slash_join).
  rewrite walk_app.
  destruct (walk fs _ (split_slash x)) as [e|c]; [reflexivity|].
  simpl. destruct (node_at fs c) as [[|]|] eqn:Ec; try reflexivity.
  now rewrite Ec.
Qed.

Lemma walk_one_dir (fs : filesystem) (c r : list string) (t : string) :
  walk fs c [t] = inr r -> node_at fs c = Some IDir.
Proof.
  simpl. destruct (node_at fs c) as [[|]|]; try discriminate. reflexivity.
Qed.

Lemma head_is_dir (fs : filesystem) (p h t : string) (r : list string) :
  rsplit_slash p = (h, t) -> is_empty h = false ->
  resolve fs p = inr r -> exists c, dir_at fs h c /\ walk fs c [t] = inr r.
Proof.
  intros E Hh Hr. rewrite (resolve_head fs p h t E Hh) in Hr.
  destruct (resolve fs h) as [e|c] eqn:Eh; [discriminate|].
  exists c. split; [|assumption]. split; [assumption|].
  eapply walk_one_dir; eassumption.
Qed.

(** ** [os.makedirs] *)

(** The empty name cannot be created: [os.mkdir('')] fails and [''] is
    not a directory. *)
Lemma makedirs_empty (w : world) :
  makedirs EmptyString w = (Raised (OSError ENOENT EmptyString), w).
Proof. reflexivity. Qed.

Lemma path_split_exists_head (fs : filesystem) (q head tail : string)
    (c : list string) :
  dir_at fs q c -> path_split q = (head, tail) -> is_empty head = false ->
  path_exists fs head = true.
Proof.
  intros [Hq Hc] E Hh. unfold path_split in E.
  destruct (rsplit_slash q) as [h t] eqn:Er. injection E as <- <-.
  assert (Hh' : is_empty h = false) by (destruct h; [discriminate|reflexivity]).
  destruct (head_is_dir fs q h t c Er Hh' Hq) as [d [Hd _]].
  apply dir_at_strip_head in Hd. destruct Hd as [Hr Hn].
  unfold path_exists, stat. now rewrite Hr, Hn.
Qed.

Lemma mkdir_existing (fs : filesystem) (name : string) (c : list string) :
  dir_at fs name c -> mkdir fs name = inl EEXIST.
Proof.
  intros H. apply dir_at_strip_head in H. destruct H as [Hr Hn].
  unfold mkdir. now rewrite Hr, Hn.
Qed.

Lemma makedirs_rec_existing (fuel : nat) (name : string) (w : world) :
  path_isdir (fs w) name = true ->
  makedirs_rec (S fuel) name w = (Returned tt, w).
Proof.
  intros Hdir. pose proof Hdir as Hd.
  apply path_isdir_dir_at in Hd as [c Hc].
  assert (Hmk : forall w', w' = w ->
    try_except (os_mkdir name) is_OSError
      (fun e => let* isdir := os_path_isdir name in
                if isdir then ret tt else raise e) w' = (Returned tt, w)).
  { intros w' ->. unfold try_except, os_mkdir, update_fs.
    rewrite (mkdir_existing _ _ _ Hc). simpl.
    unfold bind, os_path_isdir. now rewrite Hdir. }
  simpl. unfold path_split at 1.
  destruct (rsplit_slash name) as [h0 t0] eqn:E0.
  destruct (is_empty t0) eqn:Et0.
  - (* the name ends with a slash: its head is split once more *)
    apply is_empty_true in Et0. subst t0.
    assert (Hname : name = h0).
    { destruct (rsplit_slash_shape _ _ _ E0) as [_ [[_ ->]|[x [-> ->]]]];
        [|reflexivity].
      destruct Hc as [Hr _]. discriminate Hr. }
    subst h0.
    destruct (path_split (strip_head name)) as [head tail] eqn:E1.
    unfold bind at 1.
    destruct (negb (is_empty head) && negb (is_empty tail)) eqn:Eb.
    + apply andb_true_iff in Eb as [Eh _]. apply negb_true_iff in Eh.
      assert (Hc' : dir_at (fs w) (strip_head name) c)
        by exact (proj1 (dir_at_strip_head _ _ _) Hc).
      unfold bind at 1, os_path_exists.
      rewrite (path_split_exists_head _ _ _ _ _ Hc' E1 Eh).
      simpl. now apply Hmk.
    + simpl. now apply Hmk.
  - unfold bind at 1.
    destruct (negb (is_empty (strip_head h0)) && negb (is_empty t0)) eqn:Eb.
    + apply andb_true_iff in Eb as [Eh _]. apply negb_true_iff in Eh.
      assert (E1 : path_split name = (strip_head h0, t0))
        by (unfold path_split; now rewrite E0).
      unfold bind at 1, os_path_exists.
      rewrite (path_split_exists_head _ _ _ _ _ Hc E1 Eh).
      simpl. now apply Hmk.
    + simpl. now apply Hmk.
Qed.

(** On a directory that exists, [os.makedirs(..., exist_ok=True)] does
    nothing. *)
Lemma makedirs_existing (name : string) (w : world) :
  path_isdir (fs w) name = true -> makedirs name w = (Returned tt, w).
Proof. apply makedirs_rec_existing. Qed.

(** ** Writing a file and what it leaves alone *)

Lemma node_at_put_same (fs : filesystem) (t : list string) (n : inode) :
  t <> [] -> node_at (put_node fs t n) t = Some n.
Proof.
  intros Ht. destruct t as [|x t]; [contradiction|].
  simpl. apply lookup_insert_eq.
Qed.

Lemma node_at_put_other (fs : filesystem) (t c : list string) (n : inode) :
  c <> t -> node_at (put_node fs t n) c = node_at fs c.
Proof.
  intros Hc. destruct c as [|x c]; [reflexivity|].
  simpl. apply lookup_insert_ne. congruence.
Qed.

(** A node put where no directory was does not disturb the resolution of
    any path: resolution only looks at directories. *)
Lemma walk_put (fs : filesystem) (t : list string) (n : inode)
    (comps : list string) :
  node_at fs t <> Some IDir ->
  forall cur r,
    walk fs cur comps = inr r -> walk (put_node fs t n) cur comps = inr r.
Proof.
  intros Ht. induction comps as [|c comps IH]; intros cur r; simpl;
    [trivial|].
  destruct (node_at fs cur) as [[|]|] eqn:Ecur; try discriminate.
  assert (cur <> t) by congruence.
  rewrite (node_at_put_other fs t cur n) by assumption. rewrite Ecur.
  destruct (is_empty c || String.eqb c "."); [apply IH|].
  destruct (String.eqb c ".."); apply IH.
Qed.

Lemma resolve_put (fs : filesystem) (t r : list string) (n : inode)
    (p : string) :
  node_at fs t <> Some IDir ->
  resolve fs p = inr r -> resolve (put_node fs t n) p = inr r.
Proof.
  unfold resolve. intros Ht. destruct (is_empty p); [discriminate|].
  now apply walk_put.
Qed.

Lemma stat_put_other (fs : filesystem) (t r : list string) (n : inode)
    (q : string) :
  node_at fs t <> Some IDir -> resolve fs q = inr r -> r <> t ->
  stat (put_node fs t n) q = stat fs q.
Proof.
  intros Ht Hr Hne. unfold stat.
  rewrite (resolve_put fs t r n q Ht Hr), Hr.
  now rewrite node_at_put_other.
Qed.

Lemma write_file_inv (fs fs' : filesystem) (p text : string) :
  write_file fs p text = inr fs' ->
  exists t, resolve fs p = inr t /\ node_at fs t <> Some IDir
            /\ fs' = put_node fs t (IFile text).
Proof.
  unfold write_file. destruct (resolve fs p) as [e|t]; [discriminate|].
  intros H. exists t. split; [reflexivity|].
  destruct (node_at fs t) as [[|]|]; try discriminate;
    (split; [discriminate|congruence]).
Qed.

Lemma write_file_ok (fs : filesystem) (p text : string) (t : list string) :
  resolve fs p = inr t -> node_at fs t <> Some IDir ->
  write_file fs p text = inr (put_node fs t (IFile text)).
Proof.
  unfold write_file. intros -> Ht.
  destruct (node_at fs t) as [[|]|]; congruence.
Qed.

Lemma stat_after_write (fs fs' : filesystem) (p text : string) :
  write_file fs p text = inr fs' -> stat fs' p = inr (IFile text).
Proof.
  intros H. destruct (write_file_inv _ _ _ _ H) as [t [Hr [Ht ->]]].
  unfold stat. rewrite (resolve_put fs t t _ p Ht Hr).
  rewrite node_at_put_same; [reflexivity|].
  intros ->. now apply Ht.
Qed.

(** What was written is what a later [read] returns. *)
Lemma read_after_write (fs fs' : filesystem) (p text : string) :
  write_file fs p text = inr fs' -> read_file fs' p = inr text.
Proof.
  intros H. unfold read_file. now rewrite (stat_after_write _ _ _ _ H).
Qed.

Lemma not_dir_node (fs : filesystem) (p : string) (r : list string) :
  resolve fs p = inr r -> path_isdir fs p = false ->
  node_at fs r <> Some IDir.
Proof.
  unfold path_isdir, stat. intros -> H E. rewrite E in H. discriminate.
Qed.

(** A path whose directory exists resolves. *)
Lemma resolve_in_dir (fs : filesystem) (p : string) :
  path_isdir fs (dirname p) = true -> exists r, resolve fs p = inr r.
Proof.
  intros H. apply path_isdir_dir_at in H as [c Hc].
  unfold dirname, path_split in Hc.
  destruct (rsplit_slash p) as [h t] eqn:E. simpl in Hc.
  apply dir_at_strip_head in Hc. destruct Hc as [Hr Hn].
  assert (Hh : is_empty h = false)
    by (destruct h; [discriminate Hr|reflexivity]).
  rewrite (resolve_head fs p h t E Hh), Hr. simpl. rewrite Hn.
  destruct (is_empty t || String.eqb t "."); [eauto|].
  destruct (String.eqb t ".."); eauto.
Qed.

Lemma write_file_in_dir (fs : filesystem) (p text : string) :
  path_isdir fs (dirname p) = true -> path_isdir fs p = false ->
  exists fs', write_file fs p text = inr fs'.
Proof.
  intros Hd Hp. destruct (resolve_in_dir fs p Hd) as [r Hr].
  eexists. apply (write_file_ok fs p text r Hr).
  eapply not_dir_node; eassumption.
Qed.

(** ** What the statements of a script leave alone *)

Lemma quiet_ret {A} (a : A) : quiet (ret a).
Proof. intros w. now split. Qed.

Lemma quiet_raise {A} (e : exn) : quiet (@raise A e).
Proof. intros w. now split. Qed.

Lemma quiet_bind {A B} (c : py A) (k : A -> py B) :
  quiet c -> (forall a, quiet (k a)) -> quiet (bind c k).
Proof.
  intros Hc Hk w. unfold bind. specialize (Hc w).
  destruct (c w) as [[a|e] w1]; simpl in *; [|assumption].
  destruct (Hk a w1) as [H1 H2]. destruct Hc as [H3 H4].
  split; congruence.
Qed.

Lemma quiet_subscript (obj : json) (key : string) :
  quiet (subscript obj key).
Proof.
  destruct obj; try apply quiet_raise. simpl.
  destruct (assoc key fields); [apply quiet_ret|apply quiet_raise].
Qed.

Lemma quiet_iterate (obj : json) : quiet (iterate obj).
Proof. destruct obj; first [apply quiet_raise|apply quiet_ret]. Qed.

Lemma quiet_upper (obj : json) : quiet (upper obj).
Proof. destruct obj; first [apply quiet_raise|apply quiet_ret]. Qed.

Lemma quiet_now : quiet datetime_now_isoformat.
Proof. intros w. now split. Qed.

Lemma quiet_for_each {A B} (body : A -> py B) (items : list A) :
  (forall x, quiet (body x)) -> quiet (for_each body items).
Proof.
  intros Hb. induction items as [|x items IH]; simpl;
    [apply quiet_ret|].
  apply quiet_bind; [apply Hb|]. intros y.
  apply quiet_bind; [apply IH|]. intros ys. apply quiet_ret.
Qed.

Lemma quiet_process_record (record : json) : quiet (process_record record).
Proof.
  unfold process_record.
  repeat first [apply quiet_subscript | apply quiet_upper
               | apply quiet_now | apply quiet_ret
               | apply quiet_bind; [|intros ?]].
Qed.

Lemma quiet_json_load (p : string) : quiet (json_load p).
Proof.
  unfold json_load. apply quiet_bind.
  - intros w. unfold open_read, syscall.
    destruct (read_file (fs w) p); now split.
  - intros text. destruct (json_loads text);
      [apply quiet_ret|apply quiet_raise].
Qed.

Lemma quiet_transformed (input_file : string) :
  quiet (transformed input_file).
Proof.
  unfold transformed.
  repeat first [apply quiet_subscript | apply quiet_json_load
               | apply quiet_iterate
               | apply quiet_for_each; intros ?
               | apply quiet_process_record
               | apply quiet_now | apply quiet_ret
               | apply quiet_bind; [|intros ?]].
Qed.

Lemma silent_ret {A} (a : A) : silent (ret a).
Proof. intros w. now split. Qed.

Lemma silent_raise {A} (e : exn) : silent (@raise A e).
Proof. intros w. now split. Qed.

Lemma silent_bind {A B} (c : py A) (k : A -> py B) :
  silent c -> (forall a, silent (k a)) -> silent (bind c k).
Proof.
  intros Hc Hk w. unfold bind. specialize (Hc w).
  destruct (c w) as [[a|e] w1]; simpl in *; [|assumption].
  destruct (Hk a w1) as [H1 H2]. destruct Hc as [H3 H4].
  split; congruence.
Qed.

Lemma silent_try_except {A} (c : py A) (handles : exn -> bool)
    (handler : exn -> py A) :
  silent c -> (forall e, silent (handler e)) ->
  silent (try_except c handles handler).
Proof.
  intros Hc Hh w. unfold try_except. specialize (Hc w).
  destruct (c w) as [[a|e] w1]; simpl in *; [assumption|].
  destruct (handles e); simpl; [|assumption].
  destruct (Hh e w1) as [H1 H2]. destruct Hc as [H3 H4].
  split; congruence.
Qed.

Lemma silent_update_fs (call : filesystem -> Z + filesystem) (p : string) :
  silent (update_fs call p).
Proof. intros w. unfold update_fs. destruct (call (fs w)); now split. Qed.

Lemma silent_makedirs_rec (fuel : nat) :
  forall name, silent (makedirs_rec fuel name).
Proof.
  induction fuel as [|fuel IH]; intros name; simpl;
    [apply silent_raise|].
  destruct (path_split name) as [head0 tail0].
  destruct (if is_empty tail0 then path_split head0 else (head0, tail0))
    as [head tail].
  apply silent_bind.
  - destruct (negb (is_empty head) && negb (is_empty tail));
      [|apply silent_ret].
    apply silent_bind; [intros w; now split|]. intros there.
    destruct there; [apply silent_ret|].
    apply silent_bind; [|intros ?; apply silent_ret].
    apply silent_try_except; [apply IH|intros ?; apply silent_ret].
  - intros finished. destruct finished; [apply silent_ret|].
    apply silent_try_except; [apply silent_update_fs|].
    intros e. apply silent_bind; [intros w; now split|].
    intros isdir. destruct isdir; [apply silent_ret|apply silent_raise].
Qed.

Lemma silent_makedirs (name : string) : silent (makedirs name).
Proof. apply silent_makedirs_rec. Qed.

(** [os.makedirs] makes directories and writes no file. *)








(** ** The common ending *)

Lemma save_and_report_returned (output_file : string) (document : json)
    (lines : list string) (result r : json) (w w' : world) :
  save_and_report output_file document lines result w = (Returned r, w') ->
  r = result /\ stdout w' = (stdout w ++ lines)%list /\ ticks w' = ticks w
  /\ stat (fs w') output_file
     = inr (IFile (json_dump_indent2 document)).
Proof.
  unfold save_and_report.
  destruct (silent_makedirs (dirname output_file) w) as [Hout Hticks].
  destruct (makedirs (dirname output_file) w) as [[[]|e] w1];
    [|discriminate].
  simpl in Hout, Hticks.
  destruct (write_file (fs w1) output_file _) as [errno|fs2] eqn:Ew;
    [discriminate|].
  intros H. injection H as <- <-. simpl.
  rewrite Hout, Hticks. repeat split.
  now apply stat_after_write in Ew.
Qed.

Lemma save_and_report_raised (output_file : string) (document : json)
    (lines : list string) (result : json) (e : exn) (w w' : world) :
  save_and_report output_file document lines result w = (Raised e, w') ->
  stdout w' = stdout w /\ ticks w' = ticks w.
Proof.
  unfold save_and_report.
  destruct (silent_makedirs (dirname output_file) w) as [Hout Hticks].
  destruct (makedirs (dirname output_file) w) as [[[]|e1] w1];
    simpl in Hout, Hticks.
  - destruct (write_file (fs w1) output_file _); [|discriminate].
    intros H. injection H as <- <-. now split.
  - intros H. injection H as <- <-. now split.
Qed.


Lemma save_and_report_ok (output_file : string) (document : json)
    (lines : list string) (result : json) (w : world) :
  path_isdir (fs w) (dirname output_file) = true ->
  path_isdir (fs w) output_file = false ->
  exists fs',
    write_file (fs w) output_file (json_dump_indent2 document) = inr fs'
    /\ save_and_report output_file document lines result w
       = (Returned result, World fs' (ticks w) (stdout w ++ lines)).
Proof.
  intros Hd Hp.
  destruct (write_file_in_dir (fs w) output_file
              (json_dump_indent2 document) Hd Hp) as [fs' Hw].
  exists fs'. split; [assumption|].
  unfold save_and_report. rewrite (makedirs_existing _ _ Hd).
  now rewrite Hw.
Qed.

Lemma dirname_bare (p : string) :
  has_slash p = false -> dirname p = EmptyString.
Proof.
  intros H. unfold dirname, path_split.
  now rewrite (rsplit_slash_bare p H).
Qed.

(** An output path without a slash: the directory to create is the empty
    string, and nothing is written. *)
Lemma save_and_report_bare (output_file : string) (document : json)
    (lines : list string) (result : json) (w : world) :
  has_slash output_file = false ->
  save_and_report output_file document lines result w
  = (Raised (OSError ENOENT EmptyString), w).
Proof.
  intros H. unfold save_and_report.
  now rewrite (dirname_bare _ H), makedirs_empty.
Qed.


(** ** The three scripts, statement by statement *)

Lemma for_each_sample_record (n a t0 : nat) (w : world) :
  ticks w = (t0 + a)%nat ->
  for_each sample_record (map Z.of_nat (seq (S a) n)) w
  = (Returned
       (map (fun i =>
               JObj [("id", JInt (Z.of_nat (S i)));
                     ("value", JStr ("record_" ++ str_of_int (Z.of_nat (S i))));
                     ("timestamp", JStr (now_iso (t0 + i)))])
            (seq a n)),
     World (fs w) (ticks w + n) (stdout w)).
Proof.
  revert a w. induction n as [|n IH]; intros a w Ht; simpl.
  - unfold ret. destruct w. simpl. now rewrite Nat.add_0_r.
  - unfold bind at 1. unfold sample_record at 1.
    unfold bind at 1, datetime_now_isoformat, ret at 1.
    unfold bind at 1.
    rewrite (IH (S a)) by (simpl; lia).
    unfold ret. simpl. rewrite Ht.
    do 2 f_equal. lia.
Qed.

(** [load_data]: the banner, 101 readings of the clock, then the common
    ending on the dataset. *)
Lemma load_data_run (input_file output_file : string) (w : world) :
  load_data input_file output_file w
  = save_and_report output_file
      (loaded_dataset input_file (ticks w))
      ["Data loaded successfully. Records: 1000";
       "Output saved to: " ++ output_file]
      (load_result output_file)
      (World (fs w) (ticks w + 101)
             (stdout w ++ [banner Loader input_file])).
Proof.
  unfold load_data.
  unfold bind at 1, print at 1. unfold bind at 1, datetime_now_isoformat.
  unfold bind at 1. unfold range_1_101.
  rewrite (for_each_sample_record 100 0 (S (ticks w))) by (simpl; lia).
  cbv beta iota zeta. unfold save_and_report. simpl fs. simpl ticks. simpl stdout.
  replace (S (ticks w) + 100)%nat with (ticks w + 101)%nat by lia.
  unfold bind at 1.
  destruct (makedirs (dirname output_file) _) as [[[]|e] w1];
    [|reflexivity].
  unfold bind at 1, json_dump, open_write, update_fs.
  unfold loaded_dataset, loaded_record.
  destruct (write_file (fs w1) output_file _) as [errno|fs2];
    [reflexivity|].
  unfold bind, print, subscript, ret. simpl.
  now rewrite <- app_assoc.
Qed.

(** [process_data]: the banner, the transformation, then the common
    ending on the processed dataset. *)
Lemma process_data_run (input_file output_file : string) (w : world) :
  process_data input_file output_file w
  = match transformed input_file
            (World (fs w) (ticks w)
                   (stdout w ++ [banner Transformer input_file])) with
    | (Raised e, w1) => (Raised e, w1)
    | (Returned (processed_records, processed_data), w1) =>
        save_and_report output_file processed_data
          ["Data processed successfully. Records: "
           ++ str_of_int (len processed_records);
           "Output saved to: " ++ output_file]
          (process_result output_file processed_records) w1
    end.
Proof.
  unfold process_data, transformed, processed_dataset, bind, print.
  cbv beta iota zeta.
  simpl fs. simpl ticks. simpl stdout. simpl banner.
  destruct (json_load input_file _) as [[data|e] w1]; [|reflexivity].
  destruct (subscript data "data" w1) as [[dd|e] w2]; [|reflexivity].
  destruct (iterate dd w2) as [[records|e] w3]; [|reflexivity].
  destruct (for_each process_record records w3) as [[out|e] w4];
    [|reflexivity].
  unfold datetime_now_isoformat at 1 2. cbv beta iota.
  destruct (subscript data "records_count" _) as [[count|e] w5];
    [|reflexivity].
  unfold ret. cbv beta iota. unfold save_and_report.
  destruct (makedirs (dirname output_file) w5) as [[[]|e] w6];
    [|reflexivity].
  unfold json_dump, open_write, update_fs.
  destruct (write_file (fs w6) output_file _) as [errno|fs2];
    [reflexivity|].
  unfold subscript, ret. simpl.
  now rewrite <- app_assoc.
Qed.

(** [analyze_results]: the banner, the size of the input, one reading of
    the clock, then the common ending on the report. *)
Lemma analyze_results_run (input_file output_file : string) (w : world) :
  analyze_results input_file output_file w
  = match getsize dir_size (fs w) input_file with
    | inl errno =>
        (Raised (OSError errno input_file),
         World (fs w) (ticks w)
               (stdout w ++ [banner Analyzer input_file]))
    | inr size =>
        save_and_report output_file
          (analysis_report input_file size (ticks w))
          ["Analysis completed successfully";
           "Output saved to: " ++ output_file;
           "Overall Status: SUCCESS"]
          (analyze_result output_file)
          (World (fs w) (S (ticks w))
                 (stdout w ++ [banner Analyzer input_file]))
    end.
Proof.
  unfold analyze_results, bind, print, os_path_getsize, syscall.
  cbv beta iota zeta. simpl fs. simpl ticks. simpl stdout. simpl banner.
  destruct (getsize dir_size (fs w) input_file) as [errno|size];
    [reflexivity|].
  unfold datetime_now_isoformat. cbv beta iota.
  simpl fs. simpl ticks. simpl stdout. unfold save_and_report.
  destruct (makedirs (dirname output_file) _) as [[[]|e] w1];
    [|reflexivity].
  unfold json_dump, open_write, update_fs, analysis_report.
  destruct (write_file (fs w1) output_file _) as [errno|fs2];
    [reflexivity|].
  unfold subscript, ret, py_len. simpl.
  now rewrite <- !app_assoc.
Qed.

Lemma field_subscript (obj v : json) (key : string) (w : world) :
  field key obj = Some v -> subscript obj key w = (Returned v, w).
Proof.
  destruct obj; try discriminate. simpl. now intros ->.
Qed.

Lemma process_record_ok (r : json) (w : world) :
  is_loaded_record r ->
  exists processed,
    process_record r w
    = (Returned processed, World (fs w) (S (ticks w)) (stdout w))
    /\ corresponds r processed.
Proof.
  intros (i & v & ts & Hid & Hv & Hts).
  eexists. split.
  - unfold process_record, bind.
    rewrite (field_subscript r _ _ w Hid), (field_subscript r _ _ w Hv).
    simpl. now rewrite (field_subscript r _ _ _ Hts).
  - unfold corresponds. simpl. repeat split; [congruence..|].
    intros v' Hv'. congruence.
Qed.

(** The loop over well-formed records: one output record for each input
    record, in order, and one reading of the clock for each. *)
Lemma for_each_process_record (records : list json) :
  Forall is_loaded_record records ->
  forall w, exists out,
    for_each process_record records w
    = (Returned out,
       World (fs w) (ticks w + length records) (stdout w))
    /\ Forall2 corresponds records out.
Proof.
  induction 1 as [|r records Hr _ IH]; intros w.
  - exists []. split; [|constructor].
    simpl. unfold ret. destruct w; simpl. now rewrite Nat.add_0_r.
  - destruct (process_record_ok r w Hr) as (p & Hp & Hc).
    destruct (IH (World (fs w) (S (ticks w)) (stdout w)))
      as (out & Hout & Hall).
    exists (p :: out). split; [|now constructor].
    simpl. unfold bind at 1. rewrite Hp.
    unfold bind at 1. rewrite Hout. unfold ret. simpl.
    do 2 f_equal. lia.
Qed.

Lemma json_load_ok (p text : string) (doc : json) (w : world) :
  read_file (fs w) p = inr text -> json_loads text = Some doc ->
  json_load p w = (Returned doc, w).
Proof.
  intros Hr Hl. unfold json_load, bind, open_read, syscall.
  now rewrite Hr, Hl.
Qed.

(** On a LoadedDataset the transformation goes through. *)
Lemma transformed_ok (input_file text : string) (doc count : json)
    (records : list json) (w : world) :
  read_file (fs w) input_file = inr text ->
  json_loads text = Some doc ->
  field "data" doc = Some (JArr records) ->
  Forall is_loaded_record records ->
  field "records_count" doc = Some count ->
  exists out,
    transformed input_file w
    = (Returned
         (out,
          processed_dataset input_file
            (now_iso (ticks w + length records)) count out),
       World (fs w) (S (ticks w + length records)) (stdout w))
    /\ Forall2 corresponds records out.
Proof.
  intros Hr Hl Hd Hrec Hc.
  destruct (for_each_process_record records Hrec w) as (out & Hout & Hall).
  exists out. split; [|assumption].
  unfold transformed, bind.
  rewrite (json_load_ok _ _ _ _ Hr Hl), (field_subscript _ _ _ _ Hd).
  simpl. rewrite Hout. simpl.
  now rewrite (field_subscript _ _ _ _ Hc).
Qed.


(** ** The [__main__] block *)

Lemma run_main_arity (usage_text tag context : string)
    (body : string -> string -> py json) (argv : list string) (w : world) :
  length argv <> 3%nat ->
  run_main usage_text tag context body argv w
  = (1, with_stdout w [usage_text]).
Proof.
  intros H. unfold run_main.
  destruct argv as [|a [|b [|c [|d argv]]]]; try reflexivity.
  now contradiction H.
Qed.

Lemma main_run (st : stage) (script input_file output_file : string)
    (w : world) :
  main st [script; input_file; output_file] w
  = match (match st with
           | Loader => load_data
           | Transformer => process_data
           | Analyzer => analyze_results
           end) input_file output_file w with
    | (Returned result, w1) => (0, with_stdout w1 [result_line st result])
    | (Raised e, w1) => (1, with_stdout w1 [error_line st e])
    end.
Proof. destruct st; reflexivity. Qed.

Lemma load_main_run (script input_file output_file : string) (w : world) :
  load_main [script; input_file; output_file] w
  = match load_data input_file output_file w with
    | (Returned result, w1) =>
        (0, with_stdout w1 [result_line Loader result])
    | (Raised e, w1) => (1, with_stdout w1 [error_line Loader e])
    end.
Proof. reflexivity. Qed.

Lemma process_main_run (script input_file output_file : string)
    (w : world) :
  process_main [script; input_file; output_file] w
  = match process_data input_file output_file w with
    | (Returned result, w1) =>
        (0, with_stdout w1 [result_line Transformer result])
    | (Raised e, w1) => (1, with_stdout w1 [error_line Transformer e])
    end.
Proof. reflexivity. Qed.

Lemma analyze_main_run (script input_file output_file : string)
    (w : world) :
  analyze_main [script; input_file; output_file] w
  = match analyze_results input_file output_file w with
    | (Returned result, w1) =>
        (0, with_stdout w1 [result_line Analyzer result])
    | (Raised e, w1) => (1, with_stdout w1 [error_line Analyzer e])
    end.
Proof. reflexivity. Qed.

(** ** The recursion of [os.makedirs] ends before its fuel does *)

Lemma rsplit_slash_length (p h t : string) :
  rsplit_slash p = (h, t) ->
  (String.length h + String.length t = String.length p)%nat.
Proof.
  revert h t. induction p as [|c p IH]; simpl; intros h t E.
  - now inversion E.
  - destruct (rsplit_slash p) as [h' t'].
    specialize (IH h' t' eq_refl).
    destruct (is_empty h') eqn:Eh.
    + apply is_empty_true in Eh. subst h'. simpl in IH.
      destruct (is_slash c); inversion E; subst; simpl; lia.
    + inversion E; subst. simpl. lia.
Qed.

Lemma rstrip_slash_length (s : string) :
  (String.length (rstrip_slash s) <= String.length s)%nat.
Proof.
  induction s as [|c s IH]; simpl; [lia|].
  destruct (is_slash c && is_empty (rstrip_slash s)); simpl; lia.
Qed.

Lemma strip_head_length (s : string) :
  (String.length (strip_head s) <= String.length s)%nat.
Proof.
  unfold strip_head. destruct (is_empty (rstrip_slash s)); [lia|].
  apply rstrip_slash_length.
Qed.

Lemma is_empty_length (s : string) :
  is_empty s = false -> (0 < String.length s)%nat.
Proof. destruct s; [discriminate|simpl; lia]. Qed.

(** The head that [os.makedirs] recurses on is shorter than the name. *)
Lemma path_split_shorter (p head tail : string) :
  path_split p = (head, tail) -> is_empty tail = false ->
  (String.length head < String.length p)%nat.
Proof.
  unfold path_split. destruct (rsplit_slash p) as [h t] eqn:E.
  intros H Ht. injection H as <- <-.
  pose proof (rsplit_slash_length p h t E).
  pose proof (strip_head_length h).
  pose proof (is_empty_length t Ht). lia.
Qed.

Lemma path_split_not_longer (p head tail : string) :
  path_split p = (head, tail) ->
  (String.length head <= String.length p)%nat.
Proof.
  unfold path_split. destruct (rsplit_slash p) as [h t] eqn:E.
  intros H. injection H as <- <-.
  pose proof (rsplit_slash_length p h t E).
  pose proof (strip_head_length h). lia.
Qed.

Lemma raises_OSError_ret {A} (a : A) : raises_OSError (ret a).
Proof. intros w e w' H. discriminate H. Qed.

Lemma raises_OSError_raise {A} (e : exn) :
  is_OSError e = true -> raises_OSError (@raise A e).
Proof. intros He w e' w' H. injection H as <- <-. exact He. Qed.

Lemma raises_OSError_bind {A B} (c : py A) (k : A -> py B) :
  raises_OSError c -> (forall a, raises_OSError (k a)) ->
  raises_OSError (bind c k).
Proof.
  intros Hc Hk w e w'. unfold bind.
  destruct (c w) as [[a|e1] w1] eqn:E.
  - apply Hk.
  - intros H. injection H as <- <-. eapply Hc; eassumption.
Qed.

Lemma raises_OSError_try_except {A} (c : py A) (handles : exn -> bool)
    (handler : exn -> py A) :
  raises_OSError c ->
  (forall e, is_OSError e = true -> raises_OSError (handler e)) ->
  raises_OSError (try_except c handles handler).
Proof.
  intros Hc Hh w e w'. unfold try_except.
  destruct (c w) as [[a|e1] w1] eqn:E; [discriminate|].
  pose proof (Hc _ _ _ E) as He1.
  destruct (handles e1).
  - now apply Hh.
  - intros H. now injection H as <- <-.
Qed.

Lemma raises_OSError_update_fs (call : filesystem -> Z + filesystem)
    (p : string) :
  raises_OSError (update_fs call p).
Proof.
  intros w e w'. unfold update_fs.
  destruct (call (fs w)); [|discriminate].
  intros H. now injection H as <- <-.
Qed.

Lemma makedirs_rec_raises_OSError (fuel : nat) :
  forall name,
    (String.length name < fuel)%nat ->
    raises_OSError (makedirs_rec fuel name).
Proof.
  induction fuel as [|fuel IH]; intros name Hfuel; [lia|].
  simpl.
  destruct (path_split name) as [head0 tail0] eqn:E0.
  destruct (if is_empty tail0 then path_split head0 else (head0, tail0))
    as [head tail] eqn:E1.
  assert (Hshort : is_empty tail = false ->
                   (String.length head < fuel)%nat).
  { intros Ht. destruct (is_empty tail0) eqn:Et0.
    - pose proof (path_split_shorter _ _ _ E1 Ht).
      pose proof (path_split_not_longer _ _ _ E0). lia.
    - injection E1 as <- <-.
      pose proof (path_split_shorter _ _ _ E0 Ht). lia. }
  apply raises_OSError_bind.
  - destruct (negb (is_empty head) && negb (is_empty tail)) eqn:Eb;
      [|apply raises_OSError_ret].
    apply andb_true_iff in Eb as [_ Et]. apply negb_true_iff in Et.
    apply raises_OSError_bind; [intros w e w' H; discriminate H|].
    intros there. destruct there; [apply raises_OSError_ret|].
    apply raises_OSError_bind; [|intros ?; apply raises_OSError_ret].
    apply raises_OSError_try_except; [now apply IH, Hshort|].
    intros e _. apply raises_OSError_ret.
  - intros finished. destruct finished; [apply raises_OSError_ret|].
    apply raises_OSError_try_except; [apply raises_OSError_update_fs|].
    intros e He.
    apply raises_OSError_bind; [intros w e' w' H; discriminate H|].
    intros isdir. destruct isdir;
      [apply raises_OSError_ret|now apply raises_OSError_raise].
Qed.

(** [os.makedirs] fails with an [OSError] or not at all. *)
Lemma makedirs_raises_OSError (name : string) :
  raises_OSError (makedirs name).
Proof. apply makedirs_rec_raises_OSError. lia. Qed.

Lemma save_and_report_raises_OSError (output_file : string)
    (document : json) (lines : list string) (result : json) (e : exn)
    (w w' : world) :
  save_and_report output_file document lines result w = (Raised e, w') ->
  is_OSError e = true.
Proof.
  unfold save_and_report.
  destruct (makedirs (dirname output_file) w) as [[[]|e1] w1] eqn:Em.
  - destruct (write_file (fs w1) output_file _); [|discriminate].
    intros H. now injection H as <- <-.
  - intros H. injection H as <- <-.
    eapply (makedirs_raises_OSError (dirname output_file)); eassumption.
Qed.


(** ** The claims *)

Lemma banner_not_result (st : stage) (input_file : string) :
  is_result_line (banner st input_file) = false.
Proof. destruct st; reflexivity. Qed.

Lemma error_line_not_result (st : stage) (e : exn) :
  is_result_line (error_line st e) = false.
Proof. destruct st; reflexivity. Qed.

Lemma result_line_is_result (st : stage) (result : json) :
  is_result_line (result_line st result) = true.
Proof. destruct st; reflexivity. Qed.

(** C5.  Any stage started with an argument vector that is not the script
    name and exactly two positional arguments prints its usage line and
    nothing else, exits with code 1, and leaves the filesystem as it was:
    no output file is written and no result line is printed. *)
Theorem wrong_arity_prints_usage_and_exits_1
    (st : stage) (argv : list string) (w : world) :
  length argv <> 3%nat ->
  main st argv w = (1, World (fs w) (ticks w) (stdout w ++ [usage st]))
  /\ is_result_line (usage st) = false.
Proof.
  intros H. split; [|destruct st; reflexivity].
  destruct st; apply run_main_arity; assumption.
Qed.

(** The body of a stage raises or returns; when it raises, only the banner
    has been printed, and when it returns, the banner and the closing
    lines have. *)
Lemma stage_body_stdout (st : stage) (input_file output_file : string)
    (w : world) :
  match (match st with
         | Loader => load_data
         | Transformer => process_data
         | Analyzer => analyze_results
         end) input_file output_file w with
  | (Raised e, w1) => stdout w1 = (stdout w ++ [banner st input_file])%list
  | (Returned result, w1) =>
      exists closing fields,
        stdout w1 = (stdout w ++ banner st input_file :: closing)%list
        /\ Forall (fun l => is_result_line l = false) closing
        /\ result = JObj fields
  end.
Proof.
  destruct st.
  - rewrite load_data_run.
    destruct (save_and_report _ _ _ _ _) as [[r|e] w1] eqn:E.
    + apply save_and_report_returned in E as (-> & Hout & _).
      eexists _, _. split; [|split; [|reflexivity]].
      * rewrite Hout. simpl. now rewrite <- app_assoc.
      * repeat constructor.
    + now apply save_and_report_raised in E as [-> _].
  - rewrite process_data_run.
    pose proof (quiet_transformed input_file
      (World (fs w) (ticks w)
             (stdout w ++ [banner Transformer input_file]))) as [_ Hq].
    destruct (transformed input_file _) as [[[recs pd]|e] w1];
      simpl in Hq; [|assumption].
    destruct (save_and_report _ _ _ _ _) as [[r|e] w2] eqn:E.
    + apply save_and_report_returned in E as (-> & Hout & _).
      eexists _, _. split; [|split; [|reflexivity]].
      * rewrite Hout, Hq. now rewrite <- app_assoc.
      * repeat constructor.
    + apply save_and_report_raised in E as [-> _]. exact Hq.
  - rewrite analyze_results_run.
    destruct (getsize dir_size (fs w) input_file) as [errno|size];
      [reflexivity|].
    destruct (save_and_report _ _ _ _ _) as [[r|e] w1] eqn:E.
    + apply save_and_report_returned in E as (-> & Hout & _).
      eexists _, _. split; [|split; [|reflexivity]].
      * rewrite Hout. simpl. now rewrite <- app_assoc.
      * repeat constructor.
    + now apply save_and_report_raised in E as [-> _].
Qed.

(** *** Lines of standard output *)

Lemma has_newline_app (x y : string) :
  has_newline (x ++ y) = has_newline x || has_newline y.
Proof.
  induction x as [|c x IH]; [reflexivity|].
  rewrite str_app_cons. simpl. rewrite IH. apply orb_assoc.
Qed.

Lemma has_newline_string_of_uint (d : Decimal.uint) :
  has_newline (NilEmpty.string_of_uint d) = false.
Proof. induction d; simpl; auto. Qed.

Lemma has_newline_str_of_int (n : Z) : has_newline (str_of_int n) = false.
Proof.
  unfold str_of_int. destruct (Z.to_int n); simpl;
    apply has_newline_string_of_uint.
Qed.

Lemma lines_of_line (x : string) :
  lines (x ++ String "010" EmptyString) <> [].
Proof.
  destruct x as [|c x]; [discriminate|].
  rewrite str_app_cons. simpl. destruct (is_newline c); [discriminate|].
  destruct (lines _); discriminate.
Qed.

(** The lines of a text that continues after a newline are the lines up to
    that newline and then the lines of the rest. *)
Lemma lines_line_app (x rest : string) :
  lines (x ++ String "010" rest)
  = (lines (x ++ String "010" EmptyString) ++ lines rest)%list.
Proof.
  induction x as [|c x IH]; [reflexivity|].
  rewrite !str_app_cons. simpl. rewrite IH.
  destruct (is_newline c); [reflexivity|].
  pose proof (lines_of_line x) as Hne.
  destruct (lines (x ++ String "010" EmptyString)); [contradiction|].
  reflexivity.
Qed.

Lemma lines_plain_line (x : string) :
  has_newline x = false -> lines (x ++ String "010" EmptyString) = [x].
Proof.
  induction x as [|c x IH]; [reflexivity|].
  intros H. simpl in H. apply orb_false_iff in H as [Hc Hx].
  rewrite str_app_cons. simpl. rewrite Hc, (IH Hx). reflexivity.
Qed.

(** What two runs print one after the other is the lines of the first and
    then the lines of the second. *)
Lemma lines_stdout_text_app (a b : list string) :
  lines (stdout_text (a ++ b))
  = (lines (stdout_text a) ++ lines (stdout_text b))%list.
Proof.
  induction a as [|x a IH]; [reflexivity|].
  simpl. rewrite lines_line_app, IH, (lines_line_app x (stdout_text a)).
  now rewrite <- app_assoc.
Qed.

(** [print] calls whose texts hold no newline write one line each. *)
Lemma lines_plain_calls (calls : list string) :
  Forall (fun x => has_newline x = false) calls ->
  lines (stdout_text calls) = calls.
Proof.
  induction 1 as [|x calls Hx _ IH]; [reflexivity|].
  simpl. rewrite lines_line_app, (lines_plain_line x Hx), IH. reflexivity.
Qed.

Lemma lines_last_plain (calls : list string) (x : string) :
  has_newline x = false ->
  lines (stdout_text (calls ++ [x]))
  = (lines (stdout_text calls) ++ [x])%list.
Proof.
  intros Hx. rewrite lines_stdout_text_app. simpl.
  now rewrite (lines_plain_line x Hx).
Qed.

(** With arguments that hold no newline, every [print] call of a stage's
    body writes one line. *)
Lemma stage_body_prints (st : stage) (input_file output_file : string)
    (w : world) :
  has_newline input_file = false ->
  has_newline output_file = false ->
  match (match st with
         | Loader => load_data
         | Transformer => process_data
         | Analyzer => analyze_results
         end) input_file output_file w with
  | (Raised e, w1) => stdout w1 = (stdout w ++ [banner st input_file])%list
  | (Returned result, w1) =>
      exists closing fields,
        stdout w1 = (stdout w ++ banner st input_file :: closing)%list
        /\ Forall (fun l => is_result_line l = false) closing
        /\ Forall (fun l => has_newline l = false) closing
        /\ result = JObj fields
  end.
Proof.
  intros Hi Ho.
  assert (Hsaved : has_newline ("Output saved to: " ++ output_file) = false)
    by exact Ho.
  destruct st.
  - rewrite load_data_run.
    destruct (save_and_report _ _ _ _ _) as [[r|e] w1] eqn:E.
    + apply save_and_report_returned in E as (-> & Hout & _).
      eexists _, _. split; [|split; [|split; [|reflexivity]]].
      * rewrite Hout. simpl. now rewrite <- app_assoc.
      * repeat constructor.
      * repeat apply List.Forall_cons; try apply List.Forall_nil;
          first [exact Hsaved|reflexivity].
    + now apply save_and_report_raised in E as [-> _].
  - rewrite process_data_run.
    pose proof (quiet_transformed input_file
      (World (fs w) (ticks w)
             (stdout w ++ [banner Transformer input_file]))) as [_ Hq].
    destruct (transformed input_file _) as [[[recs pd]|e] w1];
      simpl in Hq; [|assumption].
    destruct (save_and_report _ _ _ _ _) as [[r|e] w2] eqn:E.
    + apply save_and_report_returned in E as (-> & Hout & _).
      eexists _, _. split; [|split; [|split; [|reflexivity]]].
      * rewrite Hout, Hq. now rewrite <- app_assoc.
      * repeat constructor.
      * repeat apply List.Forall_cons; try apply List.Forall_nil;
          first [exact Hsaved
                |exact (has_newline_str_of_int (len recs))].
    + apply save_and_report_raised in E as [-> _]. exact Hq.
  - rewrite analyze_results_run.
    destruct (getsize dir_size (fs w) input_file) as [errno|size];
      [reflexivity|].
    destruct (save_and_report _ _ _ _ _) as [[r|e] w1] eqn:E.
    + apply save_and_report_returned in E as (-> & Hout & _).
      eexists _, _. split; [|split; [|split; [|reflexivity]]].
      * rewrite Hout. simpl. now rewrite <- app_assoc.
      * repeat constructor.
      * repeat apply List.Forall_cons; try apply List.Forall_nil;
          first [exact Hsaved|reflexivity].
    + now apply save_and_report_raised in E as [-> _].
Qed.

Lemma has_newline_banner (st : stage) (input_file : string) :
  has_newline (banner st input_file) = has_newline input_file.
Proof. destruct st; reflexivity. Qed.

Lemma has_newline_result_line (st : stage) (result : json) :
  has_newline (result_line st result) = has_newline (json_dumps result).
Proof. destruct st; reflexivity. Qed.

Lemma has_newline_error_line (st : stage) (e : exn) :
  has_newline (error_line st e) = has_newline (exn_str e).
Proof. destruct st; reflexivity. Qed.

(** What a stage prints when it is given two arguments without a newline,
    on a platform whose [json.dumps] and [str(e)] write none: one line for
    each [print] call, the last of them the result line or the error
    line. *)
Lemma main_prints (st : stage) (script input_file output_file : string)
    (w : world) :
  has_newline input_file = false ->
  has_newline output_file = false ->
  (forall obj, has_newline (json_dumps obj) = false) ->
  (forall e, has_newline (exn_str e) = false) ->
  exists printed,
    stdout (snd (main st [script; input_file; output_file] w))
    = (stdout w ++ printed)%list
    /\ lines (stdout_text printed) = printed
    /\ ((fst (main st [script; input_file; output_file] w) = 0
         /\ exists progress fields,
              printed = (progress ++ [result_line st (JObj fields)])%list
              /\ Forall (fun l => is_result_line l = false) progress)
        \/ (fst (main st [script; input_file; output_file] w) = 1
            /\ exists e, printed = [banner st input_file; error_line st e])).
Proof.
  intros Hi Ho Hdumps Hstr. rewrite main_run.
  pose proof (stage_body_prints st input_file output_file w Hi Ho) as H.
  destruct ((match st with
             | Loader => load_data
             | Transformer => process_data
             | Analyzer => analyze_results
             end) input_file output_file w) as [[result|e] w1].
  - destruct H as (closing & fields & Hout & Hres & Hnl & ->).
    exists ((banner st input_file :: closing)
            ++ [result_line st (JObj fields)])%list.
    cbn [fst snd with_stdout stdout]. rewrite Hout.
    split; [now rewrite <- !app_assoc|]. split.
    + apply lines_plain_calls. apply Forall_app. split.
      * constructor; [|exact Hnl]. now rewrite has_newline_banner.
      * constructor; [|constructor].
        rewrite has_newline_result_line. apply Hdumps.
    + left. split; [reflexivity|].
      exists (banner st input_file :: closing), fields.
      split; [reflexivity|].
      constructor; [apply banner_not_result|exact Hres].
  - exists [banner st input_file; error_line st e].
    cbn [fst snd with_stdout stdout]. rewrite H.
    split; [now rewrite <- !app_assoc|]. split.
    + apply lines_plain_calls.
      constructor; [now rewrite has_newline_banner|].
      constructor; [|constructor].
      rewrite has_newline_error_line. apply Hstr.
    + right. split; [reflexivity|]. now exists e.
Qed.

(** C4, amended.  A stage started with two positional arguments that hold
    no newline character, on a platform whose [json.dumps] and [str(e)]
    write none, ends in one of two ways.  With exit code 0, the lines it
    wrote to standard output are progress lines, none of them a result
    line, and then, last, the one line [LOAD_RESULT: <json object>],
    [PROCESS_RESULT: <json object>] or [ANALYZE_RESULT: <json object>] of
    the stage.  With exit code 1, the lines it wrote end with
    [Error loading data: <message>], [Error processing data: <message>]
    or [Error analyzing results: <message>], and none of them is a result
    line.  A line is what standard output holds between two newlines. *)
Theorem stdout_contract
    (st : stage) (script input_file output_file : string) (w : world) :
  has_newline input_file = false ->
  has_newline output_file = false ->
  (forall obj, has_newline (json_dumps obj) = false) ->
  (forall e, has_newline (exn_str e) = false) ->
  let r := main st [script; input_file; output_file] w in
  exists printed,
    stdout (snd r) = (stdout w ++ printed)%list
    /\ ((fst r = 0
         /\ exists progress fields,
              lines (stdout_text printed)
              = (progress
                 ++ [(match st with
                      | Loader => "LOAD_RESULT: "
                      | Transformer => "PROCESS_RESULT: "
                      | Analyzer => "ANALYZE_RESULT: "
                      end ++ json_dumps (JObj fields))%string])%list
              /\ Forall (fun l => is_result_line l = false) progress)
        \/ (fst r = 1
            /\ exists progress e,
                 lines (stdout_text printed)
                 = (progress
                    ++ [(match st with
                         | Loader => "Error loading data: "
                         | Transformer => "Error processing data: "
                         | Analyzer => "Error analyzing results: "
                         end ++ exn_str e)%string])%list
                 /\ Forall (fun l => is_result_line l = false)
                           (lines (stdout_text printed)))).
Proof.
  intros Hi Ho Hdumps Hstr. cbv zeta.
  destruct (main_prints st script input_file output_file w Hi Ho Hdumps Hstr)
    as (printed & Hstd & Hlines & Hcase).
  exists printed. split; [exact Hstd|]. rewrite Hlines.
  destruct Hcase as [(Hcode & progress & fields & -> & Hprog)
                    |(Hcode & e & ->)].
  - left. split; [exact Hcode|]. exists progress, fields.
    split; [|exact Hprog]. destruct st; reflexivity.
  - right. split; [exact Hcode|]. exists [banner st input_file], e.
    split; [destruct st; reflexivity|].
    constructor; [apply banner_not_result|].
    constructor; [apply error_line_not_result|constructor].
Qed.


(** C10.  For every stage: when the output path contains no slash, the
    run exits with code 1, leaves the filesystem as it was, and prints
    its banner and an error line.  In the Loader the error is the
    [OSError] of [os.makedirs('')]: the directory to create is the empty
    string. *)
Theorem bare_output_name_exits_1
    (st : stage) (script input_file output_file : string) (w : world) :
  has_slash output_file = false ->
  exists e t,
    main st [script; input_file; output_file] w
    = (1, World (fs w) t
                (stdout w ++ [banner st input_file; error_line st e]))
    /\ (st = Loader -> e = OSError ENOENT EmptyString).
Proof.
  intros Hbare. rewrite main_run. destruct st.
  - rewrite load_data_run, (save_and_report_bare _ _ _ _ _ Hbare).
    eexists _, _. split; [|reflexivity].
    unfold with_stdout. simpl. now rewrite <- app_assoc.
  - rewrite process_data_run.
    pose proof (quiet_transformed input_file
      (World (fs w) (ticks w)
             (stdout w ++ [banner Transformer input_file]))) as [Hf Hq].
    destruct (transformed input_file _) as [[[recs pd]|e] w1];
      simpl in Hf, Hq.
    + rewrite (save_and_report_bare _ _ _ _ _ Hbare).
      eexists _, _. split; [|discriminate].
      unfold with_stdout. rewrite Hf, Hq. simpl.
      now rewrite <- app_assoc.
    + eexists _, _. split; [|discriminate].
      unfold with_stdout. rewrite Hf, Hq. simpl.
      now rewrite <- app_assoc.
  - rewrite analyze_results_run.
    destruct (getsize dir_size (fs w) input_file) as [errno|size].
    + eexists _, _. split; [|discriminate].
      unfold with_stdout. simpl. now rewrite <- app_assoc.
    + rewrite (save_and_report_bare _ _ _ _ _ Hbare).
      eexists _, _. split; [|discriminate].
      unfold with_stdout. simpl. now rewrite <- app_assoc.
Qed.


Lemma loaded_dataset_data (input_file : string) (k : nat) :
  field "data" (loaded_dataset input_file k)
  = Some (JArr (map (loaded_record k) (seq 0 100))).
Proof. reflexivity. Qed.

Lemma loaded_record_is_record (k i : nat) :
  is_loaded_record (loaded_record k i).
Proof. eexists _, _, _. repeat split. Qed.



Lemma getsize_file (fs0 : filesystem) (p text : string) :
  read_file fs0 p = inr text ->
  getsize dir_size fs0 p = inr (Z.of_nat (String.length text)).
Proof.
  unfold read_file, getsize.
  destruct (stat fs0 p) as [e|[t|]]; try discriminate.
  now intros [= ->].
Qed.

(** C2.  When the Analyzer's input is an existing file, whatever its
    text, the report it builds has [report_size_bytes] equal to the
    length of that text and [report_size_kb] computed from it.  The run
    fails only with an [OSError] on its output path, and when it returns,
    the output file holds that report; it returns whenever the directory
    of the output path exists and the output path is not a directory.
    The text is never handed to [json.load]: [analyze_results] does not
    mention the reader. *)
Theorem report_size_is_input_length
    (input_file output_file text : string) (w : world) :
  read_file (fs w) input_file = inr text ->
  let size := Z.of_nat (String.length text) in
  let report := analysis_report input_file size (ticks w) in
  field "report_size_bytes" report = Some (JInt size)
  /\ field "report_size_kb" report = Some (JFloat (size_kb size))
  /\ match analyze_results input_file output_file w with
     | (Returned _, w') =>
         stat (fs w') output_file
         = inr (IFile (json_dump_indent2 report))
     | (Raised e, _) => is_OSError e = true
     end
  /\ (path_isdir (fs w) (dirname output_file) = true ->
      path_isdir (fs w) output_file = false ->
      exists result w',
        analyze_results input_file output_file w = (Returned result, w')).
Proof.
  intros Hr. cbv zeta. split; [reflexivity|split; [reflexivity|]].
  rewrite analyze_results_run, (getsize_file _ _ _ Hr). split.
  - destruct (save_and_report _ _ _ _ _) as [[r|e] w1] eqn:E.
    + now apply save_and_report_returned in E as (_ & _ & _ & Hstat).
    + now apply save_and_report_raises_OSError in E.
  - intros Hd Hp.
    destruct (save_and_report_ok output_file
                (analysis_report input_file
                   (Z.of_nat (String.length text)) (ticks w))
                ["Analysis completed successfully";
                 "Output saved to: " ++ output_file;
                 "Overall Status: SUCCESS"]
                (analyze_result output_file)
                (World (fs w) (S (ticks w))
                       (stdout w ++ [banner Analyzer input_file]))
                Hd Hp) as (fs' & _ & ->).
    eauto.
Qed.

Lemma Forall2_length_eq {A B} (R : A -> B -> Prop) (l : list A)
    (l' : list B) :
  Forall2 R l l' -> len l' = len l.
Proof.
  intros H. unfold len. apply Forall2_length in H. now rewrite H.
Qed.

(** C1.  When the Transformer's input file holds a LoadedDataset (its
    text loads as a dictionary with a [records_count] and a [data] list
    of records, each with an integer [id], a string [value] and a
    [timestamp]), the dataset it builds has one output record for each
    input record, in order, with the same [id] and with
    [processed_value] the upper case of [value], and its
    [processed_records_count] is the length of the input's [data].  The
    run fails only with an [OSError] on its output path, and when it
    returns, the output file holds that dataset; it returns whenever the
    directory of the output path exists and the output path is not a
    directory. *)
Theorem transformer_uppercases_every_record
    (input_file output_file text : string) (doc count : json)
    (records : list json) (w : world) :
  read_file (fs w) input_file = inr text ->
  json_loads text = Some doc ->
  field "data" doc = Some (JArr records) ->
  Forall is_loaded_record records ->
  field "records_count" doc = Some count ->
  exists processed_records processed_data,
    Forall2 corresponds records processed_records
    /\ field "data" processed_data = Some (JArr processed_records)
    /\ field "processed_records_count" processed_data
       = Some (JInt (len records))
    /\ match process_data input_file output_file w with
       | (Returned _, w') =>
           stat (fs w') output_file
           = inr (IFile (json_dump_indent2 processed_data))
       | (Raised e, _) => is_OSError e = true
       end
    /\ (path_isdir (fs w) (dirname output_file) = true ->
        path_isdir (fs w) output_file = false ->
        exists result w',
          process_data input_file output_file w = (Returned result, w')).
Proof.
  intros Hr Hl Hd Hrec Hc.
  destruct (transformed_ok input_file text doc count records
              (World (fs w) (ticks w)
                     (stdout w ++ [banner Transformer input_file]))
              Hr Hl Hd Hrec Hc) as (out & Ht & Hall).
  exists out, (processed_dataset input_file
                 (now_iso (ticks w + length records)) count out).
  split; [assumption|]. split; [reflexivity|].
  split; [simpl; now rewrite (Forall2_length_eq _ _ _ Hall)|].
  rewrite process_data_run, Ht. cbn [fs ticks stdout]. split.
  - destruct (save_and_report _ _ _ _ _) as [[r|e] w1] eqn:E.
    + now apply save_and_report_returned in E as (_ & _ & _ & Hstat).
    + now apply save_and_report_raises_OSError in E.
  - intros Hdir Hp.
    destruct (save_and_report_ok output_file
                (processed_dataset input_file
                   (now_iso (ticks w + length records)) count out)
                ["Data processed successfully. Records: "
                 ++ str_of_int (len out);
                 "Output saved to: " ++ output_file]
                (process_result output_file out)
                (World (fs w) (S (ticks w + length records))
                       (stdout w ++ [banner Transformer input_file]))
                Hdir Hp) as (fs' & _ & ->).
    eauto.
Qed.


(** C8, as amended.  Two runs of the Analyzer on existing input files of
    equal length, their texts, worlds and paths otherwise arbitrary:
    the reports agree on every field other than [analysis_timestamp] and
    [report_file] (the input path as it was given), and on [report_file]
    too when the two input paths are the same string; the fields
    [analysis_metrics], [recommendations], [quality_checks] and [summary]
    are the same constants in every report.  When both runs return, each
    output file holds its report, and the result records agree on
    [status], [overall_status], [quality_score] and
    [recommendations_count]. *)
Theorem analyzer_reports_differ_only_in_timestamp_and_path
    (input1 output1 text1 input2 output2 text2 : string)
    (w1 w2 : world) :
  read_file (fs w1) input1 = inr text1 ->
  read_file (fs w2) input2 = inr text2 ->
  String.length text1 = String.length text2 ->
  exists report1 report2,
    (forall key, key <> "analysis_timestamp" -> key <> "report_file" ->
                 field key report1 = field key report2)
    /\ (input1 = input2 ->
        field "report_file" report1 = field "report_file" report2)
    /\ field "analysis_metrics" report1 = Some analysis_metrics
    /\ field "recommendations" report1 = Some recommendations
    /\ field "quality_checks" report1 = Some quality_checks
    /\ field "summary" report1 = Some summary
    /\ forall result1 w1' result2 w2',
         analyze_results input1 output1 w1 = (Returned result1, w1') ->
         analyze_results input2 output2 w2 = (Returned result2, w2') ->
         stat (fs w1') output1
         = inr (IFile (json_dump_indent2 report1))
         /\ stat (fs w2') output2
            = inr (IFile (json_dump_indent2 report2))
         /\ field "status" result1 = field "status" result2
         /\ field "overall_status" result1
            = field "overall_status" result2
         /\ field "quality_score" result1 = field "quality_score" result2
         /\ field "recommendations_count" result1
            = field "recommendations_count" result2.
Proof.
  intros Hr1 Hr2 Hlen.
  exists (analysis_report input1 (Z.of_nat (String.length text1))
                          (ticks w1)),
         (analysis_report input2 (Z.of_nat (String.length text2))
                          (ticks w2)).
  split; [|split; [|repeat (split; [reflexivity|])]].
  - intros key H1 H2. rewrite Hlen. unfold analysis_report, field, assoc.
    destruct (String.eqb_spec key "analysis_timestamp"); [contradiction|].
    destruct (String.eqb_spec key "report_file"); [contradiction|].
    reflexivity.
  - intros ->. reflexivity.
  - intros result1 w1' result2 w2'.
    rewrite !analyze_results_run.
    rewrite (getsize_file _ _ _ Hr1), (getsize_file _ _ _ Hr2).
    intros E1 E2.
    apply save_and_report_returned in E1 as (-> & _ & _ & Hs1).
    apply save_and_report_returned in E2 as (-> & _ & _ & Hs2).
    repeat split; assumption.
Qed.


(** ** Files in one directory *)

Lemma plain_name_walk (fs0 : filesystem) (d : list string) (x : string) :
  node_at fs0 d = Some IDir -> plain_name x = true ->
  walk fs0 d [x] = inr (d ++ [x])%list.
Proof.
  intros Hd Hx. unfold plain_name in Hx.
  apply andb_true_iff in Hx as [Hx Hdd].
  apply andb_true_iff in Hx as [Hx Hdot].
  apply andb_true_iff in Hx as [Hne _].
  apply negb_true_iff in Hne, Hdot, Hdd.
  simpl. now rewrite Hd, Hne, Hdot, Hdd.
Qed.

Lemma plain_name_no_slash (x : string) :
  plain_name x = true -> has_slash x = false.
Proof.
  unfold plain_name. intros H.
  apply andb_true_iff in H as [H _]. apply andb_true_iff in H as [H _].
  apply andb_true_iff in H as [_ H]. now apply negb_true_iff in H.
Qed.

Lemma dir_at_nonempty (fs0 : filesystem) (p : string) (d : list string) :
  dir_at fs0 p d -> is_empty p = false.
Proof. intros [H _]. destruct p; [discriminate H|reflexivity]. Qed.

Lemma dir_at_slash (fs0 : filesystem) (tmp : string) (d : list string) :
  dir_at fs0 tmp d -> dir_at fs0 (tmp ++ "/") d.
Proof.
  intros H. pose proof (dir_at_nonempty _ _ _ H) as Hne.
  destruct H as [Hr Hd]. split; [|assumption].
  unfold resolve in *. rewrite Hne in Hr.
  rewrite is_empty_app, Hne. simpl andb. cbv iota.
  rewrite (is_absolute_app tmp _ Hne).
  change (tmp ++ "/") with (tmp ++ "/" ++ EmptyString).
  rewrite split_slash_join, walk_app, Hr. simpl. now rewrite Hd.
Qed.

(** A plain name under a directory: where it resolves, and that its
    [dirname] is that directory. *)
Lemma child_path (fs0 : filesystem) (tmp x : string) (d : list string) :
  dir_at fs0 tmp d -> plain_name x = true ->
  resolve fs0 (tmp ++ "/" ++ x) = inr (d ++ [x])%list
  /\ path_isdir fs0 (dirname (tmp ++ "/" ++ x)) = true.
Proof.
  intros Hd Hx. pose proof (dir_at_slash _ _ _ Hd) as Hs.
  pose proof (rsplit_slash_join tmp x (plain_name_no_slash x Hx)) as E.
  assert (Hh : is_empty (tmp ++ "/") = false)
    by (rewrite is_empty_app; simpl; apply andb_false_r).
  split.
  - rewrite (resolve_head fs0 _ _ _ E Hh). destruct Hs as [-> Hn].
    now apply plain_name_walk.
  - apply path_isdir_dir_at. exists d.
    unfold dirname, path_split. rewrite E. simpl.
    exact (proj1 (dir_at_strip_head _ _ _) Hs).
Qed.

Lemma path_isdir_stat (fs1 fs2 : filesystem) (p q : string) :
  stat fs1 p = stat fs2 q -> path_isdir fs1 p = path_isdir fs2 q.
Proof. unfold path_isdir. now intros ->. Qed.

Lemma read_file_stat (fs0 : filesystem) (p text : string) :
  stat fs0 p = inr (IFile text) -> read_file fs0 p = inr text.
Proof. unfold read_file. now intros ->. Qed.

Lemma is_file_stat (fs0 : filesystem) (p text : string) :
  stat fs0 p = inr (IFile text) -> is_file fs0 p = true.
Proof. unfold is_file. now intros ->. Qed.

(** A file put under a directory: the directory is still there, the file
    is found under its name, and the other names are as before. *)
Lemma put_child_frame (fs0 : filesystem) (tmp x text : string)
    (d : list string) :
  dir_at fs0 tmp d -> plain_name x = true ->
  node_at fs0 (d ++ [x])%list <> Some IDir ->
  let fs1 := put_node fs0 (d ++ [x])%list (IFile text) in
  dir_at fs1 tmp d
  /\ stat fs1 (tmp ++ "/" ++ x) = inr (IFile text)
  /\ forall y, plain_name y = true -> y <> x ->
               stat fs1 (tmp ++ "/" ++ y) = stat fs0 (tmp ++ "/" ++ y).
Proof.
  intros Hd Hx Hn. cbv zeta.
  assert (Hd1 : dir_at (put_node fs0 (d ++ [x])%list (IFile text)) tmp d).
  { destruct Hd as [Hr Hdd]. split.
    - now apply resolve_put.
    - rewrite node_at_put_other; [assumption|]. congruence. }
  split; [assumption|]. split.
  - unfold stat.
    rewrite (proj1 (child_path _ _ _ _ Hd1 Hx)).
    rewrite node_at_put_same; [reflexivity|].
    now destruct d.
  - intros y Hy Hne.
    apply (stat_put_other fs0 _ (d ++ [y])%list); [assumption| |].
    + apply (child_path _ _ _ _ Hd Hy).
    + intros E. apply app_inj_tail in E as [_ E]. congruence.
Qed.

(** The common ending on a plain name under an existing directory. *)
Lemma save_and_report_child (tmp x : string) (d : list string)
    (document : json) (lines : list string) (result : json) (w : world) :
  dir_at (fs w) tmp d -> plain_name x = true ->
  path_isdir (fs w) (tmp ++ "/" ++ x) = false ->
  node_at (fs w) (d ++ [x])%list <> Some IDir
  /\ save_and_report (tmp ++ "/" ++ x) document lines result w
     = (Returned result,
        World (put_node (fs w) (d ++ [x])%list
                        (IFile (json_dump_indent2 document)))
              (ticks w) (stdout w ++ lines)).
Proof.
  intros Hd Hx Hp. destruct (child_path _ _ _ _ Hd Hx) as [Hr Hdir].
  pose proof (not_dir_node _ _ _ Hr Hp) as Hn.
  split; [assumption|].
  unfold save_and_report. rewrite (makedirs_existing _ _ Hdir).
  now rewrite (write_file_ok _ _ _ _ Hr Hn).
Qed.


Lemma loaded_records_are_records (k : nat) (indices : list nat) :
  Forall is_loaded_record (map (loaded_record k) indices).
Proof.
  induction indices as [|i indices IH]; simpl; constructor;
    [apply loaded_record_is_record|exact IH].
Qed.

(** C7.  In a world where [tmp] is an existing directory and [a], [b],
    [c] are three different plain names, none of them a directory under
    [tmp], and where [json.load] reads back the dataset the Loader is
    about to dump: running the Loader to [tmp/a], the Transformer from
    [tmp/a] to [tmp/b] and the Analyzer from [tmp/b] to [tmp/c] gives
    exit code 0 three times, three regular files at three different
    places, and, [json.dumps] writing no newline, a last line on the
    Analyzer's standard output that starts with [ANALYZE_RESULT: ] and
    goes on with the JSON text of a record whose [status] is
    ["success"]. *)
Theorem pipeline_end_to_end
    (script input_file tmp a b c : string) (w : world) :
  path_isdir (fs w) tmp = true ->
  plain_name a = true -> plain_name b = true -> plain_name c = true ->
  a <> b -> a <> c -> b <> c ->
  path_isdir (fs w) (tmp ++ "/" ++ a) = false ->
  path_isdir (fs w) (tmp ++ "/" ++ b) = false ->
  path_isdir (fs w) (tmp ++ "/" ++ c) = false ->
  json_loads (json_dump_indent2 (loaded_dataset input_file (ticks w)))
  = Some (loaded_dataset input_file (ticks w)) ->
  (forall obj, has_newline (json_dumps obj) = false) ->
  let pa := tmp ++ "/" ++ a in
  let pb := tmp ++ "/" ++ b in
  let pc := tmp ++ "/" ++ c in
  let r1 := load_main [script; input_file; pa] w in
  let r2 := process_main [script; pa; pb] (snd r1) in
  let r3 := analyze_main [script; pb; pc] (snd r2) in
  fst r1 = 0 /\ fst r2 = 0 /\ fst r3 = 0
  /\ is_file (fs (snd r3)) pa = true
  /\ is_file (fs (snd r3)) pb = true
  /\ is_file (fs (snd r3)) pc = true
  /\ resolve (fs (snd r3)) pa <> resolve (fs (snd r3)) pb
  /\ resolve (fs (snd r3)) pa <> resolve (fs (snd r3)) pc
  /\ resolve (fs (snd r3)) pb <> resolve (fs (snd r3)) pc
  /\ exists printed progress result,
       stdout (snd r3) = (stdout (snd r2) ++ printed)%list
       /\ lines (stdout_text printed)
          = (progress
             ++ [("ANALYZE_RESULT: " ++ json_dumps result)%string])%list
       /\ field "status" result = Some (JStr "success").
Proof.
  intros Htmp Ha Hb Hc Hab Hac Hbc Hpa Hpb Hpc Hcodec Hdumps. cbv zeta.
  apply path_isdir_dir_at in Htmp as [d Hd0].
  set (pa := tmp ++ "/" ++ a). set (pb := tmp ++ "/" ++ b).
  set (pc := tmp ++ "/" ++ c).
  (* the Loader *)
  set (text1 := json_dump_indent2 (loaded_dataset input_file (ticks w))).
  set (fs1 := put_node (fs w) (d ++ [a])%list (IFile text1)).
  assert (E1 : exists out1,
             load_main [script; input_file; pa] w
             = (0, World fs1 (ticks w + 101) out1)
             /\ node_at (fs w) (d ++ [a])%list <> Some IDir).
  { rewrite load_main_run, load_data_run.
    match goal with
    | |- context [save_and_report _ ?doc ?lines ?res ?w1] =>
        destruct (save_and_report_child tmp a d doc lines res w1
                    Hd0 Ha Hpa) as [Hna E]
    end.
    fold pa in E. rewrite E. eexists. split; [reflexivity|exact Hna]. }
  destruct E1 as (out1 & E1 & Hna). rewrite E1. cbn [fst snd].
  destruct (put_child_frame (fs w) tmp a text1 d Hd0 Ha Hna)
    as (Hd1 & Hsa1 & Hframe1).
  fold fs1 pa in Hd1, Hsa1, Hframe1.
  (* the Transformer *)
  assert (E2 : exists text2 t2 out2,
             process_main [script; pa; pb] (World fs1 (ticks w + 101) out1)
             = (0, World (put_node fs1 (d ++ [b])%list (IFile text2))
                         t2 out2)
             /\ node_at fs1 (d ++ [b])%list <> Some IDir).
  { rewrite process_main_run, process_data_run. cbn [fs ticks stdout].
    match goal with
    | |- context [transformed ?p ?w1] =>
        destruct (transformed_ok p text1
                    (loaded_dataset input_file (ticks w)) (JInt 1000)
                    (map (loaded_record (ticks w)) (seq 0 100)) w1)
          as (out & -> & _)
    end.
    { now apply read_file_stat. }
    { exact Hcodec. }
    { reflexivity. }
    { apply loaded_records_are_records. }
    { reflexivity. }
    match goal with
    | |- context [save_and_report _ ?doc ?lines ?res ?w1] =>
        destruct (save_and_report_child tmp b d doc lines res w1)
          as [Hnb E]
    end.
    { exact Hd1. }
    { exact Hb. }
    { change (path_isdir fs1 (tmp ++ "/" ++ b) = false).
      rewrite (path_isdir_stat fs1 (fs w) _ _
                 (Hframe1 b Hb (fun E => Hab (eq_sym E)))).
      exact Hpb. }
    fold pb in E. rewrite E.
    eexists _, _, _. split; [reflexivity|exact Hnb]. }
  destruct E2 as (text2 & t2 & out2 & E2 & Hnb). rewrite E2.
  cbn [fst snd].
  destruct (put_child_frame fs1 tmp b text2 d Hd1 Hb Hnb)
    as (Hd2 & Hsb2 & Hframe2).
  set (fs2 := put_node fs1 (d ++ [b])%list (IFile text2)) in *.
  fold pb in Hsb2.
  (* the Analyzer *)
  assert (E3 : exists text3 t3,
             analyze_main [script; pb; pc] (World fs2 t2 out2)
             = (0, World (put_node fs2 (d ++ [c])%list (IFile text3)) t3
                         (out2
                          ++ [banner Analyzer pb;
                              "Analysis completed successfully";
                              "Output saved to: " ++ pc;
                              "Overall Status: SUCCESS"]
                          ++ [result_line Analyzer (analyze_result pc)]))
             /\ node_at fs2 (d ++ [c])%list <> Some IDir).
  { rewrite analyze_main_run, analyze_results_run. cbn [fs ticks stdout].
    rewrite (getsize_file fs2 _ text2 (read_file_stat _ _ _ Hsb2)).
    match goal with
    | |- context [save_and_report _ ?doc ?lines ?res ?w1] =>
        destruct (save_and_report_child tmp c d doc lines res w1)
          as [Hnc E]
    end.
    { exact Hd2. }
    { exact Hc. }
    { change (path_isdir fs2 (tmp ++ "/" ++ c) = false).
      rewrite (path_isdir_stat fs2 fs1 _ _
                 (Hframe2 c Hc (fun E => Hbc (eq_sym E)))).
      rewrite (path_isdir_stat fs1 (fs w) _ _
                 (Hframe1 c Hc (fun E => Hac (eq_sym E)))).
      exact Hpc. }
    fold pc in E. rewrite E. unfold with_stdout. cbn [fs ticks stdout].
    eexists _, _. split; [|exact Hnc].
    rewrite <- !app_assoc. reflexivity. }
  destruct E3 as (text3 & t3 & E3 & Hnc). rewrite E3. cbn [fst snd].
  destruct (put_child_frame fs2 tmp c text3 d Hd2 Hc Hnc)
    as (Hd3 & Hsc3 & Hframe3).
  set (fs3 := put_node fs2 (d ++ [c])%list (IFile text3)) in *.
  cbn [fs ticks stdout].
  assert (Hsa3 : stat fs3 pa = inr (IFile text1)).
  { unfold pa. rewrite (Hframe3 a Ha Hac), (Hframe2 a Ha Hab).
    exact Hsa1. }
  assert (Hsb3 : stat fs3 pb = inr (IFile text2)).
  { unfold pb. rewrite (Hframe3 b Hb Hbc). exact Hsb2. }
  repeat split; try reflexivity.
  - exact (is_file_stat _ _ _ Hsa3).
  - exact (is_file_stat _ _ _ Hsb3).
  - exact (is_file_stat _ _ _ Hsc3).
  - unfold pa, pb. rewrite (proj1 (child_path _ _ _ _ Hd3 Ha)),
      (proj1 (child_path _ _ _ _ Hd3 Hb)).
    intros E. injection E as E. apply app_inj_tail in E as [_ E].
    contradiction.
  - unfold pa, pc. rewrite (proj1 (child_path _ _ _ _ Hd3 Ha)),
      (proj1 (child_path _ _ _ _ Hd3 Hc)).
    intros E. injection E as E. apply app_inj_tail in E as [_ E].
    contradiction.
  - unfold pb, pc. rewrite (proj1 (child_path _ _ _ _ Hd3 Hb)),
      (proj1 (child_path _ _ _ _ Hd3 Hc)).
    intros E. injection E as E. apply app_inj_tail in E as [_ E].
    contradiction.
  - eexists _, _, (analyze_result pc).
    split; [reflexivity|]. split; [|reflexivity].
    apply (lines_last_plain _ (result_line Analyzer (analyze_result pc))).
    rewrite has_newline_result_line. apply Hdumps.
Qed.


(** ** Further properties of the scripts *)

(** *** Failures before the output is touched *)

Lemma process_main_transformed_raises
    (script input_file output_file : string) (e : exn) (w w1 : world) :
  transformed input_file
    (World (fs w) (ticks w) (stdout w ++ [banner Transformer input_file]))
  = (Raised e, w1) ->
  process_main [script; input_file; output_file] w
  = (1, World (fs w) (ticks w1)
              (stdout w ++ [banner Transformer input_file;
                            error_line Transformer e])).
Proof.
  intros E. rewrite process_main_run, process_data_run.
  pose proof (quiet_transformed input_file
    (World (fs w) (ticks w)
           (stdout w ++ [banner Transformer input_file]))) as [Hf Hq].
  rewrite E in *. simpl in Hf, Hq. unfold with_stdout.
  rewrite Hf, Hq. now rewrite <- app_assoc.
Qed.

(** X1.  When the Transformer cannot open its input (no such file, a
    directory, a file where a directory should be), it exits with code 1
    having printed its banner and the error line of that [OSError]; the
    filesystem and the clock are untouched. *)
Theorem transformer_unreadable_input
    (script input_file output_file : string) (errno : Z) (w : world) :
  read_file (fs w) input_file = inl errno ->
  process_main [script; input_file; output_file] w
  = (1, World (fs w) (ticks w)
              (stdout w ++ [banner Transformer input_file;
                            error_line Transformer
                              (OSError errno input_file)])).
Proof.
  intros Hr.
  apply (process_main_transformed_raises script input_file output_file
           (OSError errno input_file) w
           (World (fs w) (ticks w)
                  (stdout w ++ [banner Transformer input_file]))).
  unfold transformed, bind, json_load, bind, open_read, syscall.
  cbn [fs]. now rewrite Hr.
Qed.

(** X2.  When [os.path.getsize] fails on the Analyzer's input, the run
    exits with code 1 having printed its banner and the error line of
    that [OSError]; nothing is created, not even the output directory,
    and the clock is not read. *)
Theorem analyzer_missing_input
    (script input_file output_file : string) (errno : Z) (w : world) :
  stat (fs w) input_file = inl errno ->
  analyze_main [script; input_file; output_file] w
  = (1, World (fs w) (ticks w)
              (stdout w ++ [banner Analyzer input_file;
                            error_line Analyzer
                              (OSError errno input_file)])).
Proof.
  intros Hs. rewrite analyze_main_run, analyze_results_run.
  unfold getsize. rewrite Hs. unfold with_stdout. cbn [fs ticks stdout].
  now rewrite <- app_assoc.
Qed.

(** X3.  The Analyzer does not ask for a regular file: on an input path
    that names a directory it goes on, and the report it builds records
    the size the system reports for the directory. *)
Theorem analyzer_accepts_a_directory
    (input_file output_file : string) (w : world) :
  path_isdir (fs w) input_file = true ->
  path_isdir (fs w) (dirname output_file) = true ->
  path_isdir (fs w) output_file = false ->
  exists fs',
    analyze_results input_file output_file w
    = (Returned (analyze_result output_file),
       World fs' (S (ticks w))
             (stdout w ++ [banner Analyzer input_file;
                           "Analysis completed successfully";
                           "Output saved to: " ++ output_file;
                           "Overall Status: SUCCESS"]))
    /\ stat fs' output_file
       = inr (IFile (json_dump_indent2
                       (analysis_report input_file dir_size (ticks w))))
    /\ field "report_size_bytes"
         (analysis_report input_file dir_size (ticks w))
       = Some (JInt dir_size).
Proof.
  intros Hin Hd Hp. rewrite analyze_results_run.
  assert (Hsize : getsize dir_size (fs w) input_file = inr dir_size).
  { unfold getsize. unfold path_isdir in Hin.
    destruct (stat (fs w) input_file) as [e|[t|]]; try discriminate.
    reflexivity. }
  rewrite Hsize.
  destruct (save_and_report_ok output_file
              (analysis_report input_file dir_size (ticks w))
              ["Analysis completed successfully";
               "Output saved to: " ++ output_file;
               "Overall Status: SUCCESS"]
              (analyze_result output_file)
              (World (fs w) (S (ticks w))
                     (stdout w ++ [banner Analyzer input_file]))
              Hd Hp) as (fs' & Hw & ->).
  exists fs'. cbn [fs ticks stdout]. rewrite <- app_assoc.
  split; [reflexivity|]. split; [|reflexivity].
  cbn [fs] in Hw. now apply stat_after_write in Hw.
Qed.

(** *** The Transformer on input of the wrong shape *)

Lemma process_record_eq (r : json) (w : world) :
  is_loaded_record r ->
  process_record r w
  = (Returned (processed_record (now_iso (ticks w)) r),
     World (fs w) (S (ticks w)) (stdout w)).
Proof.
  intros (i & v & ts & Hid & Hv & Hts).
  unfold process_record, bind, processed_record.
  rewrite (field_subscript r _ _ w Hid), (field_subscript r _ _ w Hv).
  simpl. rewrite (field_subscript r _ _ _ Hts).
  now rewrite Hid, Hv, Hts.
Qed.

(** The loop is a map: the i-th record meets the i-th reading of the
    clock. *)
Lemma for_each_process_record_eq (records : list json) :
  Forall is_loaded_record records ->
  forall w,
    for_each process_record records w
    = (Returned (processed_records (ticks w) records),
       World (fs w) (ticks w + length records) (stdout w)).
Proof.
  induction 1 as [|r records Hr _ IH]; intros w; simpl.
  - unfold ret. destruct w; simpl. now rewrite Nat.add_0_r.
  - unfold bind at 1. rewrite (process_record_eq r w Hr).
    unfold bind at 1. rewrite IH. unfold ret. simpl.
    do 2 f_equal. lia.
Qed.

Lemma for_each_first_failure {A B} (body : A -> py B) (good : list A)
    (bad : A) (rest : list A) (e : exn) :
  (forall x w, In x good -> exists y w', body x w = (Returned y, w')) ->
  (forall w, exists w', body bad w = (Raised e, w')) ->
  forall w, exists w',
    for_each body (good ++ bad :: rest) w = (Raised e, w').
Proof.
  intros Hgood Hbad. induction good as [|x good IH]; intros w; simpl.
  - destruct (Hbad w) as [w' E]. exists w'. unfold bind. now rewrite E.
  - destruct (Hgood x w (or_introl eq_refl)) as (y & w1 & E).
    destruct (IH (fun x' w' H => Hgood x' w' (or_intror H)) w1)
      as [w2 E2].
    exists w2. unfold bind at 1. rewrite E. unfold bind at 1.
    now rewrite E2.
Qed.

(** The Transformer with a record it cannot process: the records before it
    are well formed, [bad] makes [process_record] raise [e]. *)
Lemma transformer_bad_record
    (script input_file output_file text : string) (doc bad : json)
    (good rest : list json) (e : exn) (w : world) :
  read_file (fs w) input_file = inr text ->
  json_loads text = Some doc ->
  field "data" doc = Some (JArr (good ++ bad :: rest)) ->
  Forall is_loaded_record good ->
  (forall w0, exists w', process_record bad w0 = (Raised e, w')) ->
  exists t,
    process_main [script; input_file; output_file] w
    = (1, World (fs w) t
                (stdout w ++ [banner Transformer input_file;
                              error_line Transformer e])).
Proof.
  intros Hr Hl Hd Hgood Hbad.
  set (w0 := World (fs w) (ticks w)
                   (stdout w ++ [banner Transformer input_file])).
  destruct (for_each_first_failure process_record good bad rest e) with
    (w := w0) as [w1 E].
  { intros x w' Hx. rewrite Forall_forall in Hgood.
    apply list_elem_of_In in Hx.
    rewrite (process_record_eq x w' (Hgood x Hx)). eauto. }
  { exact Hbad. }
  exists (ticks w1).
  apply process_main_transformed_raises with (w1 := w1).
  fold w0. unfold transformed, bind.
  rewrite (json_load_ok input_file text doc w0 Hr Hl).
  rewrite (field_subscript _ _ _ _ Hd). simpl. now rewrite E.
Qed.

(** X4.  One record without a [value] key, after any number of good
    records, stops the Transformer: exit code 1, the error line of
    [KeyError('value')], and nothing written; the records after it are
    never looked at. *)
Theorem transformer_record_without_value
    (script input_file output_file text : string) (doc bad id : json)
    (good rest : list json) (w : world) :
  read_file (fs w) input_file = inr text ->
  json_loads text = Some doc ->
  field "data" doc = Some (JArr (good ++ bad :: rest)) ->
  Forall is_loaded_record good ->
  field "id" bad = Some id ->
  field "value" bad = None ->
  exists t,
    process_main [script; input_file; output_file] w
    = (1, World (fs w) t
                (stdout w ++ [banner Transformer input_file;
                              error_line Transformer (KeyError "value")])).
Proof.
  intros Hr Hl Hd Hgood Hid Hv.
  apply (transformer_bad_record script input_file output_file text doc bad
           good rest (KeyError "value") w Hr Hl Hd Hgood).
  intros w0. exists w0. unfold process_record, bind.
  rewrite (field_subscript _ _ _ _ Hid).
  destruct bad; try discriminate Hid. simpl in Hv. simpl. now rewrite Hv.
Qed.

(** X5.  One record whose [value] is not a string (a number, a list,
    [null]) stops the Transformer in the same way, with the error line of
    the [AttributeError] for that value: [.upper()] is called on whatever
    the key holds. *)
Theorem transformer_value_not_a_string
    (script input_file output_file text : string) (doc bad id value : json)
    (good rest : list json) (w : world) :
  read_file (fs w) input_file = inr text ->
  json_loads text = Some doc ->
  field "data" doc = Some (JArr (good ++ bad :: rest)) ->
  Forall is_loaded_record good ->
  field "id" bad = Some id ->
  field "value" bad = Some value ->
  is_str value = false ->
  exists t,
    process_main [script; input_file; output_file] w
    = (1, World (fs w) t
                (stdout w ++ [banner Transformer input_file;
                              error_line Transformer
                                (AttributeError value)])).
Proof.
  intros Hr Hl Hd Hgood Hid Hv Hstr.
  apply (transformer_bad_record script input_file output_file text doc bad
           good rest (AttributeError value) w Hr Hl Hd Hgood).
  intros w0. exists w0. unfold process_record, bind.
  rewrite (field_subscript _ _ _ _ Hid), (field_subscript _ _ _ _ Hv).
  destruct value; try discriminate Hstr; reflexivity.
Qed.

(** X6.  A document without a [data] key stops the Transformer at once:
    exit code 1, the filesystem and the clock untouched, and the error is
    [KeyError('data')] for a dictionary and a [TypeError] for any other
    JSON value (a list, a string, a number). *)
Theorem transformer_document_without_data
    (script input_file output_file text : string) (doc : json) (w : world) :
  read_file (fs w) input_file = inr text ->
  json_loads text = Some doc ->
  field "data" doc = None ->
  process_main [script; input_file; output_file] w
  = (1, World (fs w) (ticks w)
              (stdout w ++ [banner Transformer input_file;
                            error_line Transformer
                              match doc with
                              | JObj _ => KeyError "data"
                              | _ => TypeError doc
                              end])).
Proof.
  intros Hr Hl Hd.
  set (w0 := World (fs w) (ticks w)
                   (stdout w ++ [banner Transformer input_file])).
  apply process_main_transformed_raises with (w1 := w0).
  fold w0. unfold transformed, bind.
  rewrite (json_load_ok input_file text doc w0 Hr Hl).
  destruct doc; try reflexivity. simpl in Hd. simpl. now rewrite Hd.
Qed.

(** X7.  A dataset without [records_count] is refused only after every
    record has been transformed: the clock has been read once for each
    record and once more, the error is [KeyError('records_count')], the
    exit code is 1 and nothing is written. *)
Theorem transformer_document_without_records_count
    (script input_file output_file text : string) (doc : json)
    (records : list json) (w : world) :
  read_file (fs w) input_file = inr text ->
  json_loads text = Some doc ->
  field "data" doc = Some (JArr records) ->
  Forall is_loaded_record records ->
  field "records_count" doc = None ->
  process_main [script; input_file; output_file] w
  = (1, World (fs w) (S (ticks w + length records))
              (stdout w ++ [banner Transformer input_file;
                            error_line Transformer
                              (KeyError "records_count")])).
Proof.
  intros Hr Hl Hd Hrec Hc.
  set (w0 := World (fs w) (ticks w)
                   (stdout w ++ [banner Transformer input_file])).
  apply (process_main_transformed_raises script input_file output_file
           (KeyError "records_count") w
           (World (fs w) (S (ticks w + length records))
                  (stdout w ++ [banner Transformer input_file]))).
  fold w0. unfold transformed, bind.
  rewrite (json_load_ok input_file text doc w0 Hr Hl).
  rewrite (field_subscript _ _ _ _ Hd). simpl.
  rewrite (for_each_process_record_eq records Hrec w0). simpl.
  destruct doc; try discriminate Hd. simpl in Hc. simpl. now rewrite Hc.
Qed.

(** *** What the Transformer writes *)

Lemma transformed_shape (input_file : string) (out : list json)
    (pdata : json) (w w' : world) :
  transformed input_file w = (Returned (out, pdata), w') ->
  exists stamp count,
    pdata = processed_dataset input_file stamp count out.
Proof.
  unfold transformed, bind.
  destruct (json_load input_file w) as [[data|e] w1]; [|discriminate].
  destruct (subscript data "data" w1) as [[dd|e] w2]; [|discriminate].
  destruct (iterate dd w2) as [[records|e] w3]; [|discriminate].
  destruct (for_each process_record records w3) as [[recs|e] w4];
    [|discriminate].
  unfold datetime_now_isoformat at 1. cbv beta iota.
  destruct (subscript data "records_count" _) as [[count|e] w5];
    [|discriminate].
  unfold ret. intros H. injection H as <- <- <-. eauto.
Qed.

(** X8.  Whenever the Transformer exits with code 0, whatever its input
    was, the number in its result line is the number of records it wrote:
    [records_processed], the file's [processed_records_count] and the
    length of the file's [data] array are the same. *)
Theorem transformer_result_counts_what_was_written
    (script input_file output_file : string) (w w' : world) :
  process_main [script; input_file; output_file] w = (0, w') ->
  exists progress result processed_data out,
    stdout w'
    = (stdout w ++ progress ++ [result_line Transformer result])%list
    /\ stat (fs w') output_file
       = inr (IFile (json_dump_indent2 processed_data))
    /\ field "data" processed_data = Some (JArr out)
    /\ field "processed_records_count" processed_data
       = Some (JInt (len out))
    /\ field "records_processed" result = Some (JInt (len out)).
Proof.
  rewrite process_main_run, process_data_run.
  pose proof (quiet_transformed input_file
    (World (fs w) (ticks w)
           (stdout w ++ [banner Transformer input_file]))) as [_ Hq].
  destruct (transformed input_file _) as [[[out pd]|e] w1] eqn:Et;
    [|discriminate].
  simpl in Hq.
  destruct (transformed_shape _ _ _ _ _ Et) as (stamp & count & ->).
  destruct (save_and_report _ _ _ _ _) as [[r|e] w2] eqn:E;
    [|discriminate].
  apply save_and_report_returned in E as (-> & Hout & _ & Hstat).
  intros H. injection H as <-.
  exists [banner Transformer input_file;
          "Data processed successfully. Records: "
          ++ str_of_int (len out);
          "Output saved to: " ++ output_file],
         (process_result output_file out),
         (processed_dataset input_file stamp count out), out.
  split.
  { unfold with_stdout. cbn [stdout]. rewrite Hout, Hq.
    now rewrite <- !app_assoc. }
  split; [exact Hstat|]. repeat split.
Qed.

(** [process_data] on a LoadedDataset whose output can be written. *)
Lemma process_data_on_records
    (input_file output_file text : string) (doc count : json)
    (records : list json) (w : world) :
  read_file (fs w) input_file = inr text ->
  json_loads text = Some doc ->
  field "data" doc = Some (JArr records) ->
  Forall is_loaded_record records ->
  field "records_count" doc = Some count ->
  path_isdir (fs w) (dirname output_file) = true ->
  path_isdir (fs w) output_file = false ->
  let out := processed_records (ticks w) records in
  let processed_data :=
    processed_dataset input_file (now_iso (ticks w + length records))
                      count out in
  exists fs',
    process_data input_file output_file w
    = (Returned (process_result output_file out),
       World fs' (S (ticks w + length records))
             (stdout w ++ [banner Transformer input_file;
                           "Data processed successfully. Records: "
                           ++ str_of_int (len records);
                           "Output saved to: " ++ output_file]))
    /\ stat fs' output_file
       = inr (IFile (json_dump_indent2 processed_data))
    /\ field "original_records_count" processed_data = Some count
    /\ length out = length records.
Proof.
  intros Hr Hl Hd Hrec Hc Hdir Hp. cbv zeta.
  set (w0 := World (fs w) (ticks w)
                   (stdout w ++ [banner Transformer input_file])).
  assert (Hlen : forall k, length (processed_records k records)
                           = length records).
  { clear. induction records as [|r records IH]; intros k; simpl;
      [reflexivity|now rewrite IH]. }
  assert (Et : transformed input_file w0
               = (Returned
                    (processed_records (ticks w) records,
                     processed_dataset input_file
                       (now_iso (ticks w + length records)) count
                       (processed_records (ticks w) records)),
                  World (fs w) (S (ticks w + length records))
                        (stdout w0))).
  { unfold transformed, bind.
    rewrite (json_load_ok input_file text doc w0 Hr Hl).
    rewrite (field_subscript _ _ _ _ Hd). simpl.
    rewrite (for_each_process_record_eq records Hrec w0). simpl.
    now rewrite (field_subscript _ _ _ _ Hc). }
  rewrite process_data_run. fold w0. rewrite Et.
  match goal with
  | |- context [save_and_report _ ?doc ?lines ?res ?w1] =>
      destruct (save_and_report_ok output_file doc lines res w1 Hdir Hp)
        as (fs' & Hw & ->)
  end.
  exists fs'. cbn [fs ticks stdout]. unfold w0. cbn [stdout].
  unfold len. rewrite Hlen, <- app_assoc.
  split; [reflexivity|]. split; [|split; reflexivity].
  cbn [fs] in Hw. now apply stat_after_write in Hw.
Qed.

(** X9.  On a LoadedDataset whose output can be written, the output
    records are exactly these, in the order of the input: the five fields
    [id], [processed_value], [processed_timestamp], [original_timestamp],
    [transformation_applied] and no other (further fields of an input
    record are not copied), the i-th record stamped with the i-th reading
    of the clock and [processed_at] with the reading after the last
    record; [original_records_count] is the input's [records_count],
    passed on as it is. *)
Theorem transformer_output_exactly
    (input_file output_file text : string) (doc count : json)
    (records : list json) (w : world) :
  read_file (fs w) input_file = inr text ->
  json_loads text = Some doc ->
  field "data" doc = Some (JArr records) ->
  Forall is_loaded_record records ->
  field "records_count" doc = Some count ->
  path_isdir (fs w) (dirname output_file) = true ->
  path_isdir (fs w) output_file = false ->
  let out := processed_records (ticks w) records in
  let processed_data :=
    processed_dataset input_file (now_iso (ticks w + length records))
                      count out in
  exists fs',
    process_data input_file output_file w
    = (Returned (process_result output_file out),
       World fs' (S (ticks w + length records))
             (stdout w ++ [banner Transformer input_file;
                           "Data processed successfully. Records: "
                           ++ str_of_int (len records);
                           "Output saved to: " ++ output_file]))
    /\ stat fs' output_file
       = inr (IFile (json_dump_indent2 processed_data))
    /\ field "original_records_count" processed_data = Some count
    /\ length out = length records.
Proof.
  intros Hr Hl Hd Hrec Hc Hdir Hp.
  exact (process_data_on_records input_file output_file text doc count
           records w Hr Hl Hd Hrec Hc Hdir Hp).
Qed.

(** X10.  A [data] that a [for] loop never enters (the empty list, but
    also the empty string and the empty dictionary) is accepted: the
    Transformer writes a dataset of zero records, reads the clock once,
    and reports zero records processed. *)
Theorem transformer_empty_data
    (input_file output_file text : string) (doc data count : json)
    (w : world) :
  read_file (fs w) input_file = inr text ->
  json_loads text = Some doc ->
  field "data" doc = Some data ->
  is_empty_iterable data = true ->
  field "records_count" doc = Some count ->
  path_isdir (fs w) (dirname output_file) = true ->
  path_isdir (fs w) output_file = false ->
  exists fs',
    process_data input_file output_file w
    = (Returned (process_result output_file []),
       World fs' (S (ticks w))
             (stdout w ++ [banner Transformer input_file;
                           "Data processed successfully. Records: 0";
                           "Output saved to: " ++ output_file]))
    /\ stat fs' output_file
       = inr (IFile (json_dump_indent2
                       (processed_dataset input_file (now_iso (ticks w))
                                          count [])))
    /\ field "records_processed" (process_result output_file [])
       = Some (JInt 0).
Proof.
  intros Hr Hl Hd He Hc Hdir Hp.
  set (w0 := World (fs w) (ticks w)
                   (stdout w ++ [banner Transformer input_file])).
  assert (Et : transformed input_file w0
               = (Returned
                    ([], processed_dataset input_file (now_iso (ticks w))
                                           count []),
                  World (fs w) (S (ticks w)) (stdout w0))).
  { unfold transformed, bind.
    rewrite (json_load_ok input_file text doc w0 Hr Hl).
    rewrite (field_subscript _ _ _ _ Hd).
    assert (Hi : iterate data w0 = (Returned [], w0)).
    { destruct data as [| | | |s|items|fields]; try discriminate He.
      - destruct s; [reflexivity|discriminate He].
      - destruct items; [reflexivity|discriminate He].
      - destruct fields; [reflexivity|discriminate He]. }
    rewrite Hi. simpl. now rewrite (field_subscript _ _ _ _ Hc). }
  rewrite process_data_run. fold w0. rewrite Et.
  match goal with
  | |- context [save_and_report _ ?doc ?lines ?res ?w1] =>
      destruct (save_and_report_ok output_file doc lines res w1 Hdir Hp)
        as (fs' & Hw & ->)
  end.
  exists fs'. cbn [fs ticks stdout]. unfold w0. cbn [stdout].
  rewrite <- app_assoc.
  split; [reflexivity|]. split; [|reflexivity].
  cbn [fs] in Hw. now apply stat_after_write in Hw.
Qed.


(** *** Trouble on the output path *)

Lemma has_slash_head (p h t : string) :
  rsplit_slash p = (h, t) -> has_slash p = true -> is_empty h = false.
Proof.
  intros E Hs.
  destruct (rsplit_slash_shape p h t E) as [Ht [[-> ->]|[x [-> _]]]].
  - congruence.
  - rewrite is_empty_app. simpl. apply andb_false_r.
Qed.

(** The directory part of a path that resolves is an existing
    directory. *)
Lemma dirname_of_resolved (fs0 : filesystem) (p : string) (r : list string) :
  resolve fs0 p = inr r -> has_slash p = true ->
  path_isdir fs0 (dirname p) = true.
Proof.
  intros Hr Hs. unfold dirname, path_split.
  destruct (rsplit_slash p) as [h t] eqn:E. simpl.
  pose proof (has_slash_head p h t E Hs) as Hh.
  destruct (head_is_dir fs0 p h t r E Hh Hr) as (c & Hc & _).
  apply path_isdir_dir_at. exists c.
  exact (proj1 (dir_at_strip_head _ _ _) Hc).
Qed.

Lemma path_isdir_resolve (fs0 : filesystem) (p : string) :
  path_isdir fs0 p = true ->
  exists r, resolve fs0 p = inr r /\ node_at fs0 r = Some IDir.
Proof. intros H. apply path_isdir_dir_at in H as [c [H1 H2]]. eauto. Qed.

Lemma save_and_report_on_directory (output_file : string) (document : json)
    (lines : list string) (result : json) (w : world) :
  path_isdir (fs w) output_file = true -> has_slash output_file = true ->
  save_and_report output_file document lines result w
  = (Raised (OSError EISDIR output_file), w).
Proof.
  intros Hd Hs. destruct (path_isdir_resolve _ _ Hd) as (r & Hr & Hn).
  unfold save_and_report.
  rewrite (makedirs_existing _ _ (dirname_of_resolved _ _ _ Hr Hs)).
  unfold write_file. now rewrite Hr, Hn.
Qed.

(** X11.  When the output path names an existing directory (and has a
    directory part), every stage exits with code 1 and leaves the
    filesystem as it was; in the Loader the error is [open]'s
    [IsADirectoryError] on the output path. *)
Theorem output_path_is_a_directory
    (st : stage) (script input_file output_file : string) (w : world) :
  path_isdir (fs w) output_file = true ->
  has_slash output_file = true ->
  exists e t,
    main st [script; input_file; output_file] w
    = (1, World (fs w) t
                (stdout w ++ [banner st input_file; error_line st e]))
    /\ (st = Loader -> e = OSError EISDIR output_file).
Proof.
  intros Hd Hs. rewrite main_run. destruct st.
  - rewrite load_data_run.
    rewrite (save_and_report_on_directory output_file _ _ _
               (World (fs w) (ticks w + 101)
                      (stdout w ++ [banner Loader input_file])) Hd Hs).
    eexists _, _. split; [|reflexivity].
    unfold with_stdout. simpl. now rewrite <- app_assoc.
  - rewrite process_data_run.
    pose proof (quiet_transformed input_file
      (World (fs w) (ticks w)
             (stdout w ++ [banner Transformer input_file]))) as [Hf Hq].
    destruct (transformed input_file _) as [[[recs pd]|e] w1];
      simpl in Hf, Hq.
    + rewrite (save_and_report_on_directory output_file _ _ _ w1)
        by (rewrite ?Hf; assumption).
      eexists _, _. split; [|discriminate].
      unfold with_stdout. rewrite Hf, Hq. simpl.
      now rewrite <- app_assoc.
    + eexists _, _. split; [|discriminate].
      unfold with_stdout. rewrite Hf, Hq. simpl.
      now rewrite <- app_assoc.
  - rewrite analyze_results_run.
    destruct (getsize dir_size (fs w) input_file) as [errno|size].
    + eexists _, _. split; [|discriminate].
      unfold with_stdout. simpl. now rewrite <- app_assoc.
    + rewrite (save_and_report_on_directory output_file _ _ _
                 (World (fs w) (S (ticks w))
                        (stdout w ++ [banner Analyzer input_file])) Hd Hs).
      eexists _, _. split; [|discriminate].
      unfold with_stdout. simpl. now rewrite <- app_assoc.
Qed.

(** Trailing slashes do not change where a path resolves. *)
Lemma resolve_strip_head (fs0 : filesystem) (x : string) (c : list string) :
  resolve fs0 x = inr c -> resolve fs0 (strip_head x) = inr c.
Proof.
  unfold strip_head.
  destruct (is_empty (rstrip_slash x)) eqn:Ey; [trivial|].
  destruct (rstrip_slash_slashes x) as [k Hx].
  remember (rstrip_slash x) as y eqn:Hy. clear Hy. subst x.
  unfold resolve. rewrite Ey.
  replace (is_empty (y ++ slashes k)) with false
    by (rewrite is_empty_app, Ey; reflexivity).
  rewrite (is_absolute_app y _ Ey).
  rewrite split_slash_slashes, walk_app.
  destruct (walk fs0 _ (split_slash y)) as [e|c']; [discriminate|].
  intros H. apply walk_empties_inv in H. now subst.
Qed.

Lemma is_file_resolve (fs0 : filesystem) (p : string) :
  is_file fs0 p = true ->
  exists r text, resolve fs0 p = inr r /\ node_at fs0 r = Some (IFile text).
Proof.
  unfold is_file, stat. destruct (resolve fs0 p) as [e|r]; [discriminate|].
  destruct (node_at fs0 r) as [[text|]|] eqn:E; try discriminate.
  intros _. eauto.
Qed.

(** [os.makedirs] on the name of a regular file: [os.mkdir] fails with
    [EEXIST], and the name is not a directory. *)
Lemma makedirs_on_file (name : string) (w : world) :
  is_file (fs w) name = true ->
  makedirs name w = (Raised (OSError EEXIST name), w).
Proof.
  intros Hf. destruct (is_file_resolve _ _ Hf) as (r & text & Hr & Hn).
  assert (Hnd : path_isdir (fs w) name = false)
    by (unfold path_isdir, stat; now rewrite Hr, Hn).
  assert (Hmk : forall w', w' = w ->
    try_except (os_mkdir name) is_OSError
      (fun e => let* isdir := os_path_isdir name in
                if isdir then ret tt else raise e) w'
    = (Raised (OSError EEXIST name), w)).
  { intros w' ->. unfold try_except, os_mkdir, update_fs, mkdir.
    rewrite (resolve_strip_head _ _ _ Hr), Hn. simpl.
    unfold bind, os_path_isdir. now rewrite Hnd. }
  unfold makedirs. simpl. unfold path_split at 1.
  destruct (rsplit_slash name) as [h0 t0] eqn:E0.
  destruct (is_empty t0) eqn:Et0.
  - (* a name ending with a slash resolves to a directory *)
    exfalso. apply is_empty_true in Et0. subst t0.
    destruct (rsplit_slash_shape _ _ _ E0) as [_ [[_ ->]|[x [-> Hx]]]];
      [discriminate Hr|].
    assert (Hh : is_empty (x ++ "/") = false)
      by (rewrite is_empty_app; simpl; apply andb_false_r).
    destruct (head_is_dir _ _ _ _ _ E0 Hh Hr) as (c & [_ Hc] & Hw).
    simpl in Hw. rewrite Hc in Hw. injection Hw as <-. congruence.
  - unfold bind at 1.
    destruct (negb (is_empty (strip_head h0)) && negb (is_empty t0)) eqn:Eb.
    + apply andb_true_iff in Eb as [Eh _]. apply negb_true_iff in Eh.
      assert (Hh : is_empty h0 = false)
        by (destruct h0; [discriminate Eh|reflexivity]).
      destruct (head_is_dir _ _ _ _ _ E0 Hh Hr) as (c & Hc & _).
      apply dir_at_strip_head in Hc. destruct Hc as [Hc1 Hc2].
      unfold bind at 1, os_path_exists.
      replace (path_exists (fs w) (strip_head h0)) with true
        by (unfold path_exists, stat; now rewrite Hc1, Hc2).
      simpl. now apply Hmk.
    + simpl. now apply Hmk.
Qed.

(** X12.  When the directory part of the output path is a regular file,
    the Loader exits with code 1 and leaves the filesystem as it was: the
    error is the [FileExistsError] that [os.makedirs(..., exist_ok=True)]
    still raises when what exists is not a directory. *)
Theorem loader_output_directory_is_a_file
    (script input_file output_file : string) (w : world) :
  is_file (fs w) (dirname output_file) = true ->
  load_main [script; input_file; output_file] w
  = (1, World (fs w) (ticks w + 101)
              (stdout w ++ [banner Loader input_file;
                            error_line Loader
                              (OSError EEXIST (dirname output_file))])).
Proof.
  intros Hf. rewrite load_main_run, load_data_run.
  unfold save_and_report.
  rewrite (makedirs_on_file (dirname output_file)
             (World (fs w) (ticks w + 101)
                    (stdout w ++ [banner Loader input_file])) Hf).
  unfold with_stdout. simpl. now rewrite <- app_assoc.
Qed.


(** *** What a run leaves alone *)

Lemma save_and_report_frame (output_file : string) (document : json)
    (lines : list string) (result : json) (w : world) :
  path_isdir (fs w) (dirname output_file) = true ->
  forall q r,
    resolve (fs w) q = inr r -> resolve (fs w) output_file <> inr r ->
    stat (fs (snd (save_and_report output_file document lines result w))) q
    = stat (fs w) q.
Proof.
  intros Hd q r Hq Hne. unfold save_and_report.
  rewrite (makedirs_existing _ _ Hd).
  destruct (write_file (fs w) output_file _) as [errno|fs'] eqn:Ew;
    [reflexivity|].
  destruct (write_file_inv _ _ _ _ Ew) as (t & Ht & Hn & ->).
  cbn [snd fs]. apply (stat_put_other _ _ r); [assumption..|].
  intros ->. now apply Hne.
Qed.

(** X13.  A stage whose output directory exists changes no file but its
    output: every path that resolves to another place than the output
    path is, after the run, what it was before, whether the run succeeds
    or fails.  In particular the input file is never modified unless it
    is the output. *)
Theorem stage_changes_only_its_output
    (st : stage) (script input_file output_file q : string)
    (r : list string) (w : world) :
  path_isdir (fs w) (dirname output_file) = true ->
  resolve (fs w) q = inr r ->
  resolve (fs w) output_file <> inr r ->
  stat (fs (snd (main st [script; input_file; output_file] w))) q
  = stat (fs w) q.
Proof.
  intros Hd Hq Hne. rewrite main_run. destruct st.
  - rewrite load_data_run.
    pose proof (save_and_report_frame output_file
                  (loaded_dataset input_file (ticks w))
                  ["Data loaded successfully. Records: 1000";
                   "Output saved to: " ++ output_file]
                  (load_result output_file)
                  (World (fs w) (ticks w + 101)
                         (stdout w ++ [banner Loader input_file]))
                  Hd q r Hq Hne) as H.
    destruct (save_and_report _ _ _ _ _) as [[res|e] w1]; exact H.
  - rewrite process_data_run.
    pose proof (quiet_transformed input_file
      (World (fs w) (ticks w)
             (stdout w ++ [banner Transformer input_file]))) as [Hf _].
    destruct (transformed input_file _) as [[[recs pd]|e] w1];
      simpl in Hf; [|cbn [snd with_stdout fs]; now rewrite Hf].
    rewrite <- Hf in Hd, Hq, Hne.
    pose proof (save_and_report_frame output_file pd
                  ["Data processed successfully. Records: "
                   ++ str_of_int (len recs);
                   "Output saved to: " ++ output_file]
                  (process_result output_file recs) w1 Hd q r Hq Hne) as H.
    rewrite Hf in H.
    destruct (save_and_report _ _ _ _ _) as [[res|e] w2]; exact H.
  - rewrite analyze_results_run.
    destruct (getsize dir_size (fs w) input_file) as [errno|size];
      [reflexivity|].
    pose proof (save_and_report_frame output_file
                  (analysis_report input_file size (ticks w))
                  ["Analysis completed successfully";
                   "Output saved to: " ++ output_file;
                   "Overall Status: SUCCESS"]
                  (analyze_result output_file)
                  (World (fs w) (S (ticks w))
                         (stdout w ++ [banner Analyzer input_file]))
                  Hd q r Hq Hne) as H.
    destruct (save_and_report _ _ _ _ _) as [[res|e] w1]; exact H.
Qed.

(** *** Stages fed with each other's output *)

(** X14.  The Transformer cannot be run on its own output: a
    ProcessedDataset with at least one record has records without a
    [value] key, so the run exits with code 1 on
    [KeyError('value')] and writes nothing. *)
Theorem transformer_rejects_processed_dataset
    (script input_file output_file text source stamp at_ : string)
    (count r : json) (rest : list json) (w : world) :
  read_file (fs w) input_file = inr text ->
  json_loads text
  = Some (processed_dataset source at_ count
            (processed_record stamp r :: rest)) ->
  exists t,
    process_main [script; input_file; output_file] w
    = (1, World (fs w) t
                (stdout w ++ [banner Transformer input_file;
                              error_line Transformer (KeyError "value")])).
Proof.
  intros Hr Hl.
  apply (transformer_bad_record script input_file output_file text _
           (processed_record stamp r) [] rest (KeyError "value") w Hr Hl
           eq_refl (List.Forall_nil _)).
  intros w0. exists w0. reflexivity.
Qed.

(** X15.  The Transformer on a file the Loader wrote (and [json.load]
    reads back): the dataset it writes carries the Loader's declared
    count on as [original_records_count] = 1000 beside
    [processed_records_count] = 100, and the result record says 100. *)
Theorem transformer_on_loader_output
    (input_file output_file source : string) (k : nat) (w : world) :
  read_file (fs w) input_file
  = inr (json_dump_indent2 (loaded_dataset source k)) ->
  json_loads (json_dump_indent2 (loaded_dataset source k))
  = Some (loaded_dataset source k) ->
  path_isdir (fs w) (dirname output_file) = true ->
  path_isdir (fs w) output_file = false ->
  exists result w' processed_data,
    process_data input_file output_file w = (Returned result, w')
    /\ stat (fs w') output_file
       = inr (IFile (json_dump_indent2 processed_data))
    /\ field "original_records_count" processed_data = Some (JInt 1000)
    /\ field "processed_records_count" processed_data = Some (JInt 100)
    /\ field "records_processed" result = Some (JInt 100).
Proof.
  intros Hr Hl Hd Hp.
  pose proof (process_data_on_records input_file output_file _
                (loaded_dataset source k) (JInt 1000)
                (map (loaded_record k) (seq 0 100)) w Hr Hl eq_refl
                (loaded_records_are_records k _) eq_refl Hd Hp) as T.
  cbv zeta in T. destruct T as (fs' & E & Hstat & _ & Hlen).
  eexists _, _, _. split; [exact E|]. split; [exact Hstat|].
  rewrite length_map, length_seq in Hlen.
  split; [reflexivity|]. unfold processed_dataset, process_result, len.
  cbn [field assoc String.eqb Ascii.eqb Bool.eqb]. rewrite Hlen.
  split; reflexivity.
Qed.

(** *** Exit codes and result lines, for every argument vector *)

(** X16.  Whatever the argument vector, as long as no argument holds a
    newline character and [json.dumps] and [str(e)] write none: a stage
    exits with code 0 or 1, and with code 0 exactly when the last line it
    wrote to standard output is a result line; with code 1 no line it
    wrote is a result line. *)
Theorem exit_code_0_iff_result_line
    (st : stage) (argv : list string) (w : world) :
  Forall (fun a => has_newline a = false) argv ->
  (forall obj, has_newline (json_dumps obj) = false) ->
  (forall e, has_newline (exn_str e) = false) ->
  let r := main st argv w in
  exists printed,
    stdout (snd r) = (stdout w ++ printed)%list
    /\ ((fst r = 0
         /\ exists progress line,
              lines (stdout_text printed) = (progress ++ [line])%list
              /\ is_result_line line = true
              /\ Forall (fun l => is_result_line l = false) progress)
        \/ (fst r = 1
            /\ Forall (fun l => is_result_line l = false)
                      (lines (stdout_text printed)))).
Proof.
  intros Hargs Hdumps Hstr. cbv zeta.
  destruct (Nat.eq_dec (length argv) 3%nat) as [H3|H3].
  - destruct argv as [|script [|input_file [|output_file [|x argv]]]];
      try discriminate H3.
    apply List.Forall_inv_tail in Hargs.
    pose proof (List.Forall_inv Hargs) as Hi.
    apply List.Forall_inv_tail in Hargs.
    pose proof (List.Forall_inv Hargs) as Ho.
    destruct (main_prints st script input_file output_file w
                Hi Ho Hdumps Hstr)
      as (printed & Hstd & Hlines & Hcase).
    exists printed. split; [exact Hstd|]. rewrite Hlines.
    destruct Hcase as [(Hcode & progress & fields & -> & Hprog)
                      |(Hcode & e & ->)].
    + left. split; [exact Hcode|].
      exists progress, (result_line st (JObj fields)).
      split; [reflexivity|]. split; [apply result_line_is_result|].
      exact Hprog.
    + right. split; [exact Hcode|].
      constructor; [apply banner_not_result|].
      constructor; [apply error_line_not_result|constructor].
  - exists [usage st].
    assert (E : main st argv w = (1, with_stdout w [usage st]))
      by (destruct st; apply run_main_arity; assumption).
    rewrite E. split; [reflexivity|]. right. split; [reflexivity|].
    destruct st; repeat constructor.
Qed.


(** *** The size in kilobytes *)

Lemma round_half_even_nearest (num den : Z) :
  0 < den ->
  let h := round_half_even num den in
  2 * Z.abs (den * h - num) <= den
  /\ (2 * Z.abs (den * h - num) = den -> Z.even h = true).
Proof.
  intros Hden. cbv zeta. unfold round_half_even.
  pose proof (Z.div_mod num den ltac:(lia)) as Hdm.
  pose proof (Z.mod_pos_bound num den Hden) as Hr.
  set (q := num / den) in *. set (r := num mod den) in *.
  destruct (Z.ltb_spec (2 * r) den) as [H1|H1].
  - split; [lia|]. intros H. lia.
  - destruct (Z.ltb_spec den (2 * r)) as [H2|H2].
    + split; [lia|]. intros H. lia.
    + destruct (Z.even q) eqn:Eq.
      * split; [lia|]. intros _. exact Eq.
      * split; [lia|]. intros _.
        rewrite Z.even_add. now rewrite Eq.
Qed.

Lemma hundredths_float_of_hundredths (h : Z) :
  hundredths (float_of_hundredths h) = h
  /\ (places (float_of_hundredths h) = 1%nat
      \/ places (float_of_hundredths h) = 2%nat).
Proof.
  unfold float_of_hundredths, hundredths.
  destruct (Z.eqb_spec (h mod 10) 0) as [H|H]; simpl.
  - split; [|now left].
    pose proof (Z.div_mod h 10 ltac:(lia)). lia.
  - split; [lia|now right].
Qed.

Lemma nearest_binary64_exact (n : Z) :
  0 <= n < 2 ^ 53 -> nearest_binary64 n = n.
Proof.
  intros [H0 H]. unfold nearest_binary64. cbv zeta.
  rewrite (Z.abs_eq n H0).
  destruct (Z.leb_spec (Z.log2 n - 52) 0) as [_|Hlog]; [reflexivity|].
  assert (Hpos : 0 < n) by (destruct (Z.eq_dec n 0); [subst; cbn in Hlog|]; lia).
  pose proof (proj1 (Z.log2_lt_pow2 n 53 Hpos) H). lia.
Qed.

(** X17.  For a size below [2 ^ 53], which is a binary64 number itself,
    the [report_size_kb] of a report is [round(size / 1024, 2)] of the
    exact quotient: a number of one or two decimal places, within half a
    hundredth of [size / 1024], the even hundredth when the quotient lies
    halfway between two; a multiple of 1024 bytes reports a whole number
    of kilobytes. *)
Theorem report_size_kb_is_nearest_hundredth
    (input_file : string) (size : Z) (k : nat) :
  0 <= size < 2 ^ 53 ->
  exists f,
    field "report_size_kb" (analysis_report input_file size k)
    = Some (JFloat f)
    /\ (places f = 1%nat \/ places f = 2%nat)
    /\ 2 * Z.abs (1024 * hundredths f - 100 * size) <= 1024
    /\ (2 * Z.abs (1024 * hundredths f - 100 * size) = 1024 ->
        Z.even (hundredths f) = true)
    /\ (size mod 1024 = 0 -> hundredths f = 100 * (size / 1024)).
Proof.
  intros Hsize. exists (size_kb size). split; [reflexivity|].
  unfold size_kb. rewrite (nearest_binary64_exact size Hsize).
  destruct (hundredths_float_of_hundredths
              (round_half_even (100 * size) 1024)) as [-> Hp].
  destruct (round_half_even_nearest (100 * size) 1024 ltac:(lia))
    as [Hnear Htie].
  split; [exact Hp|]. split; [exact Hnear|]. split; [exact Htie|].
  intros Hmod.
  pose proof (Z.div_mod size 1024 ltac:(lia)) as Hdm.
  rewrite Hmod in Hdm.
  set (h := round_half_even (100 * size) 1024) in *.
  set (q := size / 1024) in *. lia.
Qed.

(** X23.  From [2 ^ 53] on the size is rounded to a binary64 number before
    it is divided, and the report shows it.  A file of [2 ^ 53 + 15] bytes
    is reported at [8796093022208.02] kilobytes, the size being taken for
    [2 ^ 53 + 16], although the hundredth nearest to the exact quotient is
    [8796093022208.01]; [report_size_bytes] next to it is the exact
    size. *)
Theorem report_size_kb_beyond_binary64 (input_file : string) (k : nat) :
  let size := 2 ^ 53 + 15 in
  let report := analysis_report input_file size k in
  nearest_binary64 size = 2 ^ 53 + 16
  /\ field "report_size_kb" report
     = Some (JFloat (PyFloat 879609302220802 2))
  /\ round_half_even (100 * size) 1024 = 879609302220801
  /\ field "report_size_bytes" report = Some (JInt 9007199254741007).
Proof.
  cbv zeta. split; [vm_compute; reflexivity|].
  split; [|split; [vm_compute; reflexivity|reflexivity]].
  unfold analysis_report.
  cbn [field assoc String.eqb Ascii.eqb Bool.eqb].
  apply f_equal, f_equal. vm_compute. reflexivity.
Qed.

(** *** Running the Loader again *)

Lemma save_and_report_needs_slash (output_file : string) (document : json)
    (lines : list string) (result r : json) (w w' : world) :
  save_and_report output_file document lines result w = (Returned r, w') ->
  has_slash output_file = true.
Proof.
  intros E. destruct (has_slash output_file) eqn:H; [reflexivity|].
  rewrite (save_and_report_bare _ _ _ _ _ H) in E. discriminate E.
Qed.

Lemma stat_file_not_dir (fs0 : filesystem) (p text : string) :
  stat fs0 p = inr (IFile text) -> path_isdir fs0 p = false.
Proof. unfold path_isdir. now intros ->. Qed.

Lemma stat_resolves (fs0 : filesystem) (p : string) (n : inode) :
  stat fs0 p = inr n -> exists r, resolve fs0 p = inr r.
Proof.
  unfold stat. destruct (resolve fs0 p) as [e|r]; [discriminate|eauto].
Qed.

(** X18.  A Loader run that succeeded can be repeated on the same output
    path, with any input path: the second run succeeds too and the file
    then holds the second run's dataset, stamped with the clock readings
    that follow the first run's 101; the first dataset is overwritten. *)
Theorem loader_rerun_overwrites
    (script1 input1 script2 input2 output_file : string) (w w1 : world) :
  load_main [script1; input1; output_file] w = (0, w1) ->
  exists w2,
    load_main [script2; input2; output_file] w1 = (0, w2)
    /\ ticks w1 = (ticks w + 101)%nat
    /\ stat (fs w1) output_file
       = inr (IFile (json_dump_indent2 (loaded_dataset input1 (ticks w))))
    /\ stat (fs w2) output_file
       = inr (IFile (json_dump_indent2
                       (loaded_dataset input2 (ticks w + 101)))).
Proof.
  rewrite load_main_run, load_data_run.
  destruct (save_and_report _ _ _ _ _) as [[r|e] w0] eqn:E;
    [|discriminate].
  pose proof (save_and_report_needs_slash _ _ _ _ _ _ _ E) as Hs.
  apply save_and_report_returned in E as (-> & _ & Ht & Hstat).
  intros H. injection H as <-. unfold with_stdout.
  cbn [fs ticks stdout] in *.
  destruct (stat_resolves _ _ _ Hstat) as [r Hr].
  pose proof (dirname_of_resolved _ _ _ Hr Hs) as Hd.
  pose proof (stat_file_not_dir _ _ _ Hstat) as Hp.
  rewrite load_main_run, load_data_run. cbn [fs ticks stdout].
  match goal with
  | |- context [save_and_report _ ?doc ?lines ?res ?w1] =>
      destruct (save_and_report_ok output_file doc lines res w1 Hd Hp)
        as (fs' & Hw & ->)
  end.
  eexists. split; [reflexivity|]. split; [exact Ht|].
  split; [exact Hstat|]. unfold with_stdout. cbn [fs].
  cbn [fs] in Hw. apply stat_after_write in Hw. now rewrite Ht in Hw.
Qed.


(** *** Directories that [os.makedirs] has to create *)

Lemma str_app_assoc (x y z : string) : (x ++ y) ++ z = x ++ (y ++ z).
Proof.
  induction x as [|c x IH]; [reflexivity|].
  rewrite !str_app_cons. now rewrite IH.
Qed.

Lemma rstrip_slash_plain (x : string) :
  has_slash x = false -> rstrip_slash x = x.
Proof.
  induction x as [|c x IH]; simpl; [reflexivity|].
  intros H. apply orb_false_iff in H as [Hc Hx].
  now rewrite Hc, (IH Hx).
Qed.

Lemma rstrip_slash_app (a b : string) :
  is_empty (rstrip_slash b) = false ->
  rstrip_slash (a ++ b) = a ++ rstrip_slash b.
Proof.
  intros Hb. induction a as [|c a IH]; [reflexivity|].
  rewrite !str_app_cons. simpl. rewrite IH.
  rewrite is_empty_app, Hb, andb_false_r, andb_false_r. reflexivity.
Qed.

Lemma rstrip_slash_name_slash (x : string) :
  has_slash x = false -> rstrip_slash (x ++ "/") = x.
Proof.
  induction x as [|c x IH]; [reflexivity|].
  intros H. simpl in H. apply orb_false_iff in H as [Hc Hx].
  rewrite str_app_cons. simpl. now rewrite (IH Hx), Hc.
Qed.

Lemma plain_name_nonempty (x : string) :
  plain_name x = true -> is_empty x = false.
Proof.
  unfold plain_name. intros H.
  apply andb_true_iff in H as [H _]. apply andb_true_iff in H as [H _].
  apply andb_true_iff in H as [H _]. now apply negb_true_iff in H.
Qed.

Lemma plain_name_not_dot (x : string) :
  plain_name x = true -> String.eqb x "." = false.
Proof.
  unfold plain_name. intros H.
  apply andb_true_iff in H as [H _]. apply andb_true_iff in H as [_ H].
  now apply negb_true_iff in H.
Qed.

(** A path ending in a plain name has no trailing slash to strip. *)
Lemma strip_head_child (p x : string) :
  plain_name x = true -> strip_head (p ++ "/" ++ x) = p ++ "/" ++ x.
Proof.
  intros Hx. pose proof (plain_name_no_slash x Hx) as Hs.
  pose proof (plain_name_nonempty x Hx) as Hne.
  unfold strip_head.
  change (p ++ "/" ++ x) with (p ++ String "/" x).
  assert (E : rstrip_slash (String "/" x) = String "/" x).
  { simpl. rewrite (rstrip_slash_plain x Hs), Hne. reflexivity. }
  rewrite rstrip_slash_app by (rewrite E; reflexivity).
  rewrite E. rewrite is_empty_app. simpl. now rewrite andb_false_r.
Qed.

Lemma strip_head_child_slash (p x : string) :
  plain_name x = true -> strip_head ((p ++ "/" ++ x) ++ "/") = p ++ "/" ++ x.
Proof.
  intros Hx. pose proof (plain_name_no_slash x Hx) as Hs.
  pose proof (plain_name_nonempty x Hx) as Hne.
  unfold strip_head.
  replace ((p ++ "/" ++ x) ++ "/") with (p ++ String "/" (x ++ "/"))
    by (symmetry; apply (str_app_assoc p (String "/" x) "/")).
  change (p ++ "/" ++ x) with (p ++ String "/" x).
  assert (E : rstrip_slash (String "/" (x ++ "/")) = String "/" x).
  { simpl. rewrite (rstrip_slash_name_slash x Hs), Hne. reflexivity. }
  rewrite rstrip_slash_app by (rewrite E; reflexivity).
  rewrite E. rewrite is_empty_app. simpl. now rewrite andb_false_r.
Qed.

Lemma join_path_snoc (base x : string) (names : list string) :
  join_path base (names ++ [x]) = join_path base names ++ "/" ++ x.
Proof.
  revert base. induction names as [|y names IH]; intros base; simpl;
    [reflexivity|apply IH].
Qed.

Lemma make_dirs_snoc (fs0 : filesystem) (d names : list string)
    (x : string) :
  make_dirs fs0 d (names ++ [x])
  = put_node (make_dirs fs0 d names) ((d ++ names) ++ [x])%list IDir.
Proof.
  revert fs0 d. induction names as [|y names IH]; intros fs0 d; simpl.
  - now rewrite app_nil_r.
  - rewrite IH.
    replace ((d ++ [y]) ++ names)%list with (d ++ y :: names)%list
      by (rewrite <- app_assoc; reflexivity).
    reflexivity.
Qed.

(** [make_dirs] adds nothing below the last directory it makes. *)
Lemma node_at_make_dirs_deeper (names : list string) :
  forall fs0 d q,
    (length d + length names < length q)%nat ->
    node_at (make_dirs fs0 d names) q = node_at fs0 q.
Proof.
  induction names as [|y names IH]; intros fs0 d q Hlen; simpl;
    [reflexivity|].
  rewrite IH by (rewrite length_app; simpl in *; lia).
  apply node_at_put_other. intros ->.
  rewrite length_app in Hlen. simpl in Hlen. lia.
Qed.

Lemma dir_at_put (fs0 : filesystem) (p : string) (c t : list string)
    (n : inode) :
  dir_at fs0 p c -> node_at fs0 t <> Some IDir ->
  dir_at (put_node fs0 t n) p c.
Proof.
  intros [Hr Hc] Ht. split; [now apply resolve_put|].
  rewrite node_at_put_other; [assumption|congruence].
Qed.

Lemma dir_at_exists (fs0 : filesystem) (p : string) (c : list string) :
  dir_at fs0 p c -> path_exists fs0 p = true.
Proof. intros [Hr Hc]. unfold path_exists, stat. now rewrite Hr, Hc. Qed.

(** A directory made under a directory. *)
Lemma mkdir_child (fs0 : filesystem) (p x : string) (c : list string) :
  dir_at fs0 p c -> plain_name x = true ->
  node_at fs0 (c ++ [x])%list = None ->
  mkdir fs0 (p ++ "/" ++ x)
  = inr (put_node fs0 (c ++ [x])%list IDir)
  /\ dir_at (put_node fs0 (c ++ [x])%list IDir) (p ++ "/" ++ x)
            (c ++ [x])%list.
Proof.
  intros Hd Hx Hn. split.
  - unfold mkdir. rewrite (strip_head_child p x Hx).
    rewrite (proj1 (child_path _ _ _ _ Hd Hx)). now rewrite Hn.
  - assert (Hd' : dir_at (put_node fs0 (c ++ [x])%list IDir) p c)
      by (apply dir_at_put; [assumption|congruence]).
    split.
    + apply (child_path _ _ _ _ Hd' Hx).
    + apply node_at_put_same. now destruct c.
Qed.

(** A path under directories that do not exist does not exist. *)
Lemma join_path_missing (fs0 : filesystem) (tmp : string)
    (d names : list string) :
  dir_at fs0 tmp d -> Forall (fun x => plain_name x = true) names ->
  names <> [] ->
  (forall pre suf, pre <> [] -> names = (pre ++ suf)%list ->
                   node_at fs0 (d ++ pre)%list = None) ->
  path_exists fs0 (join_path tmp names) = false.
Proof.
  intros Hd. induction names as [|x names IH] using rev_ind;
    intros Hplain Hne Hfresh; [contradiction|].
  apply Forall_app in Hplain as [Hplain Hx].
  apply Forall_cons_1 in Hx as [Hx _].
  rewrite join_path_snoc.
  destruct names as [|y names'].
  - simpl. unfold path_exists, stat.
    rewrite (proj1 (child_path _ _ _ _ Hd Hx)).
    now rewrite (Hfresh [x] [] ltac:(discriminate) eq_refl).
  - set (names := y :: names') in *.
    assert (IH' : path_exists fs0 (join_path tmp names) = false).
    { apply IH; [assumption|discriminate|].
      intros pre suf Hp E. apply (Hfresh pre (suf ++ [x])%list Hp).
      rewrite E. now rewrite <- app_assoc. }
    set (p := join_path tmp names) in *.
    assert (Hp : is_empty p = false).
    { unfold p, names. rewrite <- (app_nil_l (y :: names')).
      change ([] ++ y :: names')%list with (y :: names').
      destruct (exists_last (l := y :: names') ltac:(discriminate))
        as (l' & z & ->).
      rewrite join_path_snoc, is_empty_app. simpl.
      now rewrite andb_false_r. }
    pose proof (rsplit_slash_join p x (plain_name_no_slash x Hx)) as E.
    assert (Hh : is_empty (p ++ "/") = false)
      by (rewrite is_empty_app; simpl; apply andb_false_r).
    unfold path_exists, stat.
    rewrite (resolve_head fs0 _ _ _ E Hh).
    destruct (resolve fs0 (p ++ "/")) as [e|c] eqn:Er; [reflexivity|].
    exfalso.
    (* then [p] itself is an existing directory *)
    unfold resolve in Er. rewrite Hh in Er.
    rewrite (is_absolute_app p _ Hp) in Er.
    change (p ++ "/") with (p ++ "/" ++ EmptyString) in Er.
    rewrite split_slash_join, walk_app in Er.
    destruct (walk fs0 _ (split_slash p)) as [e|c'] eqn:Ew;
      [discriminate|].
    simpl in Er.
    destruct (node_at fs0 c') as [[|]|] eqn:Ec; try discriminate.
    unfold path_exists, stat, resolve in IH'.
    rewrite Hp, Ew, Ec in IH'. discriminate.
Qed.

(** [os.makedirs] under an existing directory, with nothing in the way:
    every missing directory is made, outermost first. *)
Lemma makedirs_rec_creates (tmp : string) (d : list string)
    (fs0 : filesystem) (names : list string) :
  dir_at fs0 tmp d -> Forall (fun x => plain_name x = true) names ->
  (forall pre suf, pre <> [] -> names = (pre ++ suf)%list ->
                   node_at fs0 (d ++ pre)%list = None) ->
  forall fuel t out,
    (String.length (join_path tmp names) < fuel)%nat ->
    makedirs_rec fuel (join_path tmp names) (World fs0 t out)
    = (Returned tt, World (make_dirs fs0 d names) t out)
    /\ dir_at (make_dirs fs0 d names) (join_path tmp names)
              (d ++ names)%list.
Proof.
  intros Hd. induction names as [|x names IH] using rev_ind;
    intros Hplain Hfresh fuel t out Hfuel.
  - simpl. rewrite app_nil_r. split; [|assumption].
    destruct fuel as [|fuel]; [lia|].
    apply makedirs_rec_existing. cbn [fs].
    apply path_isdir_dir_at. eauto.
  - apply Forall_app in Hplain as [Hplain Hx].
    apply Forall_cons_1 in Hx as [Hx _].
    assert (Hfresh' : forall pre suf, pre <> [] ->
              names = (pre ++ suf)%list ->
              node_at fs0 (d ++ pre)%list = None).
    { intros pre suf Hp E. apply (Hfresh pre (suf ++ [x])%list Hp).
      rewrite E. now rewrite <- app_assoc. }
    rewrite join_path_snoc in *. set (p := join_path tmp names) in *.
    rewrite make_dirs_snoc.
    assert (Hlen : (String.length p < String.length (p ++ "/" ++ x))%nat).
    { clear. induction p as [|c p IHp]; simpl; lia. }
    destruct fuel as [|fuel]; [lia|].
    assert (Hnew : node_at (make_dirs fs0 d names)
                           ((d ++ names) ++ [x])%list = None).
    { rewrite node_at_make_dirs_deeper
        by (rewrite !length_app; simpl; lia).
      rewrite <- app_assoc.
      apply (Hfresh (names ++ [x])%list []);
        [now destruct names|now rewrite app_nil_r]. }
    (* what is left to do once the parent is there *)
    assert (Hlast : forall w1,
              fs w1 = make_dirs fs0 d names ->
              dir_at (fs w1) p (d ++ names)%list ->
              try_except (os_mkdir (p ++ "/" ++ x)) is_OSError
                (fun e => let* isdir := os_path_isdir (p ++ "/" ++ x) in
                          if isdir then ret tt else raise e) w1
              = (Returned tt,
                 World (put_node (make_dirs fs0 d names)
                                 ((d ++ names) ++ [x])%list IDir)
                       (ticks w1) (stdout w1))).
    { intros w1 Hfs Hdir. unfold try_except, os_mkdir, update_fs.
      rewrite Hfs in *.
      now rewrite (proj1 (mkdir_child _ p x _ Hdir Hx Hnew)). }
    split.
    + simpl. unfold path_split at 1.
      rewrite (rsplit_slash_join p x (plain_name_no_slash x Hx)).
      rewrite (plain_name_nonempty x Hx).
      unfold bind at 1.
      destruct names as [|y names'].
      * (* the parent is [tmp] itself *)
        simpl in p. subst p. simpl make_dirs in *.
        rewrite app_nil_r in *.
        pose proof (dir_at_slash _ _ _ Hd) as Hs.
        apply dir_at_strip_head in Hs.
        replace (is_empty (strip_head (tmp ++ "/"))) with false
          by (symmetry; exact (dir_at_nonempty _ _ _ Hs)).
        rewrite ?(plain_name_nonempty x Hx).
        cbn [negb andb]. cbv beta iota.
        unfold bind at 1, os_path_exists. cbn [fs].
        rewrite (dir_at_exists _ _ _ Hs). unfold ret at 1.
        rewrite (Hlast (World fs0 t out) eq_refl Hd). reflexivity.
      * (* the parent has to be made first *)
        set (names := y :: names') in *.
        destruct (exists_last (l := names) ltac:(discriminate))
          as (l' & z & El).
        assert (Hz : plain_name z = true).
        { rewrite El in Hplain. apply Forall_app in Hplain as [_ Hz].
          now apply Forall_cons_1 in Hz as [Hz _]. }
        assert (Ep : p = join_path tmp l' ++ "/" ++ z)
          by (unfold p; rewrite El; apply join_path_snoc).
        assert (Hmiss : path_exists fs0 p = false)
          by (apply (join_path_missing fs0 tmp d names Hd Hplain
                       ltac:(discriminate) Hfresh')).
        assert (Hsh : strip_head (p ++ "/") = p)
          by (rewrite Ep; apply (strip_head_child_slash _ z Hz)).
        assert (Hpne : is_empty p = false)
          by (rewrite Ep, is_empty_app; simpl; now rewrite andb_false_r).
        rewrite Hsh, Hpne.
        rewrite ?(plain_name_nonempty x Hx).
        cbn [negb andb]. cbv beta iota.
        unfold bind at 1, os_path_exists. cbn [fs].
        rewrite Hmiss.
        unfold bind at 1. unfold try_except at 1.
        destruct (IH Hplain Hfresh' fuel t out ltac:(simpl in *; lia))
          as [-> Hdir].
        unfold ret at 1. rewrite (plain_name_not_dot x Hx).
        rewrite (Hlast (World (make_dirs fs0 d names) t out)
                   eq_refl Hdir).
        reflexivity.
    + destruct (IH Hplain Hfresh' (S (String.length p)) t out
                  ltac:(lia)) as [_ Hdir].
      rewrite app_assoc.
      exact (proj2 (mkdir_child _ p x _ Hdir Hx Hnew)).
Qed.

(** X19.  The Loader makes the directories its output path needs: under
    an existing directory [tmp], with plain names [x1 ... xn] (n > 0) of
    which none exists yet, a run to [tmp/x1/.../xn/file] exits with code
    0, and the filesystem it leaves is the one it found with the
    directories [x1], [x1/x2], ... and the output file added. *)
Theorem loader_creates_missing_directories
    (script input_file tmp file : string) (d names : list string)
    (w : world) :
  dir_at (fs w) tmp d ->
  Forall (fun x => plain_name x = true) names ->
  names <> [] ->
  plain_name file = true ->
  (forall pre suf, pre <> [] -> names = (pre ++ suf)%list ->
                   node_at (fs w) (d ++ pre)%list = None) ->
  node_at (fs w) ((d ++ names) ++ [file])%list <> Some IDir ->
  let output_file := join_path tmp names ++ "/" ++ file in
  let text := json_dump_indent2 (loaded_dataset input_file (ticks w)) in
  let fs' := put_node (make_dirs (fs w) d names)
                      ((d ++ names) ++ [file])%list (IFile text) in
  fst (load_main [script; input_file; output_file] w) = 0
  /\ fs (snd (load_main [script; input_file; output_file] w)) = fs'
  /\ path_isdir fs' (join_path tmp names) = true
  /\ stat fs' output_file = inr (IFile text).
Proof.
  intros Hd Hplain Hne Hfile Hfresh Hnode. cbv zeta.
  set (p := join_path tmp names).
  set (text := json_dump_indent2 (loaded_dataset input_file (ticks w))).
  destruct (exists_last Hne) as (l' & z & El).
  assert (Hz : plain_name z = true).
  { rewrite El in Hplain. apply Forall_app in Hplain as [_ Hz].
    now apply Forall_cons_1 in Hz as [Hz _]. }
  assert (Ep : p = join_path tmp l' ++ "/" ++ z)
    by (unfold p; rewrite El; apply join_path_snoc).
  assert (Hsh : strip_head (p ++ "/") = p)
    by (rewrite Ep; apply (strip_head_child_slash _ z Hz)).
  assert (Hdirname : dirname (p ++ "/" ++ file) = p).
  { unfold dirname, path_split.
    rewrite (rsplit_slash_join p file (plain_name_no_slash file Hfile)).
    exact Hsh. }
  destruct (makedirs_rec_creates tmp d (fs w) names Hd Hplain Hfresh
              (S (String.length p)) (ticks w + 101)%nat
              (stdout w ++ [banner Loader input_file])
              ltac:(unfold p; lia)) as [Hmk Hdir].
  fold p in Hmk, Hdir.
  set (fs1 := make_dirs (fs w) d names) in *.
  assert (Hn1 : node_at fs1 ((d ++ names) ++ [file])%list <> Some IDir).
  { unfold fs1. rewrite node_at_make_dirs_deeper
      by (rewrite !length_app; simpl; lia).
    exact Hnode. }
  assert (Hres : resolve fs1 (p ++ "/" ++ file)
                 = inr ((d ++ names) ++ [file])%list)
    by (apply (child_path _ _ _ _ Hdir Hfile)).
  assert (E : load_main [script; input_file; p ++ "/" ++ file] w
              = (0, with_stdout
                      (World (put_node fs1 ((d ++ names) ++ [file])%list
                                       (IFile text))
                             (ticks w + 101)
                             ((stdout w ++ [banner Loader input_file])
                              ++ ["Data loaded successfully. Records: 1000";
                                  "Output saved to: "
                                  ++ (p ++ "/" ++ file)]))
                      [result_line Loader
                         (load_result (p ++ "/" ++ file))])).
  { rewrite load_main_run, load_data_run. unfold save_and_report.
    rewrite Hdirname. unfold makedirs. rewrite Hmk. cbn [fs].
    fold text. now rewrite (write_file_ok _ _ text _ Hres Hn1). }
  rewrite E. cbn [fst snd with_stdout fs].
  split; [reflexivity|]. split; [reflexivity|]. split.
  - apply path_isdir_dir_at. exists (d ++ names)%list.
    now apply dir_at_put.
  - unfold stat. rewrite (resolve_put _ _ _ _ _ Hn1 Hres).
    rewrite node_at_put_same; [reflexivity|].
    intros H. apply app_eq_nil in H as [_ H]. discriminate H.
Qed.


(** *** Result records *)

(** The body of a stage that returns, returns a record that names the
    output path. *)
Lemma stage_body_result (st : stage) (input_file output_file : string)
    (result : json) (w w1 : world) :
  (match st with
   | Loader => load_data
   | Transformer => process_data
   | Analyzer => analyze_results
   end) input_file output_file w = (Returned result, w1) ->
  field "status" result = Some (JStr "success")
  /\ field (output_key st) result = Some (JStr output_file).
Proof.
  destruct st.
  - rewrite load_data_run. intros E.
    apply save_and_report_returned in E as (-> & _). split; reflexivity.
  - rewrite process_data_run.
    destruct (transformed input_file _) as [[[recs pd]|e] w0];
      [|discriminate].
    intros E. apply save_and_report_returned in E as (-> & _). split; reflexivity.
  - rewrite analyze_results_run.
    destruct (getsize dir_size (fs w) input_file) as [errno|size];
      [discriminate|].
    intros E. apply save_and_report_returned in E as (-> & _). split; reflexivity.
Qed.

(** X20.  Every stage that exits with code 0 ends its output with the
    result line of a record whose [status] is ["success"] and which
    repeats the output path exactly as it was given ([output_file] for
    the Loader and the Transformer, [analysis_file] for the Analyzer),
    and at that path there is then a regular file. *)
Theorem result_record_names_the_output
    (st : stage) (script input_file output_file : string) (w w' : world) :
  main st [script; input_file; output_file] w = (0, w') ->
  exists printed result,
    stdout w' = (stdout w ++ printed ++ [result_line st result])%list
    /\ field "status" result = Some (JStr "success")
    /\ field (output_key st) result = Some (JStr output_file)
    /\ is_file (fs w') output_file = true.
Proof.
  rewrite main_run.
  pose proof (stage_body_stdout st input_file output_file w) as Hout.
  pose proof (stage_body_result st input_file output_file) as Hres.
  assert (Hfile : forall result w1,
            (match st with
             | Loader => load_data
             | Transformer => process_data
             | Analyzer => analyze_results
             end) input_file output_file w = (Returned result, w1) ->
            is_file (fs w1) output_file = true).
  { intros result w1. destruct st.
    - rewrite load_data_run. intros E.
      apply save_and_report_returned in E as (_ & _ & _ & Hs).
      exact (is_file_stat _ _ _ Hs).
    - rewrite process_data_run.
      destruct (transformed input_file _) as [[[recs pd]|e] w0];
        [|discriminate].
      intros E. apply save_and_report_returned in E as (_ & _ & _ & Hs).
      exact (is_file_stat _ _ _ Hs).
    - rewrite analyze_results_run.
      destruct (getsize dir_size (fs w) input_file) as [errno|size];
        [discriminate|].
      intros E. apply save_and_report_returned in E as (_ & _ & _ & Hs).
      exact (is_file_stat _ _ _ Hs). }
  destruct ((match st with
             | Loader => load_data
             | Transformer => process_data
             | Analyzer => analyze_results
             end) input_file output_file w) as [[result|e] w1] eqn:Eb;
    [|discriminate].
  intros H. injection H as <-.
  destruct Hout as (closing & fields & Hstd & _ & _).
  destruct (Hres result w w1 Eb) as [Hstatus Hkey].
  exists (banner st input_file :: closing), result.
  unfold with_stdout. cbn [stdout fs]. rewrite Hstd.
  split; [simpl; now rewrite <- app_assoc|].
  split; [exact Hstatus|]. split; [exact Hkey|].
  exact (Hfile result w1 eq_refl).
Qed.

(** X21.  The Analyzer's result record agrees with the report it wrote:
    whenever it exits with code 0, [overall_status] is the report's
    [summary.overall_status], [quality_score] is the report's
    [analysis_metrics.data_quality_score] and [recommendations_count] is
    the number of [recommendations] in the report. *)
Theorem analyzer_result_agrees_with_report
    (script input_file output_file : string) (w w' : world) :
  analyze_main [script; input_file; output_file] w = (0, w') ->
  exists printed result report recs,
    stdout w' = (stdout w ++ printed ++ [result_line Analyzer result])%list
    /\ stat (fs w') output_file = inr (IFile (json_dump_indent2 report))
    /\ option_bind _ _ (field "overall_status") (field "summary" report)
       = field "overall_status" result
    /\ option_bind _ _ (field "data_quality_score")
         (field "analysis_metrics" report)
       = field "quality_score" result
    /\ field "recommendations" report = Some (JArr recs)
    /\ field "recommendations_count" result = Some (JInt (len recs)).
Proof.
  rewrite analyze_main_run, analyze_results_run.
  destruct (getsize dir_size (fs w) input_file) as [errno|size];
    [discriminate|].
  destruct (save_and_report _ _ _ _ _) as [[r|e] w1] eqn:E;
    [|discriminate].
  apply save_and_report_returned in E as (-> & Hout & _ & Hstat).
  intros H. injection H as <-.
  exists [banner Analyzer input_file;
          "Analysis completed successfully";
          "Output saved to: " ++ output_file;
          "Overall Status: SUCCESS"],
         (analyze_result output_file),
         (analysis_report input_file size (ticks w)),
         [JStr "Data processing completed successfully";
          JStr "All transformations applied correctly";
          JStr "Performance is within acceptable limits";
          JStr "Consider implementing parallel processing for larger datasets"].
  split.
  { unfold with_stdout. cbn [stdout]. rewrite Hout. cbn [stdout].
    now rewrite <- !app_assoc. }
  split; [exact Hstat|]. repeat split.
Qed.

(** X22.  The Analyzer on a file a successful Transformer run wrote.
    Reading the size of that file cannot fail: it is the length of the
    text the Transformer wrote.  From there the run is the saving of the
    report of that size at the output path, so it fails only where
    [os.makedirs] or [open] fails on the output path; and it returns,
    with that report written, whenever the directory of the output path
    exists and the output path is not a directory. *)
Theorem analyzer_on_transformer_output
    (script input_file middle_file output_file : string) (w w1 : world) :
  process_main [script; input_file; middle_file] w = (0, w1) ->
  exists text,
    let size := Z.of_nat (String.length text) in
    let report := analysis_report middle_file size (ticks w1) in
    stat (fs w1) middle_file = inr (IFile text)
    /\ os_path_getsize middle_file w1 = (Returned size, w1)
    /\ field "report_size_bytes" report = Some (JInt size)
    /\ analyze_results middle_file output_file w1
       = save_and_report output_file report
           ["Analysis completed successfully";
            "Output saved to: " ++ output_file;
            "Overall Status: SUCCESS"]
           (analyze_result output_file)
           (World (fs w1) (S (ticks w1))
                  (stdout w1 ++ ["Analyzing results from: " ++ middle_file]))
    /\ (path_isdir (fs w1) (dirname output_file) = true ->
        path_isdir (fs w1) output_file = false ->
        exists result w2,
          analyze_results middle_file output_file w1 = (Returned result, w2)
          /\ stat (fs w2) output_file
             = inr (IFile (json_dump_indent2 report))).
Proof.
  rewrite process_main_run, process_data_run.
  destruct (transformed input_file _) as [[[recs pd]|e] w0];
    [|discriminate].
  destruct (save_and_report _ _ _ _ _) as [[r|e] w2] eqn:E;
    [|discriminate].
  apply save_and_report_returned in E as (_ & _ & _ & Hstat).
  intros H. injection H as <-. unfold with_stdout. cbn [fs ticks stdout].
  exists (json_dump_indent2 pd). cbv zeta.
  pose proof (getsize_file _ _ _ (read_file_stat _ _ _ Hstat)) as Hsize.
  split; [exact Hstat|]. split.
  { unfold os_path_getsize, syscall. cbn [fs]. now rewrite Hsize. }
  split; [reflexivity|].
  assert (Erun : forall out,
            analyze_results middle_file output_file
              (World (fs w2) (ticks w2) out)
            = save_and_report output_file
                (analysis_report middle_file
                   (Z.of_nat (String.length (json_dump_indent2 pd)))
                   (ticks w2))
                ["Analysis completed successfully";
                 "Output saved to: " ++ output_file;
                 "Overall Status: SUCCESS"]
                (analyze_result output_file)
                (World (fs w2) (S (ticks w2))
                       (out ++ ["Analyzing results from: " ++ middle_file]))).
  { intros out. rewrite analyze_results_run. cbn [fs ticks stdout].
    now rewrite Hsize. }
  split; [apply Erun|].
  intros Hd Hp. rewrite Erun.
  match goal with
  | |- context [save_and_report _ ?doc ?lines ?res ?w3] =>
      destruct (save_and_report_ok output_file doc lines res w3 Hd Hp)
        as (fs' & _ & E')
  end.
  rewrite E'. eexists _, _. split; [reflexivity|].
  now apply save_and_report_returned in E' as (_ & _ & _ & Hs).
Qed.

End Stages.

(** ** Runs on the reference platform *)

Module Examples.

Import Reference.

Abbreviation run :=
  (main now_iso ascii_upper dumps dump_indent2 loads exn_str repr 4096).
Abbreviation load := (load_main now_iso dumps dump_indent2 exn_str repr).
Abbreviation process :=
  (process_main now_iso ascii_upper dumps dump_indent2 loads exn_str).
Abbreviation analyze :=
  (analyze_main now_iso dumps dump_indent2 exn_str repr 4096).

(** A root directory holding the empty directory [/tmp]. *)
Definition fs_tmp : filesystem := Filesystem {[ ["tmp"] := IDir ]} [].

Definition w_tmp : world := World fs_tmp 0 [].

(** [/tmp] with two files of five bytes, neither of them JSON. *)
Definition fs_ab : filesystem :=
  Filesystem (<[ ["tmp"; "a.txt"] := IFile "hello" ]>
              (<[ ["tmp"; "b.txt"] := IFile "world" ]>
               {[ ["tmp"] := IDir ]})) [].

Definition w_ab : world := World fs_ab 0 [].

(** A LoadedDataset of two records, and [/tmp/in.json] holding it. *)
Definition small_dataset : json :=
  JObj [("records_count", JInt 2);
        ("data",
         JArr [JObj [("id", JInt 1); ("value", JStr "ab");
                     ("timestamp", JStr "t1")];
               JObj [("id", JInt 2); ("value", JStr "cd");
                     ("timestamp", JStr "t2")]])].

Definition small_records : list json :=
  [JObj [("id", JInt 1); ("value", JStr "ab"); ("timestamp", JStr "t1")];
   JObj [("id", JInt 2); ("value", JStr "cd"); ("timestamp", JStr "t2")]].

Definition fs_in : filesystem :=
  Filesystem (<[ ["tmp"; "in.json"] := IFile (dump_indent2 small_dataset) ]>
              {[ ["tmp"] := IDir ]}) [].

Definition w_in : world := World fs_in 0 [].

(** The report a run left at [p], read back. *)
Definition report_at (w : world) (p : string) : option json :=
  match read_file (fs w) p with
  | inr text => loads text
  | inl _ => None
  end.

End Examples.

Import Reference Examples.

(** *** The reference platform writes no newline on a result or error line *)

(** Induction on a Python object, with the items of a list and the values
    of a dictionary as smaller objects. *)
Fixpoint json_induction (P : json -> Prop)
    (Hnull : P JNull) (Hbool : forall b, P (JBool b))
    (Hint : forall n, P (JInt n)) (Hfloat : forall f, P (JFloat f))
    (Hstr : forall s, P (JStr s))
    (Harr : forall items, Forall P items -> P (JArr items))
    (Hobj : forall fields,
        Forall (fun kv => P (snd kv)) fields -> P (JObj fields))
    (obj : json) {struct obj} : P obj :=
  match obj with
  | JNull => Hnull
  | JBool b => Hbool b
  | JInt n => Hint n
  | JFloat f => Hfloat f
  | JStr s => Hstr s
  | JArr items =>
      Harr items
        ((fix all (l : list json) : Forall P l :=
            match l with
            | [] => @List.Forall_nil _ P
            | x :: r =>
                @List.Forall_cons _ P x r
                  (json_induction P Hnull Hbool Hint Hfloat Hstr Harr Hobj x)
                  (all r)
            end) items)
  | JObj fields =>
      Hobj fields
        ((fix all (l : list (string * json))
            : Forall (fun kv => P (snd kv)) l :=
            match l with
            | [] => @List.Forall_nil _ _
            | kv :: r =>
                @List.Forall_cons _ (fun kv => P (snd kv)) kv r
                  (match kv as p return P (snd p) with
                   | (_, v) =>
                       json_induction P Hnull Hbool Hint Hfloat Hstr Harr
                                      Hobj v
                   end)
                  (all r)
            end) fields)
  end.

Lemma has_newline_escape_char (c : ascii) :
  has_newline (escape_char c) = false.
Proof. destruct c as [[] [] [] [] [] [] [] []]; reflexivity. Qed.

Lemma has_newline_escape (s : string) : has_newline (escape s) = false.
Proof.
  induction s as [|c s IH]; [reflexivity|].
  change (escape (String c s)) with (escape_char c ++ escape s).
  now rewrite has_newline_app, has_newline_escape_char.
Qed.

Lemma has_newline_quote (s : string) : has_newline (quote s) = false.
Proof.
  unfold quote.
  change (has_newline (escape s ++ String dquote EmptyString) = false).
  now rewrite has_newline_app, has_newline_escape.
Qed.

Lemma has_newline_zeros (n : nat) : has_newline (zeros n) = false.
Proof. induction n as [|n IH]; [reflexivity|exact IH]. Qed.

Lemma has_newline_substring (s : string) :
  has_newline s = false ->
  forall n m, has_newline (substring n m s) = false.
Proof.
  induction s as [|c s IH]; intros H n m.
  - destruct n, m; reflexivity.
  - simpl in H. apply orb_false_iff in H as [Hc Hs].
    destruct n as [|n]; [destruct m as [|m]|]; simpl.
    + reflexivity.
    + now rewrite Hc, (IH Hs).
    + now apply IH.
Qed.

Lemma has_newline_float_repr (f : pyfloat) :
  has_newline (float_repr f) = false.
Proof.
  unfold float_repr, split_at_end. cbv zeta.
  set (padded := zeros _ ++ _).
  assert (Hp : has_newline padded = false).
  { unfold padded.
    now rewrite has_newline_app, has_newline_zeros, has_newline_str_of_int. }
  rewrite !has_newline_app, !(has_newline_substring padded Hp).
  destruct (mantissa f <? 0); destruct (is_empty _);
    rewrite ?(has_newline_substring padded Hp); reflexivity.
Qed.

Lemma has_newline_join (parts : list string) :
  Forall (fun x => has_newline x = false) parts ->
  has_newline (join ", " parts) = false.
Proof.
  induction 1 as [|x rest Hx Hrest IH]; [reflexivity|].
  destruct rest as [|y rest]; [exact Hx|].
  change (join ", " (x :: y :: rest))
    with (x ++ ", " ++ join ", " (y :: rest)).
  now rewrite !has_newline_app, Hx, IH.
Qed.

(** [json.dumps] without [indent] writes its text on one line: a newline
    inside a string is written as an escape. *)
Lemma dumps_no_newline (obj : json) : has_newline (dumps obj) = false.
Proof.
  induction obj as [|b|n|f|s|items IH|fields IH] using json_induction.
  - reflexivity.
  - now destruct b.
  - apply has_newline_str_of_int.
  - apply has_newline_float_repr.
  - apply has_newline_quote.
  - change (dumps (JArr items))
      with ("[" ++ join ", " (map dumps items) ++ "]").
    rewrite !has_newline_app, has_newline_join; [reflexivity|].
    induction IH as [|x rest Hx _ IHrest]; constructor; assumption.
  - change (dumps (JObj fields))
      with ("{" ++ join ", "
                     (map (fun kv => quote (fst kv) ++ ": " ++ dumps (snd kv))
                          fields)
            ++ "}").
    rewrite !has_newline_app, has_newline_join; [reflexivity|].
    induction IH as [|kv rest Hkv _ IHrest]; constructor; [|assumption].
    now rewrite !has_newline_app, has_newline_quote, Hkv.
Qed.

Lemma exn_str_no_newline (e : exn) : has_newline (exn_str e) = false.
Proof.
  destruct e as [errno filename|text|key|culprit|culprit|];
    try reflexivity.
  - unfold exn_str.
    assert (Hs : has_newline (strerror errno) = false).
    { unfold strerror.
      repeat match goal with
             | |- context [if ?b then _ else _] => destruct b
             end; reflexivity. }
    now rewrite !has_newline_app, has_newline_str_of_int, Hs,
      has_newline_escape.
  - unfold exn_str. now rewrite !has_newline_app, has_newline_escape.
Qed.


(** The Loader given an input path of two lines, the second of them
    [LOAD_RESULT: {}], and the bare output name [out.json]: the run exits
    with code 1, and the second of the three lines on its standard output
    is a result line. *)
Lemma failing_run_writes_a_result_line :
  let input_file := "in.csv" ++ String "010"%char "LOAD_RESULT: {}" in
  let r := run Loader ["load_data.py"; input_file; "out.json"] w_tmp in
  fst r = 1
  /\ stdout (snd r)
     = ["Loading data from: " ++ input_file;
        "Error loading data: [Errno 2] No such file or directory: ''"]
  /\ lines (stdout_text (stdout (snd r)))
     = ["Loading data from: in.csv";
        "LOAD_RESULT: {}";
        "Error loading data: [Errno 2] No such file or directory: ''"]
  /\ is_result_line "LOAD_RESULT: {}" = true
  /\ starts_with "LOAD_RESULT: " "LOAD_RESULT: {}" = true.
Proof. repeat split; vm_compute; reflexivity. Qed.

Lemma stdout_contract_witness :
  has_newline "in.csv" = false
  /\ has_newline "/tmp/out.json" = false
  /\ (forall obj, has_newline (dumps obj) = false)
  /\ (forall e, has_newline (exn_str e) = false)
  /\ exists printed,
       stdout (snd (run Loader ["load_data.py"; "in.csv"; "/tmp/out.json"]
                        w_tmp))
       = (stdout w_tmp ++ printed)%list
       /\ ((fst (run Loader ["load_data.py"; "in.csv"; "/tmp/out.json"]
                     w_tmp) = 0
            /\ exists progress fields,
                 lines (stdout_text printed)
                 = (progress
                    ++ [("LOAD_RESULT: " ++ dumps (JObj fields))%string])%list
                 /\ Forall (fun l => is_result_line l = false) progress)
           \/ (fst (run Loader ["load_data.py"; "in.csv"; "/tmp/out.json"]
                        w_tmp) = 1
               /\ exists progress e,
                    lines (stdout_text printed)
                    = (progress
                       ++ [("Error loading data: " ++ exn_str e)%string])%list
                    /\ Forall (fun l => is_result_line l = false)
                              (lines (stdout_text printed)))).
Proof.
  assert (H1 : has_newline "in.csv" = false) by reflexivity.
  assert (H2 : has_newline "/tmp/out.json" = false) by reflexivity.
  split; [exact H1|]. split; [exact H2|].
  split; [exact dumps_no_newline|]. split; [exact exn_str_no_newline|].
  pose proof (stdout_contract
                now_iso ascii_upper dumps dump_indent2 loads exn_str repr
                4096 Loader "load_data.py" "in.csv" "/tmp/out.json" w_tmp
                H1 H2 dumps_no_newline exn_str_no_newline) as T.
  cbv beta iota zeta in T. exact T.
Defined.

Lemma wrong_arity_witness :
  length ["load_data.py"; "in.csv"] <> 3%nat
  /\ fst (run Loader ["load_data.py"; "in.csv"] w_tmp) = 1.
Proof.
  assert (H : length ["load_data.py"; "in.csv"] <> 3%nat) by (simpl; lia).
  split; [exact H|].
  rewrite (proj1 (wrong_arity_prints_usage_and_exits_1
                    now_iso ascii_upper dumps dump_indent2 loads exn_str
                    repr 4096 Loader _ w_tmp H)).
  reflexivity.
Defined.


Lemma bare_output_name_witness :
  has_slash "out.json" = false
  /\ fst (run Loader ["load_data.py"; "in.csv"; "out.json"] w_tmp) = 1.
Proof.
  assert (H : has_slash "out.json" = false) by reflexivity.
  split; [exact H|].
  destruct (bare_output_name_exits_1
              now_iso ascii_upper dumps dump_indent2 loads exn_str repr 4096
              Loader "load_data.py" "in.csv" "out.json" w_tmp H)
    as (e & t & E & _).
  rewrite E. reflexivity.
Defined.




Lemma report_size_witness :
  read_file (fs w_ab) "/tmp/a.txt" = inr "hello"
  /\ path_isdir (fs w_ab) (dirname "/tmp/report.json") = true
  /\ path_isdir (fs w_ab) "/tmp/report.json" = false
  /\ field "report_size_bytes"
       (analysis_report now_iso "/tmp/a.txt"
          (Z.of_nat (String.length "hello")) (ticks w_ab))
     = Some (JInt (Z.of_nat (String.length "hello")))
  /\ exists result w',
       analyze_results now_iso dump_indent2 repr 4096
         "/tmp/a.txt" "/tmp/report.json" w_ab
       = (Returned result, w').
Proof.
  assert (H1 : read_file (fs w_ab) "/tmp/a.txt" = inr "hello")
    by (vm_compute; reflexivity).
  assert (H2 : path_isdir (fs w_ab) (dirname "/tmp/report.json") = true)
    by (vm_compute; reflexivity).
  assert (H3 : path_isdir (fs w_ab) "/tmp/report.json" = false)
    by (vm_compute; reflexivity).
  split; [exact H1|]. split; [exact H2|]. split; [exact H3|].
  pose proof (report_size_is_input_length now_iso dump_indent2 repr 4096
                "/tmp/a.txt" "/tmp/report.json" "hello" w_ab H1) as T.
  cbv zeta in T. destruct T as (Hbytes & _ & _ & Hok).
  split; [exact Hbytes|exact (Hok H2 H3)].
Defined.

Lemma small_records_are_records : Forall is_loaded_record small_records.
Proof.
  repeat constructor; eexists _, _, _; repeat split.
Defined.

Lemma transformer_witness :
  read_file (fs w_in) "/tmp/in.json" = inr (dump_indent2 small_dataset)
  /\ loads (dump_indent2 small_dataset) = Some small_dataset
  /\ field "data" small_dataset = Some (JArr small_records)
  /\ Forall is_loaded_record small_records
  /\ field "records_count" small_dataset = Some (JInt 2)
  /\ exists processed_records processed_data,
       Forall2 (corresponds ascii_upper) small_records processed_records
       /\ field "processed_records_count" processed_data
          = Some (JInt (len small_records)).
Proof.
  assert (H1 : read_file (fs w_in) "/tmp/in.json"
               = inr (dump_indent2 small_dataset))
    by (vm_compute; reflexivity).
  assert (H2 : loads (dump_indent2 small_dataset) = Some small_dataset)
    by (vm_compute; reflexivity).
  assert (H3 : field "data" small_dataset = Some (JArr small_records))
    by reflexivity.
  assert (H5 : field "records_count" small_dataset = Some (JInt 2))
    by reflexivity.
  split; [exact H1|]. split; [exact H2|]. split; [exact H3|].
  split; [exact small_records_are_records|]. split; [exact H5|].
  destruct (transformer_uppercases_every_record
              now_iso ascii_upper dump_indent2 loads
              "/tmp/in.json" "/tmp/out.json" _ _ _ _ w_in
              H1 H2 H3 small_records_are_records H5)
    as (out & pdata & Hall & _ & Hcount & _).
  exists out, pdata. split; assumption.
Defined.

Lemma analyzer_reports_witness :
  read_file (fs w_ab) "/tmp/a.txt" = inr "hello"
  /\ read_file (fs w_ab) "/tmp/b.txt" = inr "world"
  /\ String.length "hello" = String.length "world"
  /\ exists report1 report2,
       forall key, key <> "analysis_timestamp" -> key <> "report_file" ->
                   field key report1 = field key report2.
Proof.
  assert (H1 : read_file (fs w_ab) "/tmp/a.txt" = inr "hello")
    by (vm_compute; reflexivity).
  assert (H2 : read_file (fs w_ab) "/tmp/b.txt" = inr "world")
    by (vm_compute; reflexivity).
  assert (H3 : String.length "hello" = String.length "world")
    by reflexivity.
  split; [exact H1|]. split; [exact H2|]. split; [exact H3|].
  destruct (analyzer_reports_differ_only_in_timestamp_and_path
              now_iso dump_indent2 repr 4096
              "/tmp/a.txt" "/tmp/r1.json" "hello"
              "/tmp/b.txt" "/tmp/r2.json" "world" w_ab w_ab H1 H2 H3)
    as (r1 & r2 & Hsame & _).
  exists r1, r2. exact Hsame.
Defined.

(** C8 as stated fails.  The two input files have the same length and
    different texts; both runs start from the same world and exit with
    code 0; the reports they write differ in [report_file], a field other
    than [analysis_timestamp]. *)
Lemma analyzer_reports_disagree_on_report_file :
  getsize 4096 (fs w_ab) "/tmp/a.txt" = inr 5
  /\ getsize 4096 (fs w_ab) "/tmp/b.txt" = inr 5
  /\ read_file (fs w_ab) "/tmp/a.txt" <> read_file (fs w_ab) "/tmp/b.txt"
  /\ fst (analyze ["analyze_results.py"; "/tmp/a.txt"; "/tmp/r1.json"] w_ab)
     = 0
  /\ fst (analyze ["analyze_results.py"; "/tmp/b.txt"; "/tmp/r2.json"] w_ab)
     = 0
  /\ option_bind _ _ (field "report_file")
       (report_at
          (snd (analyze ["analyze_results.py"; "/tmp/a.txt"; "/tmp/r1.json"]
                        w_ab))
          "/tmp/r1.json")
     = Some (JStr "/tmp/a.txt")
  /\ option_bind _ _ (field "report_file")
       (report_at
          (snd (analyze ["analyze_results.py"; "/tmp/b.txt"; "/tmp/r2.json"]
                        w_ab))
          "/tmp/r2.json")
     = Some (JStr "/tmp/b.txt")
  /\ Some (JStr "/tmp/a.txt") <> Some (JStr "/tmp/b.txt").
Proof.
  repeat split; try (vm_compute; reflexivity); vm_compute; discriminate.
Qed.

Lemma pipeline_witness :
  path_isdir (fs w_tmp) "/tmp" = true
  /\ plain_name "a.json" = true
  /\ plain_name "b.json" = true
  /\ plain_name "c.json" = true
  /\ "a.json" <> "b.json" /\ "a.json" <> "c.json" /\ "b.json" <> "c.json"
  /\ path_isdir (fs w_tmp) ("/tmp" ++ "/" ++ "a.json") = false
  /\ path_isdir (fs w_tmp) ("/tmp" ++ "/" ++ "b.json") = false
  /\ path_isdir (fs w_tmp) ("/tmp" ++ "/" ++ "c.json") = false
  /\ loads (dump_indent2 (loaded_dataset now_iso "in.csv" (ticks w_tmp)))
     = Some (loaded_dataset now_iso "in.csv" (ticks w_tmp))
  /\ (forall obj, has_newline (dumps obj) = false)
  /\ fst (analyze
            ["stage.py"; "/tmp" ++ "/" ++ "b.json"; "/tmp" ++ "/" ++ "c.json"]
            (snd (process
                    ["stage.py"; "/tmp" ++ "/" ++ "a.json";
                     "/tmp" ++ "/" ++ "b.json"]
                    (snd (load ["stage.py"; "in.csv";
                                "/tmp" ++ "/" ++ "a.json"] w_tmp)))))
     = 0.
Proof.
  assert (H0 : path_isdir (fs w_tmp) "/tmp" = true)
    by (vm_compute; reflexivity).
  assert (Ha : plain_name "a.json" = true) by (vm_compute; reflexivity).
  assert (Hb : plain_name "b.json" = true) by (vm_compute; reflexivity).
  assert (Hc : plain_name "c.json" = true) by (vm_compute; reflexivity).
  assert (Hab : "a.json" <> "b.json") by discriminate.
  assert (Hac : "a.json" <> "c.json") by discriminate.
  assert (Hbc : "b.json" <> "c.json") by discriminate.
  assert (Hpa : path_isdir (fs w_tmp) ("/tmp" ++ "/" ++ "a.json") = false)
    by (vm_compute; reflexivity).
  assert (Hpb : path_isdir (fs w_tmp) ("/tmp" ++ "/" ++ "b.json") = false)
    by (vm_compute; reflexivity).
  assert (Hpc : path_isdir (fs w_tmp) ("/tmp" ++ "/" ++ "c.json") = false)
    by (vm_compute; reflexivity).
  assert (Hcodec :
            loads (dump_indent2
                     (loaded_dataset now_iso "in.csv" (ticks w_tmp)))
            = Some (loaded_dataset now_iso "in.csv" (ticks w_tmp)))
    by (vm_compute; reflexivity).
  repeat (split; [assumption|]).
  split; [exact dumps_no_newline|].
  pose proof (pipeline_end_to_end
                now_iso ascii_upper dumps dump_indent2 loads exn_str repr
                4096 "stage.py" "in.csv" "/tmp" "a.json" "b.json" "c.json"
                w_tmp H0 Ha Hb Hc Hab Hac Hbc Hpa Hpb Hpc Hcodec
                dumps_no_newline) as T.
  cbv zeta in T. destruct T as (_ & _ & T3 & _). exact T3.
Defined.

(** ** More runs on the reference platform *)

Module MoreExamples.

Import Reference.

(** [/tmp] holding the one file [/tmp/in.json]. *)
Definition fs_with (text : string) : filesystem :=
  Filesystem (<[ ["tmp"; "in.json"] := IFile text ]> {[ ["tmp"] := IDir ]})
             [].

Definition w_with (text : string) : world := World (fs_with text) 0 [].

Definition good_record : json :=
  JObj [("id", JInt 1); ("value", JStr "ab"); ("timestamp", JStr "t1")].

Definition record_without_value : json :=
  JObj [("id", JInt 2); ("timestamp", JStr "t2")].

Definition record_with_number : json :=
  JObj [("id", JInt 2); ("value", JInt 7); ("timestamp", JStr "t2")].

Definition doc_without_value : json :=
  JObj [("records_count", JInt 3);
        ("data", JArr [good_record; record_without_value; good_record])].

Definition doc_with_number : json :=
  JObj [("records_count", JInt 2);
        ("data", JArr [good_record; record_with_number])].

Definition doc_without_count : json :=
  JObj [("data", JArr [good_record])].

Definition doc_empty_string : json :=
  JObj [("records_count", JInt 0); ("data", JStr EmptyString)].

Definition processed_doc : json :=
  processed_dataset "in.json" "t9" (JInt 1)
    [processed_record ascii_upper "t8" good_record].

End MoreExamples.

Import MoreExamples.

Lemma good_records_are_records : Forall is_loaded_record [good_record].
Proof. repeat constructor; eexists _, _, _; repeat split. Defined.

Lemma transformer_unreadable_input_witness :
  read_file (fs w_tmp) "/tmp/missing.json" = inl ENOENT
  /\ fst (process ["process_data.py"; "/tmp/missing.json"; "/tmp/out.json"]
                  w_tmp) = 1.
Proof.
  assert (H : read_file (fs w_tmp) "/tmp/missing.json" = inl ENOENT)
    by (vm_compute; reflexivity).
  split; [exact H|].
  rewrite (transformer_unreadable_input
             now_iso ascii_upper dumps dump_indent2 loads exn_str
             "process_data.py" "/tmp/missing.json" "/tmp/out.json" ENOENT
             w_tmp H).
  reflexivity.
Defined.

Lemma analyzer_missing_input_witness :
  stat (fs w_tmp) "/tmp/missing.json" = inl ENOENT
  /\ fst (analyze ["analyze_results.py"; "/tmp/missing.json";
                   "/tmp/out.json"] w_tmp) = 1.
Proof.
  assert (H : stat (fs w_tmp) "/tmp/missing.json" = inl ENOENT)
    by (vm_compute; reflexivity).
  split; [exact H|].
  rewrite (analyzer_missing_input
             now_iso dumps dump_indent2 exn_str repr 4096
             "analyze_results.py" "/tmp/missing.json" "/tmp/out.json"
             ENOENT w_tmp H).
  reflexivity.
Defined.

Lemma analyzer_accepts_a_directory_witness :
  path_isdir (fs w_tmp) "/tmp" = true
  /\ path_isdir (fs w_tmp) (dirname "/tmp/report.json") = true
  /\ path_isdir (fs w_tmp) "/tmp/report.json" = false
  /\ field "report_size_bytes" (analysis_report now_iso "/tmp" 4096
                                               (ticks w_tmp))
     = Some (JInt 4096).
Proof.
  assert (H1 : path_isdir (fs w_tmp) "/tmp" = true)
    by (vm_compute; reflexivity).
  assert (H2 : path_isdir (fs w_tmp) (dirname "/tmp/report.json") = true)
    by (vm_compute; reflexivity).
  assert (H3 : path_isdir (fs w_tmp) "/tmp/report.json" = false)
    by (vm_compute; reflexivity).
  split; [exact H1|]. split; [exact H2|]. split; [exact H3|].
  destruct (analyzer_accepts_a_directory now_iso dump_indent2 repr 4096
              "/tmp" "/tmp/report.json" w_tmp H1 H2 H3)
    as (fs' & _ & _ & Hsize).
  exact Hsize.
Defined.

Lemma transformer_record_without_value_witness :
  read_file (fs (w_with (dump_indent2 doc_without_value))) "/tmp/in.json"
  = inr (dump_indent2 doc_without_value)
  /\ loads (dump_indent2 doc_without_value) = Some doc_without_value
  /\ field "data" doc_without_value
     = Some (JArr ([good_record] ++ record_without_value :: [good_record]))
  /\ Forall is_loaded_record [good_record]
  /\ field "id" record_without_value = Some (JInt 2)
  /\ field "value" record_without_value = None
  /\ fst (process ["process_data.py"; "/tmp/in.json"; "/tmp/out.json"]
                  (w_with (dump_indent2 doc_without_value))) = 1.
Proof.
  assert (H1 : read_file (fs (w_with (dump_indent2 doc_without_value)))
                         "/tmp/in.json"
               = inr (dump_indent2 doc_without_value))
    by (vm_compute; reflexivity).
  assert (H2 : loads (dump_indent2 doc_without_value)
               = Some doc_without_value) by (vm_compute; reflexivity).
  assert (H3 : field "data" doc_without_value
               = Some (JArr ([good_record]
                             ++ record_without_value :: [good_record])))
    by reflexivity.
  assert (H5 : field "id" record_without_value = Some (JInt 2))
    by reflexivity.
  assert (H6 : field "value" record_without_value = None) by reflexivity.
  repeat (split; [first [assumption|exact good_records_are_records]|]).
  destruct (transformer_record_without_value
              now_iso ascii_upper dumps dump_indent2 loads exn_str
              "process_data.py" "/tmp/in.json" "/tmp/out.json" _ _ _ _ _ _
              (w_with (dump_indent2 doc_without_value))
              H1 H2 H3 good_records_are_records H5 H6) as [t E].
  rewrite E. reflexivity.
Defined.

Lemma transformer_value_not_a_string_witness :
  read_file (fs (w_with (dump_indent2 doc_with_number))) "/tmp/in.json"
  = inr (dump_indent2 doc_with_number)
  /\ loads (dump_indent2 doc_with_number) = Some doc_with_number
  /\ field "data" doc_with_number
     = Some (JArr ([good_record] ++ record_with_number :: []))
  /\ Forall is_loaded_record [good_record]
  /\ field "id" record_with_number = Some (JInt 2)
  /\ field "value" record_with_number = Some (JInt 7)
  /\ is_str (JInt 7) = false
  /\ fst (process ["process_data.py"; "/tmp/in.json"; "/tmp/out.json"]
                  (w_with (dump_indent2 doc_with_number))) = 1.
Proof.
  assert (H1 : read_file (fs (w_with (dump_indent2 doc_with_number)))
                         "/tmp/in.json"
               = inr (dump_indent2 doc_with_number))
    by (vm_compute; reflexivity).
  assert (H2 : loads (dump_indent2 doc_with_number) = Some doc_with_number)
    by (vm_compute; reflexivity).
  assert (H3 : field "data" doc_with_number
               = Some (JArr ([good_record] ++ record_with_number :: [])))
    by reflexivity.
  assert (H5 : field "id" record_with_number = Some (JInt 2))
    by reflexivity.
  assert (H6 : field "value" record_with_number = Some (JInt 7))
    by reflexivity.
  assert (H7 : is_str (JInt 7) = false) by reflexivity.
  repeat (split; [first [assumption|exact good_records_are_records]|]).
  destruct (transformer_value_not_a_string
              now_iso ascii_upper dumps dump_indent2 loads exn_str
              "process_data.py" "/tmp/in.json" "/tmp/out.json" _ _ _ _ _ _ _
              (w_with (dump_indent2 doc_with_number))
              H1 H2 H3 good_records_are_records H5 H6 H7) as [t E].
  rewrite E. reflexivity.
Defined.

Lemma transformer_document_without_data_witness :
  read_file (fs (w_with "[1, 2]")) "/tmp/in.json" = inr "[1, 2]"
  /\ loads "[1, 2]" = Some (JArr [JInt 1; JInt 2])
  /\ field "data" (JArr [JInt 1; JInt 2]) = None
  /\ fst (process ["process_data.py"; "/tmp/in.json"; "/tmp/out.json"]
                  (w_with "[1, 2]")) = 1.
Proof.
  assert (H1 : read_file (fs (w_with "[1, 2]")) "/tmp/in.json"
               = inr "[1, 2]") by (vm_compute; reflexivity).
  assert (H2 : loads "[1, 2]" = Some (JArr [JInt 1; JInt 2]))
    by (vm_compute; reflexivity).
  assert (H3 : field "data" (JArr [JInt 1; JInt 2]) = None)
    by reflexivity.
  repeat (split; [assumption|]).
  rewrite (transformer_document_without_data
             now_iso ascii_upper dumps dump_indent2 loads exn_str
             "process_data.py" "/tmp/in.json" "/tmp/out.json" _ _
             (w_with "[1, 2]") H1 H2 H3).
  reflexivity.
Defined.

Lemma transformer_document_without_records_count_witness :
  read_file (fs (w_with (dump_indent2 doc_without_count))) "/tmp/in.json"
  = inr (dump_indent2 doc_without_count)
  /\ loads (dump_indent2 doc_without_count) = Some doc_without_count
  /\ field "data" doc_without_count = Some (JArr [good_record])
  /\ Forall is_loaded_record [good_record]
  /\ field "records_count" doc_without_count = None
  /\ fst (process ["process_data.py"; "/tmp/in.json"; "/tmp/out.json"]
                  (w_with (dump_indent2 doc_without_count))) = 1.
Proof.
  assert (H1 : read_file (fs (w_with (dump_indent2 doc_without_count)))
                         "/tmp/in.json"
               = inr (dump_indent2 doc_without_count))
    by (vm_compute; reflexivity).
  assert (H2 : loads (dump_indent2 doc_without_count)
               = Some doc_without_count) by (vm_compute; reflexivity).
  assert (H3 : field "data" doc_without_count = Some (JArr [good_record]))
    by reflexivity.
  assert (H5 : field "records_count" doc_without_count = None)
    by reflexivity.
  repeat (split; [first [assumption|exact good_records_are_records]|]).
  rewrite (transformer_document_without_records_count
             now_iso ascii_upper dumps dump_indent2 loads exn_str
             "process_data.py" "/tmp/in.json" "/tmp/out.json" _ _ _
             (w_with (dump_indent2 doc_without_count))
             H1 H2 H3 good_records_are_records H5).
  reflexivity.
Defined.

Lemma transformer_result_counts_witness :
  process ["process_data.py"; "/tmp/in.json"; "/tmp/out.json"] w_in
  = (0, snd (process ["process_data.py"; "/tmp/in.json"; "/tmp/out.json"]
                     w_in))
  /\ exists (result : json) (out : list json),
       field "records_processed" result = Some (JInt (len out)).
Proof.
  assert (H : process ["process_data.py"; "/tmp/in.json"; "/tmp/out.json"]
                      w_in
              = (0, snd (process ["process_data.py"; "/tmp/in.json";
                                  "/tmp/out.json"] w_in)))
    by (vm_compute; reflexivity).
  split; [exact H|].
  destruct (transformer_result_counts_what_was_written
              now_iso ascii_upper dumps dump_indent2 loads exn_str
              "process_data.py" "/tmp/in.json" "/tmp/out.json" w_in _ H)
    as (progress & result & pd & out & _ & _ & _ & _ & Hres).
  exists result, out. exact Hres.
Defined.

Lemma transformer_output_exactly_witness :
  read_file (fs w_in) "/tmp/in.json" = inr (dump_indent2 small_dataset)
  /\ loads (dump_indent2 small_dataset) = Some small_dataset
  /\ field "data" small_dataset = Some (JArr small_records)
  /\ Forall is_loaded_record small_records
  /\ field "records_count" small_dataset = Some (JInt 2)
  /\ path_isdir (fs w_in) (dirname "/tmp/out.json") = true
  /\ path_isdir (fs w_in) "/tmp/out.json" = false
  /\ length (processed_records now_iso ascii_upper (ticks w_in)
                               small_records)
     = length small_records.
Proof.
  assert (H1 : read_file (fs w_in) "/tmp/in.json"
               = inr (dump_indent2 small_dataset))
    by (vm_compute; reflexivity).
  assert (H2 : loads (dump_indent2 small_dataset) = Some small_dataset)
    by (vm_compute; reflexivity).
  assert (H3 : field "data" small_dataset = Some (JArr small_records))
    by reflexivity.
  assert (H5 : field "records_count" small_dataset = Some (JInt 2))
    by reflexivity.
  assert (H6 : path_isdir (fs w_in) (dirname "/tmp/out.json") = true)
    by (vm_compute; reflexivity).
  assert (H7 : path_isdir (fs w_in) "/tmp/out.json" = false)
    by (vm_compute; reflexivity).
  repeat (split; [first [assumption|exact small_records_are_records]|]).
  pose proof (transformer_output_exactly
                now_iso ascii_upper dump_indent2 loads
                "/tmp/in.json" "/tmp/out.json" _ _ _ _ w_in
                H1 H2 H3 small_records_are_records H5 H6 H7) as T.
  cbv zeta in T. destruct T as (fs' & _ & _ & _ & Hlen). exact Hlen.
Defined.

Lemma transformer_empty_data_witness :
  read_file (fs (w_with (dump_indent2 doc_empty_string))) "/tmp/in.json"
  = inr (dump_indent2 doc_empty_string)
  /\ loads (dump_indent2 doc_empty_string) = Some doc_empty_string
  /\ field "data" doc_empty_string = Some (JStr EmptyString)
  /\ is_empty_iterable (JStr EmptyString) = true
  /\ field "records_count" doc_empty_string = Some (JInt 0)
  /\ path_isdir (fs (w_with (dump_indent2 doc_empty_string)))
                (dirname "/tmp/out.json") = true
  /\ path_isdir (fs (w_with (dump_indent2 doc_empty_string)))
                "/tmp/out.json" = false
  /\ field "records_processed" (process_result "/tmp/out.json" [])
     = Some (JInt 0).
Proof.
  assert (H1 : read_file (fs (w_with (dump_indent2 doc_empty_string)))
                         "/tmp/in.json"
               = inr (dump_indent2 doc_empty_string))
    by (vm_compute; reflexivity).
  assert (H2 : loads (dump_indent2 doc_empty_string)
               = Some doc_empty_string) by (vm_compute; reflexivity).
  assert (H3 : field "data" doc_empty_string = Some (JStr EmptyString))
    by reflexivity.
  assert (H4 : is_empty_iterable (JStr EmptyString) = true)
    by reflexivity.
  assert (H5 : field "records_count" doc_empty_string = Some (JInt 0))
    by reflexivity.
  assert (H6 : path_isdir (fs (w_with (dump_indent2 doc_empty_string)))
                          (dirname "/tmp/out.json") = true)
    by (vm_compute; reflexivity).
  assert (H7 : path_isdir (fs (w_with (dump_indent2 doc_empty_string)))
                          "/tmp/out.json" = false)
    by (vm_compute; reflexivity).
  repeat (split; [assumption|]).
  destruct (transformer_empty_data
              now_iso ascii_upper dump_indent2 loads
              "/tmp/in.json" "/tmp/out.json" _ _ _ _
              (w_with (dump_indent2 doc_empty_string))
              H1 H2 H3 H4 H5 H6 H7) as (fs' & _ & _ & Hres).
  exact Hres.
Defined.

Lemma output_path_is_a_directory_witness :
  path_isdir (fs w_tmp) "/tmp" = true
  /\ has_slash "/tmp" = true
  /\ fst (run Loader ["load_data.py"; "in.csv"; "/tmp"] w_tmp) = 1.
Proof.
  assert (H1 : path_isdir (fs w_tmp) "/tmp" = true)
    by (vm_compute; reflexivity).
  assert (H2 : has_slash "/tmp" = true) by reflexivity.
  repeat (split; [assumption|]).
  destruct (output_path_is_a_directory
              now_iso ascii_upper dumps dump_indent2 loads exn_str repr 4096
              Loader "load_data.py" "in.csv" "/tmp" w_tmp H1 H2)
    as (e & t & E & _).
  rewrite E. reflexivity.
Defined.

Lemma loader_output_directory_is_a_file_witness :
  is_file (fs w_ab) (dirname "/tmp/a.txt/out.json") = true
  /\ fst (load ["load_data.py"; "in.csv"; "/tmp/a.txt/out.json"] w_ab) = 1.
Proof.
  assert (H : is_file (fs w_ab) (dirname "/tmp/a.txt/out.json") = true)
    by (vm_compute; reflexivity).
  split; [exact H|].
  rewrite (loader_output_directory_is_a_file
             now_iso dumps dump_indent2 exn_str repr
             "load_data.py" "in.csv" "/tmp/a.txt/out.json" w_ab H).
  reflexivity.
Defined.

Lemma stage_changes_only_its_output_witness :
  path_isdir (fs w_ab) (dirname "/tmp/out.json") = true
  /\ resolve (fs w_ab) "/tmp/a.txt" = inr ["tmp"; "a.txt"]
  /\ resolve (fs w_ab) "/tmp/out.json" <> inr ["tmp"; "a.txt"]
  /\ stat (fs (snd (run Transformer
                        ["process_data.py"; "/tmp/a.txt"; "/tmp/out.json"]
                        w_ab))) "/tmp/a.txt"
     = stat (fs w_ab) "/tmp/a.txt".
Proof.
  assert (H1 : path_isdir (fs w_ab) (dirname "/tmp/out.json") = true)
    by (vm_compute; reflexivity).
  assert (H2 : resolve (fs w_ab) "/tmp/a.txt" = inr ["tmp"; "a.txt"])
    by (vm_compute; reflexivity).
  assert (H3 : resolve (fs w_ab) "/tmp/out.json" <> inr ["tmp"; "a.txt"])
    by (vm_compute; discriminate).
  repeat (split; [assumption|]).
  exact (stage_changes_only_its_output
           now_iso ascii_upper dumps dump_indent2 loads exn_str repr 4096
           Transformer "process_data.py" "/tmp/a.txt" "/tmp/out.json"
           "/tmp/a.txt" ["tmp"; "a.txt"] w_ab H1 H2 H3).
Defined.

Lemma transformer_rejects_processed_dataset_witness :
  read_file (fs (w_with (dump_indent2 processed_doc))) "/tmp/in.json"
  = inr (dump_indent2 processed_doc)
  /\ loads (dump_indent2 processed_doc)
     = Some (processed_dataset "in.json" "t9" (JInt 1)
               (processed_record ascii_upper "t8" good_record :: []))
  /\ fst (process ["process_data.py"; "/tmp/in.json"; "/tmp/out.json"]
                  (w_with (dump_indent2 processed_doc))) = 1.
Proof.
  assert (H1 : read_file (fs (w_with (dump_indent2 processed_doc)))
                         "/tmp/in.json"
               = inr (dump_indent2 processed_doc))
    by (vm_compute; reflexivity).
  assert (H2 : loads (dump_indent2 processed_doc)
               = Some (processed_dataset "in.json" "t9" (JInt 1)
                         (processed_record ascii_upper "t8" good_record
                          :: [])))
    by (vm_compute; reflexivity).
  repeat (split; [assumption|]).
  destruct (transformer_rejects_processed_dataset
              now_iso ascii_upper dumps dump_indent2 loads exn_str
              "process_data.py" "/tmp/in.json" "/tmp/out.json" _
              "in.json" "t8" "t9" (JInt 1) good_record []
              (w_with (dump_indent2 processed_doc)) H1 H2) as [t E].
  rewrite E. reflexivity.
Defined.

Lemma transformer_on_loader_output_witness :
  read_file
    (fs (w_with (dump_indent2 (loaded_dataset now_iso "in.csv" 0))))
    "/tmp/in.json"
  = inr (dump_indent2 (loaded_dataset now_iso "in.csv" 0))
  /\ loads (dump_indent2 (loaded_dataset now_iso "in.csv" 0))
     = Some (loaded_dataset now_iso "in.csv" 0)
  /\ path_isdir
       (fs (w_with (dump_indent2 (loaded_dataset now_iso "in.csv" 0))))
       (dirname "/tmp/out.json") = true
  /\ path_isdir
       (fs (w_with (dump_indent2 (loaded_dataset now_iso "in.csv" 0))))
       "/tmp/out.json" = false
  /\ exists processed_data,
       field "original_records_count" processed_data = Some (JInt 1000)
       /\ field "processed_records_count" processed_data
          = Some (JInt 100).
Proof.
  assert (H1 : read_file
                 (fs (w_with (dump_indent2
                                (loaded_dataset now_iso "in.csv" 0))))
                 "/tmp/in.json"
               = inr (dump_indent2 (loaded_dataset now_iso "in.csv" 0)))
    by (vm_compute; reflexivity).
  assert (H2 : loads (dump_indent2 (loaded_dataset now_iso "in.csv" 0))
               = Some (loaded_dataset now_iso "in.csv" 0))
    by (vm_compute; reflexivity).
  assert (H3 : path_isdir
                 (fs (w_with (dump_indent2
                                (loaded_dataset now_iso "in.csv" 0))))
                 (dirname "/tmp/out.json") = true)
    by (vm_compute; reflexivity).
  assert (H4 : path_isdir
                 (fs (w_with (dump_indent2
                                (loaded_dataset now_iso "in.csv" 0))))
                 "/tmp/out.json" = false)
    by (vm_compute; reflexivity).
  repeat (split; [assumption|]).
  destruct (transformer_on_loader_output
              now_iso ascii_upper dump_indent2 loads
              "/tmp/in.json" "/tmp/out.json" "in.csv" 0%nat _ H1 H2 H3 H4)
    as (result & w' & pd & _ & _ & Ho & Hp & _).
  exists pd. split; assumption.
Defined.

Lemma report_size_kb_witness :
  0 <= 1536 < 2 ^ 53
  /\ exists f,
       field "report_size_kb" (analysis_report now_iso "in" 1536 0)
       = Some (JFloat f)
       /\ 2 * Z.abs (1024 * hundredths f - 100 * 1536) <= 1024.
Proof.
  assert (H : 0 <= 1536 < 2 ^ 53) by (split; [lia|reflexivity]).
  split; [exact H|].
  destruct (report_size_kb_is_nearest_hundredth now_iso "in" 1536 0 H)
    as (f & Hf & _ & Hnear & _).
  exists f. split; assumption.
Defined.

Lemma loader_rerun_witness :
  load ["load_data.py"; "in.csv"; "/tmp/a.json"] w_tmp
  = (0, snd (load ["load_data.py"; "in.csv"; "/tmp/a.json"] w_tmp))
  /\ exists w2,
       load ["load_data.py"; "other.csv"; "/tmp/a.json"]
            (snd (load ["load_data.py"; "in.csv"; "/tmp/a.json"] w_tmp))
       = (0, w2).
Proof.
  assert (H : load ["load_data.py"; "in.csv"; "/tmp/a.json"] w_tmp
              = (0, snd (load ["load_data.py"; "in.csv"; "/tmp/a.json"]
                              w_tmp)))
    by (vm_compute; reflexivity).
  split; [exact H|].
  destruct (loader_rerun_overwrites
              now_iso dumps dump_indent2 exn_str repr
              "load_data.py" "in.csv" "load_data.py" "other.csv"
              "/tmp/a.json" w_tmp _ H) as (w2 & E & _).
  exists w2. exact E.
Defined.

Lemma tmp_is_at_tmp : dir_at (fs w_tmp) "/tmp" ["tmp"].
Proof. split; vm_compute; reflexivity. Defined.

Lemma x_y_are_plain : Forall (fun x => plain_name x = true) ["x"; "y"].
Proof. repeat constructor. Defined.

Lemma x_y_are_missing :
  forall pre suf : list string,
    pre <> [] -> ["x"; "y"] = (pre ++ suf)%list ->
    node_at (fs w_tmp) (["tmp"] ++ pre)%list = None.
Proof.
  intros pre suf Hne E.
  destruct pre as [|a [|b [|c pre]]]; [contradiction| | |].
  - injection E as <- _. vm_compute. reflexivity.
  - injection E as <- <- _. vm_compute. reflexivity.
  - exfalso. injection E as _ _ E. destruct pre; discriminate E.
Defined.

Lemma loader_creates_missing_directories_witness :
  dir_at (fs w_tmp) "/tmp" ["tmp"]
  /\ Forall (fun x => plain_name x = true) ["x"; "y"]
  /\ ["x"; "y"] <> []
  /\ plain_name "out.json" = true
  /\ node_at (fs w_tmp) ((["tmp"] ++ ["x"; "y"]) ++ ["out.json"])%list
     <> Some IDir
  /\ fst (load ["load_data.py"; "in.csv";
                join_path "/tmp" ["x"; "y"] ++ "/" ++ "out.json"] w_tmp)
     = 0.
Proof.
  assert (H3 : ["x"; "y"] <> ([] : list string)) by discriminate.
  assert (H4 : plain_name "out.json" = true) by reflexivity.
  assert (H6 : node_at (fs w_tmp)
                 ((["tmp"] ++ ["x"; "y"]) ++ ["out.json"])%list
               <> Some IDir) by (vm_compute; discriminate).
  split; [exact tmp_is_at_tmp|]. split; [exact x_y_are_plain|].
  repeat (split; [assumption|]).
  pose proof (loader_creates_missing_directories
                now_iso dumps dump_indent2 exn_str repr
                "load_data.py" "in.csv" "/tmp" "out.json" ["tmp"]
                ["x"; "y"] w_tmp tmp_is_at_tmp x_y_are_plain H3 H4
                x_y_are_missing H6) as T.
  cbv zeta in T. destruct T as (T1 & _). exact T1.
Defined.

Lemma result_record_witness :
  run Transformer ["process_data.py"; "/tmp/in.json"; "/tmp/out.json"] w_in
  = (0, snd (run Transformer
                 ["process_data.py"; "/tmp/in.json"; "/tmp/out.json"] w_in))
  /\ is_file
       (fs (snd (run Transformer
                     ["process_data.py"; "/tmp/in.json"; "/tmp/out.json"]
                     w_in)))
       "/tmp/out.json" = true.
Proof.
  assert (H : run Transformer
                  ["process_data.py"; "/tmp/in.json"; "/tmp/out.json"] w_in
              = (0, snd (run Transformer
                             ["process_data.py"; "/tmp/in.json";
                              "/tmp/out.json"] w_in)))
    by (vm_compute; reflexivity).
  split; [exact H|].
  destruct (result_record_names_the_output
              now_iso ascii_upper dumps dump_indent2 loads exn_str repr 4096
              Transformer "process_data.py" "/tmp/in.json" "/tmp/out.json"
              w_in _ H) as (printed & result & _ & _ & _ & Hfile).
  exact Hfile.
Defined.

Lemma analyzer_result_witness :
  analyze ["analyze_results.py"; "/tmp/a.txt"; "/tmp/report.json"] w_ab
  = (0, snd (analyze ["analyze_results.py"; "/tmp/a.txt";
                      "/tmp/report.json"] w_ab))
  /\ exists (result : json) (recs : list json),
       field "recommendations_count" result = Some (JInt (len recs)).
Proof.
  assert (H : analyze ["analyze_results.py"; "/tmp/a.txt";
                       "/tmp/report.json"] w_ab
              = (0, snd (analyze ["analyze_results.py"; "/tmp/a.txt";
                                  "/tmp/report.json"] w_ab)))
    by (vm_compute; reflexivity).
  split; [exact H|].
  destruct (analyzer_result_agrees_with_report
              now_iso dumps dump_indent2 exn_str repr 4096
              "analyze_results.py" "/tmp/a.txt" "/tmp/report.json"
              w_ab _ H)
    as (printed & result & report & recs & _ & _ & _ & _ & _ & Hcount).
  exists result, recs. exact Hcount.
Defined.

Lemma analyzer_on_transformer_output_witness :
  process ["process_data.py"; "/tmp/in.json"; "/tmp/out.json"] w_in
  = (0, snd (process ["process_data.py"; "/tmp/in.json"; "/tmp/out.json"]
                     w_in))
  /\ (exists text,
        stat (fs (snd (process ["process_data.py"; "/tmp/in.json";
                                "/tmp/out.json"] w_in)))
             "/tmp/out.json"
        = inr (IFile text))
  /\ exists result w2,
       analyze_results now_iso dump_indent2 repr 4096
         "/tmp/out.json" "/tmp/report.json"
         (snd (process ["process_data.py"; "/tmp/in.json"; "/tmp/out.json"]
                       w_in))
       = (Returned result, w2).
Proof.
  assert (H : process ["process_data.py"; "/tmp/in.json"; "/tmp/out.json"]
                      w_in
              = (0, snd (process ["process_data.py"; "/tmp/in.json";
                                  "/tmp/out.json"] w_in)))
    by (vm_compute; reflexivity).
  split; [exact H|].
  pose proof (analyzer_on_transformer_output
                now_iso ascii_upper dumps dump_indent2 loads exn_str repr
                4096 "process_data.py" "/tmp/in.json" "/tmp/out.json"
                "/tmp/report.json" w_in _ H) as T.
  cbv zeta in T. destruct T as (text & Hstat & _ & _ & _ & Hok).
  split; [exists text; exact Hstat|].
  destruct Hok as (result & w2 & Hrun & _);
    [vm_compute; reflexivity|vm_compute; reflexivity|].
  exists result, w2. exact Hrun.
Defined.

Lemma exit_code_0_iff_result_line_witness :
  Forall (fun a => has_newline a = false)
         ["analyze_results.py"; "/tmp/a.txt"; "/tmp/r.json"]
  /\ (forall obj, has_newline (dumps obj) = false)
  /\ (forall e, has_newline (exn_str e) = false)
  /\ exists printed,
       stdout (snd (run Analyzer
                        ["analyze_results.py"; "/tmp/a.txt"; "/tmp/r.json"]
                        w_ab))
       = (stdout w_ab ++ printed)%list
       /\ ((fst (run Analyzer
                     ["analyze_results.py"; "/tmp/a.txt"; "/tmp/r.json"]
                     w_ab) = 0
            /\ exists progress line,
                 lines (stdout_text printed) = (progress ++ [line])%list
                 /\ is_result_line line = true
                 /\ Forall (fun l => is_result_line l = false) progress)
           \/ (fst (run Analyzer
                        ["analyze_results.py"; "/tmp/a.txt"; "/tmp/r.json"]
                        w_ab) = 1
               /\ Forall (fun l => is_result_line l = false)
                         (lines (stdout_text printed)))).
Proof.
  assert (H : Forall (fun a => has_newline a = false)
                     ["analyze_results.py"; "/tmp/a.txt"; "/tmp/r.json"])
    by (repeat constructor).
  split; [exact H|].
  split; [exact dumps_no_newline|]. split; [exact exn_str_no_newline|].
  pose proof (exit_code_0_iff_result_line
                now_iso ascii_upper dumps dump_indent2 loads exn_str repr
                4096 Analyzer
                ["analyze_results.py"; "/tmp/a.txt"; "/tmp/r.json"] w_ab
                H dumps_no_newline exn_str_no_newline) as T.
  cbv beta iota zeta in T. exact T.
Defined.
